(** * goStudyTest: a shallow embedding of the quiz application and its
      specification properties

    The Go sources of the terminal quiz application are embedded as Rocq
    functions:

    - [GoStrings]: the pieces of Go's [strings] and [strconv] packages the
      application calls (byte strings; ASCII classification);
    - [Float64]: IEEE 754 binary64 arithmetic, as Go's [float64];
    - [Pdf]: [GetTextSummary] of the text-extraction package;
    - [Database]: the persistence layer (tables as lists of rows, the
      option column serialised as text and parsed back as JSON);
    - [Tui]: the view-state machine ([App], [Update] and the per-screen
      handlers);
    - [Unicode]: [strings.TrimSpace] on UTF-8 text, with the white space
      of [unicode.IsSpace];
    - [PdfText]: [cleanText] and [ExtractText] of the text-extraction
      package, over a document given as its pages;
    - [Screens]: the screens that list tests, results and files, the steps
      of the PDF wizard that extract and generate, and [Update] with every
      handler in place, over a [World] that stands for the queries whose
      row order the engine decides, the file system, the extractor and the
      generator.

    Go strings are byte sequences: they are modelled by [string], a list of
    8-bit characters, and [len] is [String.length].  Go's [int] is modelled by
    [Z]; no arithmetic in the embedded code can leave the 64-bit range (the
    only arithmetic is on cursors, counters and list lengths), but for the
    conversion of a duration to nanoseconds, whose wrap-around is written
    out.
    A Go [map] is a [gmap]: reading an absent key yields the zero value. *)

From Stdlib Require Import ZArith String Ascii List Lia Bool SpecFloat.
From stdpp Require Import base option gmap strings list fin_maps sorting pretty.

Local Open Scope string_scope.
Local Open Scope Z_scope.

(** ** A result type for code that may panic *)

(** A Go function either returns or panics (index out of range, slice bounds
    out of range, nil dereference). *)
Inductive result (A : Type) : Type :=
  | Done (a : A)
  | Panic (why : string).
Arguments Done {A} a.
Arguments Panic {A} why.

#[global] Instance result_ret : MRet result := fun _ a => Done a.
#[global] Instance result_bind : MBind result := fun _ _ k r =>
  match r with
  | Done a => k a
  | Panic w => Panic w
  end.

(** ** Go's [strings] and [strconv] *)
Module GoStrings.

Definition code (c : ascii) : Z := Z.of_nat (nat_of_ascii c).

Definition chr (n : Z) : ascii := ascii_of_nat (Z.to_nat n).

(** The ASCII white space of [unicode.IsSpace]: tab, line feed, vertical
    tab, form feed, carriage return, space.  (On text outside ASCII Go
    also treats U+0085, U+00A0 and the Unicode space separators as white
    space; the application's input handlers only ever append single-byte
    keys to their buffers.) *)
Definition isSpace (c : ascii) : bool :=
  let n := code c in
  (9 <=? n) && (n <=? 13) || (n =? 32).

Fixpoint trimLeft (s : string) : string :=
  match s with
  | EmptyString => EmptyString
  | String c s' => if isSpace c then trimLeft s' else s
  end.

Fixpoint trimRight (s : string) : string :=
  match s with
  | EmptyString => EmptyString
  | String c s' =>
      match trimRight s' with
      | EmptyString => if isSpace c then EmptyString else String c EmptyString
      | t => String c t
      end
  end.

(** [strings.TrimSpace]: all leading and trailing white space removed. *)
Definition TrimSpace (s : string) : string := trimRight (trimLeft s).

Definition isUpper (c : ascii) : bool := (65 <=? code c) && (code c <=? 90).
Definition isLower (c : ascii) : bool := (97 <=? code c) && (code c <=? 122).

Definition toLowerChar (c : ascii) : ascii :=
  if isUpper c then chr (code c + 32) else c.

(** [strings.ToLower] on ASCII text: 'A'..'Z' are mapped to 'a'..'z'. *)
Fixpoint ToLower (s : string) : string :=
  match s with
  | EmptyString => EmptyString
  | String c s' => String (toLowerChar c) (ToLower s')
  end.


Definition isDigit (c : ascii) : bool := (48 <=? code c) && (code c <=? 57).

(** The digits loop of [strconv.Atoi]: [None] on a character that is not
    a decimal digit. *)
Fixpoint digits (acc : Z) (s : string) : option Z :=
  match s with
  | EmptyString => Some acc
  | String c s' =>
      if isDigit c then digits (acc * 10 + (code c - 48)) s' else None
  end.

Definition maxInt : Z := 2 ^ 63 - 1.
Definition minInt : Z := - 2 ^ 63.

(** [strconv.Atoi]: an optional sign followed by at least one decimal
    digit; [None] stands for a non-nil error ([ErrSyntax], or [ErrRange]
    when the value does not fit [int]). *)
Definition Atoi (s : string) : option Z :=
  let '(neg, body) :=
    match s with
    | String "-" s' => (true, s')
    | String "+" s' => (false, s')
    | _ => (false, s)
    end in
  match body with
  | EmptyString => None
  | _ =>
      match digits 0 body with
      | None => None
      | Some n =>
          let v := if (neg : bool) then - n else n in
          if (minInt <=? v) && (v <=? maxInt) then Some v else None
      end
  end.

(** [s\[:n\]] and [s\[i\]] for in-range indices (callers check the range). *)
Fixpoint take (n : nat) (s : string) : string :=
  match n, s with
  | S n', String c s' => String c (take n' s')
  | _, _ => EmptyString
  end.

Definition len (s : string) : Z := Z.of_nat (String.length s).

(** [s\[:len(s)-1\]] *)
Definition dropLast (s : string) : string := take (String.length s - 1) s.

End GoStrings.

(** ** Go's [float64] *)
Module Float64.

(** IEEE 754 binary64: 53 bits of precision, exponents below 1024. *)
Definition prec : Z := 53.
Definition emax : Z := 1024.

Definition float64 : Type := spec_float.

(** The conversion [float64(n)] of an integer, rounded to nearest even. *)
Definition of_int (n : Z) : float64 := binary_normalize prec emax n 0 false.

Definition div (x y : float64) : float64 := SFdiv prec emax x y.
Definition mul (x y : float64) : float64 := SFmul prec emax x y.

(** [x >= y] *)
Definition geb (x y : float64) : bool := SFleb y x.
(** [x < y] *)
Definition ltb (x y : float64) : bool := SFltb x y.

Definition zero : float64 := S754_zero false.

End Float64.

(** ** Go's [encoding/json], as far as [json.Unmarshal] into a [[]string]
       goes *)
Module Json.
Import GoStrings.

Definition inRange (lo hi : Z) (c : ascii) : bool :=
  (lo <=? code c) && (code c <=? hi).

(** JSON insignificant white space: space, tab, carriage return, line feed. *)
Definition isWS (c : ascii) : bool :=
  (code c =? 32) || (code c =? 9) || (code c =? 13) || (code c =? 10).

Definition hexVal (c : ascii) : option Z :=
  if inRange 48 57 c then Some (code c - 48)
  else if inRange 97 102 c then Some (code c - 87)
  else if inRange 65 70 c then Some (code c - 55)
  else None.

Definition isCont (c : ascii) : bool := inRange 128 191 c.

(** [utf8.DecodeRune]: the width of the well-formed UTF-8 sequence at the
    head of [s], or [None] where Go returns [(RuneError, 1)]. *)
Definition decodeSize (s : string) : option nat :=
  match s with
  | EmptyString => None
  | String c0 s1 =>
      let b0 := code c0 in
      if b0 <? 128 then Some 1%nat
      else if inRange 194 223 c0 then
        match s1 with
        | String c1 _ => if isCont c1 then Some 2%nat else None
        | _ => None
        end
      else if inRange 224 239 c0 then
        match s1 with
        | String c1 (String c2 _) =>
            let lo := if b0 =? 224 then 160 else 128 in
            let hi := if b0 =? 237 then 159 else 191 in
            if inRange lo hi c1 && isCont c2 then Some 3%nat else None
        | _ => None
        end
      else if inRange 240 244 c0 then
        match s1 with
        | String c1 (String c2 (String c3 _)) =>
            let lo := if b0 =? 240 then 144 else 128 in
            let hi := if b0 =? 244 then 143 else 191 in
            if inRange lo hi c1 && isCont c2 && isCont c3
            then Some 4%nat else None
        | _ => None
        end
      else None
  end.

Definition replacementChar : Z := 65533.

(** [utf8.EncodeRune] *)
Definition encodeRune (r : Z) : string :=
  let r := if (r <? 0) || (1114111 <? r) || ((55296 <=? r) && (r <=? 57343))
           then replacementChar else r in
  if r <=? 127 then String (chr r) ""
  else if r <=? 2047 then
    String (chr (192 + r / 64)) (String (chr (128 + r mod 64)) "")
  else if r <=? 65535 then
    String (chr (224 + r / 4096))
      (String (chr (128 + (r / 64) mod 64)) (String (chr (128 + r mod 64)) ""))
  else
    String (chr (240 + r / 262144))
      (String (chr (128 + (r / 4096) mod 64))
         (String (chr (128 + (r / 64) mod 64))
            (String (chr (128 + r mod 64)) ""))).

(** [getu4]: the value of a [\uXXXX] escape, given the text that follows
    the backslash *)
Definition getu4 (s : string) : option Z :=
  match s with
  | String "u" (String h1 (String h2 (String h3 (String h4 _)))) =>
      match hexVal h1, hexVal h2, hexVal h3, hexVal h4 with
      | Some a, Some b, Some c, Some d =>
          Some (((a * 16 + b) * 16 + c) * 16 + d)
      | _, _, _, _ => None
      end
  | _ => None
  end.

Fixpoint drop (n : nat) (s : string) : string :=
  match n, s with
  | S n', String _ s' => drop n' s'
  | _, _ => s
  end.

Definition isSurrogate (r : Z) : bool := (55296 <=? r) && (r <? 57344).

(** [utf16.DecodeRune] *)
Definition decodeSurrogates (r1 r2 : Z) : Z :=
  if (55296 <=? r1) && (r1 <? 56320) && (56320 <=? r2) && (r2 <? 57344)
  then (r1 - 55296) * 1024 + (r2 - 56320) + 65536
  else replacementChar.

(** How the decoder treats the next byte of a literal: decode it, copy it
    (a continuation byte of a sequence already recognised), or drop it
    (the rest of an escape already decoded). *)
Inductive mode : Type :=
  | Decode
  | Copy (n : nat)
  | Skip (n : nat).

Definition next (m : nat -> mode) (n : nat) : mode :=
  match n with
  | O => Decode
  | S k => m k
  end.

(** [unquoteBytes], on the text between the quotes: escapes decoded,
    ill-formed UTF-8 replaced by U+FFFD; [None] where Go reports failure. *)
Fixpoint unquoteFrom (m : mode) (s : string) : option string :=
  match s with
  | EmptyString => Some EmptyString
  | String c s' =>
      match m with
      | Copy n => String c <$> unquoteFrom (next Copy n) s'
      | Skip n => unquoteFrom (next Skip n) s'
      | Decode =>
          if code c =? 92 then
            match s' with
            | EmptyString => None
            | String e _ =>
                let simple (b : Z) := String (chr b) <$> unquoteFrom (Skip 0) s' in
                if (code e =? 34) || (code e =? 92) || (code e =? 47)
                   || (code e =? 39) then simple (code e)
                else if code e =? 98 then simple 8
                else if code e =? 102 then simple 12
                else if code e =? 110 then simple 10
                else if code e =? 114 then simple 13
                else if code e =? 116 then simple 9
                else if code e =? 117 then
                  match getu4 s' with
                  | None => None
                  | Some rr =>
                      if isSurrogate rr then
                        let dec :=
                          match drop 5 s' with
                          | String b t =>
                              if code b =? 92 then
                                match getu4 t with
                                | Some rr1 => decodeSurrogates rr rr1
                                | None => replacementChar
                                end
                              else replacementChar
                          | EmptyString => replacementChar
                          end in
                        if dec =? replacementChar
                        then append (encodeRune replacementChar)
                               <$> unquoteFrom (Skip 4) s'
                        else append (encodeRune dec)
                               <$> unquoteFrom (Skip 10) s'
                      else append (encodeRune rr) <$> unquoteFrom (Skip 4) s'
                  end
                else None
            end
          else if (code c =? 34) || (code c <? 32) then None
          else if code c <? 128 then String c <$> unquoteFrom Decode s'
          else
            match decodeSize s with
            | Some n => String c <$> unquoteFrom (next Copy (n - 1)) s'
            | None => append (encodeRune replacementChar)
                        <$> unquoteFrom Decode s'
            end
      end
  end.

Definition unquote (s : string) : option string := unquoteFrom Decode s.

(** The states of the scanner, restricted to the texts that decode into
    a [[]string] without error: an array whose elements are string
    literals or [null], or the literal [null] itself.  Every other text is
    either rejected by Go's scanner (a syntax error) or yields an
    [UnmarshalTypeError]; both are a non-nil error for the caller. *)
Inductive state : Type :=
  | Top
  | TopNull (k : nat)
  | Open
  | Elem
  | Str (raw : string)
  | StrEsc (raw : string)
  | StrEscU (k : nat) (raw : string)
  | ElemNull (k : nat)
  | After
  | Closed.

Definition nullChar (k : nat) : ascii :=
  match k with
  | 1%nat => "u"
  | _ => "l"
  end%char.

Definition snoc (s : string) (c : ascii) : string := s ++ String c "".

Definition beginElem (c : ascii) (empty_ok : bool) : option state :=
  if code c =? 34 then Some (Str "")
  else if code c =? 110 then Some (ElemNull 1)
  else if (code c =? 93) && empty_ok then Some Closed
  else None.

(** One pass over the text: [acc] collects the decoded elements. *)
Fixpoint scan (st : state) (acc : list string) (s : string)
  : option (list string) :=
  match s with
  | EmptyString =>
      match st with
      | Closed => Some acc
      | _ => None
      end
  | String c s' =>
      match st with
      | Top =>
          if isWS c then scan Top acc s'
          else if code c =? 91 then scan Open acc s'
          else if code c =? 110 then scan (TopNull 1) acc s'
          else None
      | TopNull k =>
          if Ascii.eqb c (nullChar k)
          then scan (if (k =? 3)%nat then Closed else TopNull (S k)) acc s'
          else None
      | Open =>
          if isWS c then scan Open acc s'
          else match beginElem c true with
               | Some st' => scan st' acc s'
               | None => None
               end
      | Elem =>
          if isWS c then scan Elem acc s'
          else match beginElem c false with
               | Some st' => scan st' acc s'
               | None => None
               end
      | Str raw =>
          if code c =? 34 then
            match unquote raw with
            | Some d => scan After (acc ++ [d]) s'
            | None => None
            end
          else if code c =? 92 then scan (StrEsc (snoc raw c)) acc s'
          else if code c <? 32 then None
          else scan (Str (snoc raw c)) acc s'
      | StrEsc raw =>
          if (code c =? 98) || (code c =? 102) || (code c =? 110)
             || (code c =? 114) || (code c =? 116) || (code c =? 92)
             || (code c =? 47) || (code c =? 34)
          then scan (Str (snoc raw c)) acc s'
          else if code c =? 117 then scan (StrEscU 4 (snoc raw c)) acc s'
          else None
      | StrEscU k raw =>
          match hexVal c with
          | Some _ =>
              scan (match k with
                    | S (S k') => StrEscU (S k') (snoc raw c)
                    | _ => Str (snoc raw c)
                    end) acc s'
          | None => None
          end
      | ElemNull k =>
          if Ascii.eqb c (nullChar k)
          then scan (if (k =? 3)%nat then After else ElemNull (S k))
                 (if (k =? 3)%nat then acc ++ [""] else acc) s'
          else None
      | After =>
          if isWS c then scan After acc s'
          else if code c =? 44 then scan Elem acc s'
          else if code c =? 93 then scan Closed acc s'
          else None
      | Closed => if isWS c then scan Closed acc s' else None
      end
  end.

(** [json.Unmarshal(text, &v)] for a nil [v : []string]: the decoded
    slice, or [None] for a non-nil error. *)
Definition Unmarshal (text : string) : option (list string) :=
  scan Top [] text.

End Json.

(** ** The persistence layer *)
Module Database.
Import GoStrings.

Module Test.
Record t : Type := {
  ID : Z;
  Name : string;
  Description : string;
  CreatedAt : Z;
  UpdatedAt : Z
}.
End Test.

Module Question.
Record t : Type := {
  ID : Z;
  TestID : Z;
  QuestionText : string;
  QuestionType : string;
  Options : list string;
  CorrectAnswer : string;
  Explanation : string;
  CreatedAt : Z
}.
End Question.

Module TestResult.
Record t : Type := {
  ID : Z;
  TestID : Z;
  Score : Float64.float64;
  TotalQuestions : Z;
  CorrectAnswers : Z;
  TimeTaken : Z;
  CompletedAt : Z
}.
End TestResult.

(** A row of table [questions]: the options are kept as the text that
    was inserted. *)
Record QuestionRow : Type := {
  row_id : Z;
  row_test_id : Z;
  row_question_text : string;
  row_question_type : string;
  row_options : string;
  row_correct_answer : string;
  row_explanation : string;
  row_created_at : Z
}.

(** The database file: the three tables the application writes, the
    AUTOINCREMENT counters of [sqlite_sequence], the clock behind
    [CURRENT_TIMESTAMP] and [time.Now] (in seconds), and the fault, if any,
    with which the engine refuses every statement (a closed handle, an I/O
    error), given by its message. *)
Record DB : Type := {
  tests : list Test.t;
  questions : list QuestionRow;
  test_results : list TestResult.t;
  seq_tests : Z;
  seq_questions : Z;
  seq_test_results : Z;
  clock : Z;
  fault : option string
}.

Definition empty : DB :=
  {| tests := []; questions := []; test_results := [];
     seq_tests := 0; seq_questions := 0; seq_test_results := 0;
     clock := 0; fault := None |}.

(** A Go result [(value, error)]: the value, or the text of the error. *)
Inductive outcome (A : Type) : Type :=
  | Ok (a : A)
  | Err (msg : string).
Arguments Ok {A} a.
Arguments Err {A} msg.

Definition wrap {A} (prefix : string) (r : outcome A) : outcome A :=
  match r with
  | Ok a => Ok a
  | Err msg => Err (prefix ++ ": " ++ msg)
  end.

Definition noRows : string := "sql: no rows in result set".
Definition full : string := "database or disk is full".

(** The rowid an [INTEGER PRIMARY KEY AUTOINCREMENT] column gets: one more
    than the largest rowid ever used; the insert fails once the largest
    rowid has been reached. *)
Definition max_id (ids : list Z) (seq : Z) : Z := foldr Z.max seq ids.

Definition next_id (ids : list Z) (seq : Z) : option Z :=
  let m := max_id ids seq in
  if m <? maxInt then Some (m + 1) else None.

Definition quote : ascii := "034"%char.

(** The text [CreateQuestion] stores for the options:
    the options joined by [","] between [\["] and ["\]], nothing escaped. *)
Definition optionsJSON (options : list string) : string :=
  match options with
  | [] => ""
  | o :: rest =>
      fold_left
        (fun acc o' => acc ++ String quote (String "," (String quote o')))
        rest (String "[" (String quote o))
      ++ String quote "]"
  end.

Definition validQuestionType (ty : string) : bool :=
  String.eqb ty "multiple_choice" || String.eqb ty "true_false"
  || String.eqb ty "short_answer".

(** The options of a row as [GetQuestion] and [GetQuestionsByTestID]
    decode them. *)
Definition parseOptions (text : string) : list string :=
  if String.eqb text "" then []
  else match Json.Unmarshal text with
       | Some opts => opts
       | None => []
       end.

Definition questionOfRow (r : QuestionRow) : Question.t :=
  {| Question.ID := row_id r;
     Question.TestID := row_test_id r;
     Question.QuestionText := row_question_text r;
     Question.QuestionType := row_question_type r;
     Question.Options := parseOptions (row_options r);
     Question.CorrectAnswer := row_correct_answer r;
     Question.Explanation := row_explanation r;
     Question.CreatedAt := row_created_at r |}.

Definition findRow {A} (p : A -> bool) (rows : list A) : outcome A :=
  match List.find p rows with
  | Some r => Ok r
  | None => Err noRows
  end.

Definition omap {A B} (f : A -> B) (r : outcome A) : outcome B :=
  match r with
  | Ok a => Ok (f a)
  | Err msg => Err msg
  end.

(** [GetQuestion]: the row with the given id, decoded. *)
Definition GetQuestion (db : DB) (id : Z) : outcome Question.t :=
  wrap "failed to get question"
    match fault db with
    | Some msg => Err msg
    | None => omap questionOfRow
                (findRow (fun r => row_id r =? id) (questions db))
    end.

Definition row_le (r1 r2 : QuestionRow) : Prop := row_id r1 <= row_id r2.
#[global] Instance row_le_dec : RelDecision row_le.
Proof. intros r1 r2. unfold row_le. apply Z_le_dec. Defined.

(** [GetQuestionsByTestID]: the rows of the test, in ascending id order. *)
Definition GetQuestionsByTestID (db : DB) (testID : Z)
  : outcome (list Question.t) :=
  match fault db with
  | Some msg => Err ("failed to get questions: " ++ msg)
  | None =>
      Ok (questionOfRow <$>
            merge_sort row_le
              (List.filter (fun r => row_test_id r =? testID)
                 (questions db)))
  end.

(** The outcome of an [INSERT] into a table with the given rowids: the
    new rowid, or the error of the engine. *)
Definition insertId (db : DB) (ids : list Z) (seq : Z) : outcome Z :=
  match fault db with
  | Some msg => Err msg
  | None =>
      match next_id ids seq with
      | Some id => Ok id
      | None => Err full
      end
  end.

Definition checkFailed : string :=
  "CHECK constraint failed: question_type IN ('multiple_choice', 'true_false', 'short_answer')".

(** [CreateQuestion]: the insert, then the row read back.  The insert
    fails when the engine is at fault, when the CHECK constraint on
    [question_type] rejects the row, or when no rowid is left. *)
Definition CreateQuestion (db : DB) (testID : Z)
    (questionText questionType correctAnswer explanation : string)
    (options : list string) : DB * outcome Question.t :=
  let inserted :=
    match insertId db (row_id <$> questions db) (seq_questions db) with
    | Err msg => Err msg
    | Ok id => if validQuestionType questionType then Ok id
               else Err checkFailed
    end in
  match inserted with
  | Err msg => (db, Err ("failed to create question: " ++ msg))
  | Ok id =>
      let row := {| row_id := id; row_test_id := testID;
                    row_question_text := questionText;
                    row_question_type := questionType;
                    row_options := optionsJSON options;
                    row_correct_answer := correctAnswer;
                    row_explanation := explanation;
                    row_created_at := clock db |} in
      let db' := {| tests := tests db;
                    questions := questions db ++ [row];
                    test_results := test_results db;
                    seq_tests := seq_tests db;
                    seq_questions := id;
                    seq_test_results := seq_test_results db;
                    clock := clock db;
                    fault := fault db |} in
      (db', GetQuestion db' id)
  end.

Definition GetTest (db : DB) (id : Z) : outcome Test.t :=
  wrap "failed to get test"
    match fault db with
    | Some msg => Err msg
    | None => findRow (fun t => Test.ID t =? id) (tests db)
    end.

Definition CreateTest (db : DB) (name description : string)
  : DB * outcome Test.t :=
  match insertId db (Test.ID <$> tests db) (seq_tests db) with
  | Err msg => (db, Err ("failed to create test: " ++ msg))
  | Ok id =>
      let t := {| Test.ID := id; Test.Name := name;
                  Test.Description := description;
                  Test.CreatedAt := clock db;
                  Test.UpdatedAt := clock db |} in
      let db' := {| tests := tests db ++ [t];
                    questions := questions db;
                    test_results := test_results db;
                    seq_tests := id;
                    seq_questions := seq_questions db;
                    seq_test_results := seq_test_results db;
                    clock := clock db;
                    fault := fault db |} in
      (db', GetTest db' id)
  end.

(** [SaveTestResult]: the insert, then the record built from the
    arguments and the new rowid. *)
Definition SaveTestResult (db : DB) (testID : Z) (score : Float64.float64)
    (totalQuestions correctAnswers timeTaken : Z)
  : DB * outcome TestResult.t :=
  match insertId db (TestResult.ID <$> test_results db)
          (seq_test_results db) with
  | Err msg => (db, Err ("failed to save test result: " ++ msg))
  | Ok id =>
      let r := {| TestResult.ID := id; TestResult.TestID := testID;
                  TestResult.Score := score;
                  TestResult.TotalQuestions := totalQuestions;
                  TestResult.CorrectAnswers := correctAnswers;
                  TestResult.TimeTaken := timeTaken;
                  TestResult.CompletedAt := clock db |} in
      let db' := {| tests := tests db;
                    questions := questions db;
                    test_results := test_results db ++ [r];
                    seq_tests := seq_tests db;
                    seq_questions := seq_questions db;
                    seq_test_results := id;
                    clock := clock db;
                    fault := fault db |} in
      (db', Ok r)
  end.

End Database.

(** ** The text-extraction package *)
Module Pdf.
Import GoStrings.

(** [text\[i\]] *)
Definition byteAt (text : string) (i : Z) : result ascii :=
  if (0 <=? i) && (i <? len text) then
    match String.get (Z.to_nat i) text with
    | Some c => Done c
    | None => Panic "index out of range"
    end
  else Panic "index out of range".

(** [text\[:n\]] *)
Definition prefix (text : string) (n : Z) : result string :=
  if (0 <=? n) && (n <=? len text) then Done (take (Z.to_nat n) text)
  else Panic "slice bounds out of range".

(** A space, a period or a line feed. *)
Definition isBreak (c : ascii) : bool :=
  (code c =? 32) || (code c =? 46) || (code c =? 10).

(** The loop [for i := maxLength; i > maxLength-50 && i > 0; i--] of
    [GetTextSummary], with [breakPoint] initially [maxLength]. The counter
    [n] is [i - (maxLength - 50)]: the loop starts at [n = 50], and
    [i > maxLength-50] holds exactly while [n] is positive. *)
Fixpoint findBreak (text : string) (maxLength : Z) (n : nat) : result Z :=
  match n with
  | O => Done maxLength
  | S n' =>
      let i := maxLength - 50 + Z.of_nat n in
      if i >? 0 then
        c ← byteAt text i;
        if isBreak c then Done i else findBreak text maxLength n'
      else Done maxLength
  end.

Definition GetTextSummary (text : string) (maxLength : Z) : result string :=
  if len text <=? maxLength then Done text
  else
    breakPoint ← findBreak text maxLength 50;
    head ← prefix text breakPoint;
    Done (head ++ "...").

End Pdf.

(** ** The view-state machine *)
Module Tui.
Import GoStrings Database.

Inductive ViewType : Type :=
  | MainMenuView
  | PDFProcessView
  | CustomQuestionView
  | TestSelectionView
  | TestTakingView
  | TestResultsView
  | FileSelectionView
  | QuestionGenView.

#[global] Instance ViewType_eq_dec : EqDecision ViewType.
Proof. solve_decision. Defined.

(** A message of the runtime: a key press, given by [msg.String()], or
    any other message (window size, ...). *)
Inductive Msg : Type :=
  | KeyMsg (key : string)
  | OtherMsg.

(** The command returned with the model: [nil] or [tea.Quit]. *)
Inductive Cmd : Type :=
  | NoCmd
  | Quit.

(** [l\[i\]] *)
Definition index {A} (l : list A) (i : Z) : result A :=
  if i <? 0 then Panic "index out of range"
  else match l !! Z.to_nat i with
       | Some x => Done x
       | None => Panic "index out of range"
       end.

Definition llen {A} (l : list A) : Z := Z.of_nat (length l).

Definition keyIs (key : string) (names : list string) : bool :=
  existsb (String.eqb key) names.

(** *** The per-screen models *)

Module MainMenuModel.
Record t : Type := {
  choices : list string;
  cursor : Z;
  selected : gset Z
}.
Definition with_cursor (c : Z) (m : t) : t :=
  {| choices := choices m; cursor := c; selected := selected m |}.
End MainMenuModel.

Definition NewMainMenuModel : MainMenuModel.t :=
  {| MainMenuModel.choices :=
       ["Generate questions from PDF"; "Create custom questions";
        "Take practice test"; "View saved tests"; "Exit"];
     MainMenuModel.cursor := 0;
     MainMenuModel.selected := ∅ |}.

Module TestTakingModel.
Record t : Type := {
  currentQuestion : Z;
  input : string;
  inputMode : bool;
  showResult : bool;
  resultMsg : string;
  cursor : Z;
  errorMsg : string;
  reviewMode : bool;
  reviewQuestion : Z
}.
Definition with_currentQuestion (v : Z) (m : t) : t :=
  {| currentQuestion := v; input := input m; inputMode := inputMode m;
     showResult := showResult m; resultMsg := resultMsg m;
     cursor := cursor m; errorMsg := errorMsg m;
     reviewMode := reviewMode m; reviewQuestion := reviewQuestion m |}.
Definition with_input (v : string) (m : t) : t :=
  {| currentQuestion := currentQuestion m; input := v;
     inputMode := inputMode m;
     showResult := showResult m; resultMsg := resultMsg m;
     cursor := cursor m; errorMsg := errorMsg m;
     reviewMode := reviewMode m; reviewQuestion := reviewQuestion m |}.
Definition with_showResult (v : bool) (m : t) : t :=
  {| currentQuestion := currentQuestion m; input := input m;
     inputMode := inputMode m;
     showResult := v; resultMsg := resultMsg m;
     cursor := cursor m; errorMsg := errorMsg m;
     reviewMode := reviewMode m; reviewQuestion := reviewQuestion m |}.
Definition with_cursor (v : Z) (m : t) : t :=
  {| currentQuestion := currentQuestion m; input := input m;
     inputMode := inputMode m;
     showResult := showResult m; resultMsg := resultMsg m;
     cursor := v; errorMsg := errorMsg m;
     reviewMode := reviewMode m; reviewQuestion := reviewQuestion m |}.
Definition with_errorMsg (v : string) (m : t) : t :=
  {| currentQuestion := currentQuestion m; input := input m;
     inputMode := inputMode m;
     showResult := showResult m; resultMsg := resultMsg m;
     cursor := cursor m; errorMsg := v;
     reviewMode := reviewMode m; reviewQuestion := reviewQuestion m |}.
Definition with_review (mode : bool) (q : Z) (m : t) : t :=
  {| currentQuestion := currentQuestion m; input := input m;
     inputMode := inputMode m;
     showResult := showResult m; resultMsg := resultMsg m;
     cursor := cursor m; errorMsg := errorMsg m;
     reviewMode := mode; reviewQuestion := q |}.
End TestTakingModel.

Definition NewTestTakingModel : TestTakingModel.t :=
  {| TestTakingModel.currentQuestion := 0;
     TestTakingModel.input := "";
     TestTakingModel.inputMode := false;
     TestTakingModel.showResult := false;
     TestTakingModel.resultMsg := "";
     TestTakingModel.cursor := 0;
     TestTakingModel.errorMsg := "";
     TestTakingModel.reviewMode := false;
     TestTakingModel.reviewQuestion := 0 |}.

Module PDFProcessModel.
Record t : Type := {
  selectedFile : string;
  extractedText : string;
  step : Z;
  errorMsg : string;
  successMsg : string;
  loading : bool;
  numQuestions : string;
  questionTypes : gmap string bool;
  testName : string;
  testDesc : string;
  inputMode : string;
  input : string;
  cursor : Z
}.
Definition with_step (v : Z) (m : t) : t :=
  {| selectedFile := selectedFile m; extractedText := extractedText m;
     step := v; errorMsg := errorMsg m; successMsg := successMsg m;
     loading := loading m; numQuestions := numQuestions m;
     questionTypes := questionTypes m; testName := testName m;
     testDesc := testDesc m; inputMode := inputMode m;
     input := input m; cursor := cursor m |}.
Definition with_errorMsg (v : string) (m : t) : t :=
  {| selectedFile := selectedFile m; extractedText := extractedText m;
     step := step m; errorMsg := v; successMsg := successMsg m;
     loading := loading m; numQuestions := numQuestions m;
     questionTypes := questionTypes m; testName := testName m;
     testDesc := testDesc m; inputMode := inputMode m;
     input := input m; cursor := cursor m |}.
Definition with_numQuestions (v : string) (m : t) : t :=
  {| selectedFile := selectedFile m; extractedText := extractedText m;
     step := step m; errorMsg := errorMsg m; successMsg := successMsg m;
     loading := loading m; numQuestions := v;
     questionTypes := questionTypes m; testName := testName m;
     testDesc := testDesc m; inputMode := inputMode m;
     input := input m; cursor := cursor m |}.
Definition with_questionTypes (v : gmap string bool) (m : t) : t :=
  {| selectedFile := selectedFile m; extractedText := extractedText m;
     step := step m; errorMsg := errorMsg m; successMsg := successMsg m;
     loading := loading m; numQuestions := numQuestions m;
     questionTypes := v; testName := testName m;
     testDesc := testDesc m; inputMode := inputMode m;
     input := input m; cursor := cursor m |}.
Definition with_testName (v : string) (m : t) : t :=
  {| selectedFile := selectedFile m; extractedText := extractedText m;
     step := step m; errorMsg := errorMsg m; successMsg := successMsg m;
     loading := loading m; numQuestions := numQuestions m;
     questionTypes := questionTypes m; testName := v;
     testDesc := testDesc m; inputMode := inputMode m;
     input := input m; cursor := cursor m |}.
Definition with_testDesc (v : string) (m : t) : t :=
  {| selectedFile := selectedFile m; extractedText := extractedText m;
     step := step m; errorMsg := errorMsg m; successMsg := successMsg m;
     loading := loading m; numQuestions := numQuestions m;
     questionTypes := questionTypes m; testName := testName m;
     testDesc := v; inputMode := inputMode m;
     input := input m; cursor := cursor m |}.
Definition with_input (mode v : string) (m : t) : t :=
  {| selectedFile := selectedFile m; extractedText := extractedText m;
     step := step m; errorMsg := errorMsg m; successMsg := successMsg m;
     loading := loading m; numQuestions := numQuestions m;
     questionTypes := questionTypes m; testName := testName m;
     testDesc := testDesc m; inputMode := mode;
     input := v; cursor := cursor m |}.
Definition with_cursor (v : Z) (m : t) : t :=
  {| selectedFile := selectedFile m; extractedText := extractedText m;
     step := step m; errorMsg := errorMsg m; successMsg := successMsg m;
     loading := loading m; numQuestions := numQuestions m;
     questionTypes := questionTypes m; testName := testName m;
     testDesc := testDesc m; inputMode := inputMode m;
     input := input m; cursor := v |}.
End PDFProcessModel.

Definition NewPDFProcessModel : PDFProcessModel.t :=
  {| PDFProcessModel.selectedFile := "";
     PDFProcessModel.extractedText := "";
     PDFProcessModel.step := 0;
     PDFProcessModel.errorMsg := "";
     PDFProcessModel.successMsg := "";
     PDFProcessModel.loading := false;
     PDFProcessModel.numQuestions := "5";
     PDFProcessModel.questionTypes :=
       <["multiple_choice" := true]>
         (<["true_false" := false]> (<["short_answer" := false]> ∅));
     PDFProcessModel.testName := "Generated Test";
     PDFProcessModel.testDesc := "Test generated from PDF";
     PDFProcessModel.inputMode := "";
     PDFProcessModel.input := "";
     PDFProcessModel.cursor := 0 |}.

Module CurrentQuestion.
Record t : Type := {
  text : string;
  qType : string;
  options : list string;
  correctAnswer : string;
  explanation : string
}.
End CurrentQuestion.

Module QuestionData.
Record t : Type := {
  Text : string;
  Type_ : string;
  Options : list string;
  CorrectAnswer : string;
  Explanation : string
}.
End QuestionData.

Module CustomQuestionModel.
Record t : Type := {
  step : Z;
  cursor : Z;
  inputMode : string;
  input : string;
  errorMsg : string;
  successMsg : string;
  testName : string;
  testDesc : string;
  currentQuestion : CurrentQuestion.t;
  questions : list QuestionData.t;
  questionTypes : list string;
  typeIndex : Z;
  optionIndex : Z
}.
Definition with_step (s c : Z) (m : t) : t :=
  {| step := s; cursor := c; inputMode := inputMode m;
     input := input m; errorMsg := errorMsg m;
     successMsg := successMsg m; testName := testName m;
     testDesc := testDesc m; currentQuestion := currentQuestion m;
     questions := questions m; questionTypes := questionTypes m;
     typeIndex := typeIndex m; optionIndex := optionIndex m |}.
Definition with_cursor (v : Z) (m : t) : t := with_step (step m) v m.
Definition with_input (mode v : string) (m : t) : t :=
  {| step := step m; cursor := cursor m; inputMode := mode;
     input := v; errorMsg := errorMsg m;
     successMsg := successMsg m; testName := testName m;
     testDesc := testDesc m; currentQuestion := currentQuestion m;
     questions := questions m; questionTypes := questionTypes m;
     typeIndex := typeIndex m; optionIndex := optionIndex m |}.
Definition with_errorMsg (v : string) (m : t) : t :=
  {| step := step m; cursor := cursor m; inputMode := inputMode m;
     input := input m; errorMsg := v;
     successMsg := successMsg m; testName := testName m;
     testDesc := testDesc m; currentQuestion := currentQuestion m;
     questions := questions m; questionTypes := questionTypes m;
     typeIndex := typeIndex m; optionIndex := optionIndex m |}.
Definition with_successMsg (v : string) (m : t) : t :=
  {| step := step m; cursor := cursor m; inputMode := inputMode m;
     input := input m; errorMsg := errorMsg m;
     successMsg := v; testName := testName m;
     testDesc := testDesc m; currentQuestion := currentQuestion m;
     questions := questions m; questionTypes := questionTypes m;
     typeIndex := typeIndex m; optionIndex := optionIndex m |}.
Definition with_testName (v : string) (m : t) : t :=
  {| step := step m; cursor := cursor m; inputMode := inputMode m;
     input := input m; errorMsg := errorMsg m;
     successMsg := successMsg m; testName := v;
     testDesc := testDesc m; currentQuestion := currentQuestion m;
     questions := questions m; questionTypes := questionTypes m;
     typeIndex := typeIndex m; optionIndex := optionIndex m |}.
Definition with_testDesc (v : string) (m : t) : t :=
  {| step := step m; cursor := cursor m; inputMode := inputMode m;
     input := input m; errorMsg := errorMsg m;
     successMsg := successMsg m; testName := testName m;
     testDesc := v; currentQuestion := currentQuestion m;
     questions := questions m; questionTypes := questionTypes m;
     typeIndex := typeIndex m; optionIndex := optionIndex m |}.
Definition with_currentQuestion (v : CurrentQuestion.t) (m : t) : t :=
  {| step := step m; cursor := cursor m; inputMode := inputMode m;
     input := input m; errorMsg := errorMsg m;
     successMsg := successMsg m; testName := testName m;
     testDesc := testDesc m; currentQuestion := v;
     questions := questions m; questionTypes := questionTypes m;
     typeIndex := typeIndex m; optionIndex := optionIndex m |}.
Definition with_questions (v : list QuestionData.t) (m : t) : t :=
  {| step := step m; cursor := cursor m; inputMode := inputMode m;
     input := input m; errorMsg := errorMsg m;
     successMsg := successMsg m; testName := testName m;
     testDesc := testDesc m; currentQuestion := currentQuestion m;
     questions := v; questionTypes := questionTypes m;
     typeIndex := typeIndex m; optionIndex := optionIndex m |}.
Definition with_typeIndex (v : Z) (m : t) : t :=
  {| step := step m; cursor := cursor m; inputMode := inputMode m;
     input := input m; errorMsg := errorMsg m;
     successMsg := successMsg m; testName := testName m;
     testDesc := testDesc m; currentQuestion := currentQuestion m;
     questions := questions m; questionTypes := questionTypes m;
     typeIndex := v; optionIndex := optionIndex m |}.
Definition with_optionIndex (v : Z) (m : t) : t :=
  {| step := step m; cursor := cursor m; inputMode := inputMode m;
     input := input m; errorMsg := errorMsg m;
     successMsg := successMsg m; testName := testName m;
     testDesc := testDesc m; currentQuestion := currentQuestion m;
     questions := questions m; questionTypes := questionTypes m;
     typeIndex := typeIndex m; optionIndex := v |}.
End CustomQuestionModel.

(** [make(\[\]string, n)]: [n] empty strings. *)
Definition makeStrings (n : nat) : list string := replicate n "".

Definition NewCustomQuestionModel : CustomQuestionModel.t :=
  {| CustomQuestionModel.step := 0;
     CustomQuestionModel.cursor := 0;
     CustomQuestionModel.inputMode := "";
     CustomQuestionModel.input := "";
     CustomQuestionModel.errorMsg := "";
     CustomQuestionModel.successMsg := "";
     CustomQuestionModel.testName := "Custom Test";
     CustomQuestionModel.testDesc := "Custom created test";
     CustomQuestionModel.currentQuestion :=
       {| CurrentQuestion.text := "";
          CurrentQuestion.qType := "multiple_choice";
          CurrentQuestion.options := makeStrings 4;
          CurrentQuestion.correctAnswer := "";
          CurrentQuestion.explanation := "" |};
     CustomQuestionModel.questions := [];
     CustomQuestionModel.questionTypes :=
       ["multiple_choice"; "true_false"; "short_answer"];
     CustomQuestionModel.typeIndex := 0;
     CustomQuestionModel.optionIndex := 0 |}.

Module TestSelectionModel.
Record t : Type := {
  tests : list Test.t;
  cursor : Z;
  purpose : string;
  errorMsg : string;
  loading : bool
}.
Definition with_purpose (v : string) (m : t) : t :=
  {| tests := tests m; cursor := cursor m; purpose := v;
     errorMsg := errorMsg m; loading := loading m |}.
End TestSelectionModel.

Definition NewTestSelectionModel : TestSelectionModel.t :=
  {| TestSelectionModel.tests := [];
     TestSelectionModel.cursor := 0;
     TestSelectionModel.purpose := "";
     TestSelectionModel.errorMsg := "";
     TestSelectionModel.loading := false |}.

Module FileSelectionModel.
Record t : Type := {
  files : list string;
  cursor : Z;
  currentDir : string;
  purpose : string;
  errorMsg : string;
  loading : bool;
  inputMode : bool;
  input : string
}.
Definition with_purpose (v : string) (m : t) : t :=
  {| files := files m; cursor := cursor m; currentDir := currentDir m;
     purpose := v; errorMsg := errorMsg m; loading := loading m;
     inputMode := inputMode m; input := input m |}.
End FileSelectionModel.

Module AnswerData.
Record t : Type := {
  QuestionText : string;
  UserAnswer : string;
  CorrectAnswer : string;
  IsCorrect : bool;
  Explanation : string
}.
End AnswerData.

Module TestResultData.
Record t : Type := {
  ID : Z;
  TestName : string;
  Score : Z;
  TotalQuestions : Z;
  Percentage : Float64.float64;
  TimeTaken : Z;
  CompletedAt : Z;
  Answers : list AnswerData.t
}.
End TestResultData.

Module TestResultsModel.
Record t : Type := {
  cursor : Z;
  results : list TestResultData.t;
  selectedResult : option TestResultData.t;
  viewMode : string;
  errorMsg : string;
  successMsg : string
}.
End TestResultsModel.

Module QuestionGenModel.
Record t : Type := {
  cursor : Z;
  status : string;
  errorMsg : string;
  successMsg : string;
  progress : string;
  generatedQuestions : Z;
  totalQuestions : Z
}.
End QuestionGenModel.

(** *** The application state *)

(** The [App] structure. The handle [db] is the database itself; the
    question-generation client and the PDF processor hold no state of
    their own. *)
Record App : Type := {
  currentView : ViewType;
  db : DB;
  mainMenu : MainMenuModel.t;
  pdfProcess : PDFProcessModel.t;
  customQuestion : CustomQuestionModel.t;
  testSelection : TestSelectionModel.t;
  testTaking : TestTakingModel.t;
  testResults : TestResultsModel.t;
  fileSelection : FileSelectionModel.t;
  questionGen : QuestionGenModel.t;
  currentTest : option Test.t;
  currentQuestions : list Question.t;
  userAnswers : gmap Z string;
  testStartTime : Z
}.

Definition with_currentView (v : ViewType) (a : App) : App :=
  {| currentView := v; db := db a; mainMenu := mainMenu a;
     pdfProcess := pdfProcess a; customQuestion := customQuestion a;
     testSelection := testSelection a; testTaking := testTaking a;
     testResults := testResults a; fileSelection := fileSelection a;
     questionGen := questionGen a; currentTest := currentTest a;
     currentQuestions := currentQuestions a;
     userAnswers := userAnswers a; testStartTime := testStartTime a |}.
Definition with_db (v : DB) (a : App) : App :=
  {| currentView := currentView a; db := v; mainMenu := mainMenu a;
     pdfProcess := pdfProcess a; customQuestion := customQuestion a;
     testSelection := testSelection a; testTaking := testTaking a;
     testResults := testResults a; fileSelection := fileSelection a;
     questionGen := questionGen a; currentTest := currentTest a;
     currentQuestions := currentQuestions a;
     userAnswers := userAnswers a; testStartTime := testStartTime a |}.
Definition with_mainMenu (v : MainMenuModel.t) (a : App) : App :=
  {| currentView := currentView a; db := db a; mainMenu := v;
     pdfProcess := pdfProcess a; customQuestion := customQuestion a;
     testSelection := testSelection a; testTaking := testTaking a;
     testResults := testResults a; fileSelection := fileSelection a;
     questionGen := questionGen a; currentTest := currentTest a;
     currentQuestions := currentQuestions a;
     userAnswers := userAnswers a; testStartTime := testStartTime a |}.
Definition with_pdfProcess (v : PDFProcessModel.t) (a : App) : App :=
  {| currentView := currentView a; db := db a; mainMenu := mainMenu a;
     pdfProcess := v; customQuestion := customQuestion a;
     testSelection := testSelection a; testTaking := testTaking a;
     testResults := testResults a; fileSelection := fileSelection a;
     questionGen := questionGen a; currentTest := currentTest a;
     currentQuestions := currentQuestions a;
     userAnswers := userAnswers a; testStartTime := testStartTime a |}.
Definition with_customQuestion (v : CustomQuestionModel.t) (a : App) : App :=
  {| currentView := currentView a; db := db a; mainMenu := mainMenu a;
     pdfProcess := pdfProcess a; customQuestion := v;
     testSelection := testSelection a; testTaking := testTaking a;
     testResults := testResults a; fileSelection := fileSelection a;
     questionGen := questionGen a; currentTest := currentTest a;
     currentQuestions := currentQuestions a;
     userAnswers := userAnswers a; testStartTime := testStartTime a |}.
Definition with_testSelection (v : TestSelectionModel.t) (a : App) : App :=
  {| currentView := currentView a; db := db a; mainMenu := mainMenu a;
     pdfProcess := pdfProcess a; customQuestion := customQuestion a;
     testSelection := v; testTaking := testTaking a;
     testResults := testResults a; fileSelection := fileSelection a;
     questionGen := questionGen a; currentTest := currentTest a;
     currentQuestions := currentQuestions a;
     userAnswers := userAnswers a; testStartTime := testStartTime a |}.
Definition with_testTaking (v : TestTakingModel.t) (a : App) : App :=
  {| currentView := currentView a; db := db a; mainMenu := mainMenu a;
     pdfProcess := pdfProcess a; customQuestion := customQuestion a;
     testSelection := testSelection a; testTaking := v;
     testResults := testResults a; fileSelection := fileSelection a;
     questionGen := questionGen a; currentTest := currentTest a;
     currentQuestions := currentQuestions a;
     userAnswers := userAnswers a; testStartTime := testStartTime a |}.
Definition with_fileSelection (v : FileSelectionModel.t) (a : App) : App :=
  {| currentView := currentView a; db := db a; mainMenu := mainMenu a;
     pdfProcess := pdfProcess a; customQuestion := customQuestion a;
     testSelection := testSelection a; testTaking := testTaking a;
     testResults := testResults a; fileSelection := v;
     questionGen := questionGen a; currentTest := currentTest a;
     currentQuestions := currentQuestions a;
     userAnswers := userAnswers a; testStartTime := testStartTime a |}.
Definition with_currentTest (v : option Test.t) (a : App) : App :=
  {| currentView := currentView a; db := db a; mainMenu := mainMenu a;
     pdfProcess := pdfProcess a; customQuestion := customQuestion a;
     testSelection := testSelection a; testTaking := testTaking a;
     testResults := testResults a; fileSelection := fileSelection a;
     questionGen := questionGen a; currentTest := v;
     currentQuestions := currentQuestions a;
     userAnswers := userAnswers a; testStartTime := testStartTime a |}.
Definition with_currentQuestions (v : list Question.t) (a : App) : App :=
  {| currentView := currentView a; db := db a; mainMenu := mainMenu a;
     pdfProcess := pdfProcess a; customQuestion := customQuestion a;
     testSelection := testSelection a; testTaking := testTaking a;
     testResults := testResults a; fileSelection := fileSelection a;
     questionGen := questionGen a; currentTest := currentTest a;
     currentQuestions := v;
     userAnswers := userAnswers a; testStartTime := testStartTime a |}.
Definition with_userAnswers (v : gmap Z string) (a : App) : App :=
  {| currentView := currentView a; db := db a; mainMenu := mainMenu a;
     pdfProcess := pdfProcess a; customQuestion := customQuestion a;
     testSelection := testSelection a; testTaking := testTaking a;
     testResults := testResults a; fileSelection := fileSelection a;
     questionGen := questionGen a; currentTest := currentTest a;
     currentQuestions := currentQuestions a;
     userAnswers := v; testStartTime := testStartTime a |}.

(** [NewFileSelectionModel]; the home directory is given by the
    environment. *)
Definition NewFileSelectionModel (homeDir : string) : FileSelectionModel.t :=
  {| FileSelectionModel.files := [];
     FileSelectionModel.cursor := 0;
     FileSelectionModel.currentDir := homeDir;
     FileSelectionModel.purpose := "";
     FileSelectionModel.errorMsg := "";
     FileSelectionModel.loading := false;
     FileSelectionModel.inputMode := false;
     FileSelectionModel.input := "" |}.

Definition NewTestResultsModel : TestResultsModel.t :=
  {| TestResultsModel.cursor := 0;
     TestResultsModel.results := [];
     TestResultsModel.selectedResult := None;
     TestResultsModel.viewMode := "list";
     TestResultsModel.errorMsg := "";
     TestResultsModel.successMsg := "" |}.

Definition NewQuestionGenModel : QuestionGenModel.t :=
  {| QuestionGenModel.cursor := 0;
     QuestionGenModel.status := "idle";
     QuestionGenModel.errorMsg := "";
     QuestionGenModel.successMsg := "";
     QuestionGenModel.progress := "";
     QuestionGenModel.generatedQuestions := 0;
     QuestionGenModel.totalQuestions := 0 |}.

(** [NewApp], once the database has been opened. *)
Definition NewApp (d : DB) (homeDir : string) : App :=
  {| currentView := MainMenuView;
     db := d;
     mainMenu := NewMainMenuModel;
     pdfProcess := NewPDFProcessModel;
     customQuestion := NewCustomQuestionModel;
     testSelection := NewTestSelectionModel;
     testTaking := NewTestTakingModel;
     testResults := NewTestResultsModel;
     fileSelection := NewFileSelectionModel homeDir;
     questionGen := NewQuestionGenModel;
     currentTest := None;
     currentQuestions := [];
     userAnswers := ∅;
     testStartTime := 0 |}.

(** *** Helpers of models.go *)

(** [calculateScore]: the loop counts the questions whose answer is
    present and equal to the correct answer after trimming and lowering
    both; the score is the percentage, computed in [float64]. *)
Definition calculateScore (questions : list Question.t)
    (answers : gmap Z string) : Z * Float64.float64 :=
  let correct :=
    fold_left
      (fun correct q =>
         match answers !! Question.ID q with
         | None => correct
         | Some userAnswer =>
             let correctAnswer :=
               ToLower (TrimSpace (Question.CorrectAnswer q)) in
             let userAnswer := ToLower (TrimSpace userAnswer) in
             if String.eqb correctAnswer userAnswer
             then correct + 1 else correct
         end)
      questions 0 in
  let total := llen questions in
  let score :=
    if total >? 0
    then Float64.mul
           (Float64.div (Float64.of_int correct) (Float64.of_int total))
           (Float64.of_int 100)
    else Float64.zero in
  (correct, score).

(** [validateInput]: [Some] error text, or [None] for a nil error. *)
Definition validateInput (input : string) (minLength : Z) : option string :=
  let input := TrimSpace input in
  if len input <? minLength
  then Some ("input must be at least " ++ pretty minLength
             ++ " characters long")
  else None.

(** *** test_results.go *)

Definition getGrade (percentage : Float64.float64) : string :=
  if Float64.geb percentage (Float64.of_int 90) then "A"
  else if Float64.geb percentage (Float64.of_int 80) then "B"
  else if Float64.geb percentage (Float64.of_int 70) then "C"
  else if Float64.geb percentage (Float64.of_int 60) then "D"
  else "F".

(** *** main_menu.go *)

Definition handleMainMenuSelection (a : App) : App * Cmd :=
  let c := MainMenuModel.cursor (mainMenu a) in
  if c =? 0 then
    (with_fileSelection
       (FileSelectionModel.with_purpose "pdf_generation" (fileSelection a))
       (with_currentView FileSelectionView a), NoCmd)
  else if c =? 1 then (with_currentView CustomQuestionView a, NoCmd)
  else if c =? 2 then
    (with_testSelection
       (TestSelectionModel.with_purpose "take_test" (testSelection a))
       (with_currentView TestSelectionView a), NoCmd)
  else if c =? 3 then
    (with_testSelection
       (TestSelectionModel.with_purpose "view_tests" (testSelection a))
       (with_currentView TestSelectionView a), NoCmd)
  else if c =? 4 then (a, Quit)
  else (a, NoCmd).

Definition updateMainMenu (a : App) (msg : Msg) : App * Cmd :=
  match msg with
  | KeyMsg key =>
      let m := mainMenu a in
      let c := MainMenuModel.cursor m in
      if keyIs key ["q"] then (a, Quit)
      else if keyIs key ["up"; "k"] then
        (if c >? 0 then with_mainMenu (MainMenuModel.with_cursor (c - 1) m) a
         else a, NoCmd)
      else if keyIs key ["down"; "j"] then
        (if c <? llen (MainMenuModel.choices m) - 1
         then with_mainMenu (MainMenuModel.with_cursor (c + 1) m) a
         else a, NoCmd)
      else if keyIs key ["enter"; " "] then handleMainMenuSelection a
      else (a, NoCmd)
  | OtherMsg => (a, NoCmd)
  end.

(** *** test_taking.go *)

Definition letters : list string := ["A"; "B"; "C"; "D"].

Definition nextQuestion (a : App) : App * Cmd :=
  let tt := TestTakingModel.with_cursor 0 (testTaking a) in
  let cq := TestTakingModel.currentQuestion tt in
  (with_testTaking
     (if cq <? llen (currentQuestions a) - 1
      then TestTakingModel.with_currentQuestion (cq + 1) tt
      else TestTakingModel.with_showResult true tt) a, NoCmd).

Definition handleMultipleChoice (a : App) (key : string)
  : result (App * Cmd) :=
  let tt := testTaking a in
  let cursor := TestTakingModel.cursor tt in
  currentQ ← index (currentQuestions a) (TestTakingModel.currentQuestion tt);
  if keyIs key ["up"; "k"] then
    Done (if cursor >? 0
          then with_testTaking (TestTakingModel.with_cursor (cursor - 1) tt) a
          else a, NoCmd)
  else if keyIs key ["down"; "j"] then
    Done (if cursor <? llen (Question.Options currentQ) - 1
          then with_testTaking (TestTakingModel.with_cursor (cursor + 1) tt) a
          else a, NoCmd)
  else if keyIs key ["enter"; " "] then
    if llen (Question.Options currentQ) >? cursor then
      if cursor <? llen letters then
        letter ← index letters cursor;
        Done (nextQuestion
                (with_userAnswers
                   (<[Question.ID currentQ := letter]> (userAnswers a)) a))
      else Done (a, NoCmd)
    else Done (a, NoCmd)
  else Done (a, NoCmd).

Definition handleTrueFalse (a : App) (key : string) : result (App * Cmd) :=
  let tt := testTaking a in
  let cursor := TestTakingModel.cursor tt in
  currentQ ← index (currentQuestions a) (TestTakingModel.currentQuestion tt);
  if keyIs key ["up"; "k"] then
    Done (if cursor >? 0
          then with_testTaking (TestTakingModel.with_cursor (cursor - 1) tt) a
          else a, NoCmd)
  else if keyIs key ["down"; "j"] then
    Done (if cursor <? 1
          then with_testTaking (TestTakingModel.with_cursor (cursor + 1) tt) a
          else a, NoCmd)
  else if keyIs key ["enter"; " "] then
    let answer := if cursor =? 1 then "false" else "true" in
    Done (nextQuestion
            (with_userAnswers
               (<[Question.ID currentQ := answer]> (userAnswers a)) a))
  else Done (a, NoCmd).

Definition handleShortAnswer (a : App) (key : string) : result (App * Cmd) :=
  let tt := testTaking a in
  let input := TestTakingModel.input tt in
  currentQ ← index (currentQuestions a) (TestTakingModel.currentQuestion tt);
  if keyIs key ["enter"] then
    if String.eqb (TrimSpace input) "" then
      Done (with_testTaking
              (TestTakingModel.with_errorMsg "Please enter an answer" tt) a,
            NoCmd)
    else
      Done (nextQuestion
              (with_testTaking (TestTakingModel.with_input "" tt)
                 (with_userAnswers
                    (<[Question.ID currentQ := TrimSpace input]>
                       (userAnswers a)) a)))
  else if keyIs key ["backspace"] then
    Done (if len input >? 0
          then with_testTaking
                 (TestTakingModel.with_input (dropLast input) tt) a
          else a, NoCmd)
  else
    Done (if len key =? 1
          then with_testTaking
                 (TestTakingModel.with_input (input ++ key) tt) a
          else a, NoCmd).

Definition handleAnswerReview (a : App) (key : string) : App * Cmd :=
  let tt := testTaking a in
  let rq := TestTakingModel.reviewQuestion tt in
  if keyIs key ["left"; "h"] then
    (if rq >? 0
     then with_testTaking (TestTakingModel.with_review true (rq - 1) tt) a
     else a, NoCmd)
  else if keyIs key ["right"; "l"] then
    (if rq <? llen (currentQuestions a) - 1
     then with_testTaking (TestTakingModel.with_review true (rq + 1) tt) a
     else a, NoCmd)
  else if keyIs key ["esc"] then
    (with_testTaking (TestTakingModel.with_review false 0 tt) a, NoCmd)
  else (a, NoCmd).

(** [saveTestResults]; the elapsed time is read off the clock. *)
Definition saveTestResults (a : App) : result (App * Cmd) :=
  let '(correct, score) :=
    calculateScore (currentQuestions a) (userAnswers a) in
  let total := llen (currentQuestions a) in
  let timeTaken := clock (db a) - testStartTime a in
  match currentTest a with
  | None => Panic "nil pointer dereference"
  | Some test =>
      match SaveTestResult (db a) (Test.ID test) score total correct
              timeTaken with
      | (_, Err err) =>
          Done (with_testTaking
                  (TestTakingModel.with_errorMsg
                     ("Failed to save results: " ++ err) (testTaking a)) a,
                NoCmd)
      | (db', Ok _) =>
          Done (with_currentView MainMenuView
                  (with_userAnswers ∅
                     (with_currentQuestions []
                        (with_currentTest None
                           (with_testTaking NewTestTakingModel
                              (with_db db' a))))), NoCmd)
      end
  end.

Definition handleResultView (a : App) (key : string) : result (App * Cmd) :=
  if TestTakingModel.reviewMode (testTaking a)
  then Done (handleAnswerReview a key)
  else if keyIs key ["enter"] then saveTestResults a
  else if keyIs key ["r"] then
    Done (with_testTaking
            (TestTakingModel.with_review true 0 (testTaking a)) a, NoCmd)
  else Done (a, NoCmd).

Definition updateTestTaking (a : App) (msg : Msg) : result (App * Cmd) :=
  if llen (currentQuestions a) =? 0
  then Done (with_currentView MainMenuView a, NoCmd)
  else
    match msg with
    | KeyMsg key =>
        if TestTakingModel.showResult (testTaking a)
        then handleResultView a key
        else
          currentQ ← index (currentQuestions a)
                       (TestTakingModel.currentQuestion (testTaking a));
          let ty := Question.QuestionType currentQ in
          if String.eqb ty "multiple_choice" then handleMultipleChoice a key
          else if String.eqb ty "true_false" then handleTrueFalse a key
          else if String.eqb ty "short_answer" then handleShortAnswer a key
          else Done (a, NoCmd)
    | OtherMsg => Done (a, NoCmd)
    end.

(** *** pdf_process.go *)

Definition questionTypeNames : list string :=
  ["multiple_choice"; "true_false"; "short_answer"].

(** [m\[k\]] on a [map\[string\]bool]: [false] for an absent key. *)
Definition enabled (m : gmap string bool) (k : string) : bool :=
  default false (m !! k).

(** The loop of [toggleQuestionTypes] from index [i] on, [rest] being
    [types\[i:\]]. *)
Fixpoint toggleFrom (types rest : list string) (i : Z)
    (m : gmap string bool) : result (gmap string bool) :=
  match rest with
  | [] => Done m
  | qType :: rest' =>
      if enabled m qType then
        nextType ← index types ((i + 1) `mod` llen types);
        Done (<[nextType := true]> (<[qType := false]> m))
      else toggleFrom types rest' (i + 1) m
  end.

Definition toggleQuestionTypes (a : App) : result (App * Cmd) :=
  m ← toggleFrom questionTypeNames questionTypeNames 0
        (PDFProcessModel.questionTypes (pdfProcess a));
  Done (with_pdfProcess
          (PDFProcessModel.with_questionTypes m (pdfProcess a)) a, NoCmd).

Definition handleConfigureStep (a : App) (key : string)
  : result (App * Cmd) :=
  let m := pdfProcess a in
  let cursor := PDFProcessModel.cursor m in
  if keyIs key ["up"; "k"] then
    Done (if cursor >? 0
          then with_pdfProcess (PDFProcessModel.with_cursor (cursor - 1) m) a
          else a, NoCmd)
  else if keyIs key ["down"; "j"] then
    Done (if cursor <? 3
          then with_pdfProcess (PDFProcessModel.with_cursor (cursor + 1) m) a
          else a, NoCmd)
  else if keyIs key ["n"] then
    Done (if cursor =? 0
          then with_pdfProcess
                 (PDFProcessModel.with_input "num_questions"
                    (PDFProcessModel.numQuestions m) m) a
          else a, NoCmd)
  else if keyIs key ["t"] then
    if cursor =? 1 then toggleQuestionTypes a else Done (a, NoCmd)
  else if keyIs key ["e"] then
    Done (if cursor =? 2
          then with_pdfProcess
                 (PDFProcessModel.with_input "test_name"
                    (PDFProcessModel.testName m) m) a
          else a, NoCmd)
  else if keyIs key ["d"] then
    Done (if cursor =? 3
          then with_pdfProcess
                 (PDFProcessModel.with_input "test_desc"
                    (PDFProcessModel.testDesc m) m) a
          else a, NoCmd)
  else if keyIs key ["enter"; " "] then
    Done (with_pdfProcess (PDFProcessModel.with_step 2 m) a, NoCmd)
  else Done (a, NoCmd).

Definition numQuestionsError : string :=
  "Please enter a valid number between 1 and 50".

(** The confirmation of an input, by input mode. *)
Definition confirmPDFInput (m : PDFProcessModel.t) : PDFProcessModel.t :=
  let input := PDFProcessModel.input m in
  let mode := PDFProcessModel.inputMode m in
  if String.eqb mode "num_questions" then
    match Atoi (TrimSpace input) with
    | Some num =>
        if (num >? 0) && (num <=? 50)
        then PDFProcessModel.with_numQuestions input m
        else PDFProcessModel.with_errorMsg numQuestionsError m
    | None => PDFProcessModel.with_errorMsg numQuestionsError m
    end
  else if String.eqb mode "test_name" then
    match validateInput input 1 with
    | None => PDFProcessModel.with_testName (TrimSpace input) m
    | Some err => PDFProcessModel.with_errorMsg err m
    end
  else if String.eqb mode "test_desc" then
    PDFProcessModel.with_testDesc (TrimSpace input) m
  else m.

Definition handlePDFInputMode (a : App) (key : string) : App * Cmd :=
  let m := pdfProcess a in
  let input := PDFProcessModel.input m in
  if keyIs key ["enter"] then
    (with_pdfProcess (PDFProcessModel.with_input "" "" (confirmPDFInput m)) a,
     NoCmd)
  else if keyIs key ["esc"] then
    (with_pdfProcess (PDFProcessModel.with_input "" "" m) a, NoCmd)
  else if keyIs key ["backspace"] then
    (if len input >? 0
     then with_pdfProcess
            (PDFProcessModel.with_input (PDFProcessModel.inputMode m)
               (dropLast input) m) a
     else a, NoCmd)
  else
    (if len key =? 1
     then with_pdfProcess
            (PDFProcessModel.with_input (PDFProcessModel.inputMode m)
               (input ++ key) m) a
     else a, NoCmd).

(** *** custom_question.go *)

Definition handleTestInfoStep (a : App) (key : string) : App * Cmd :=
  let m := customQuestion a in
  let cursor := CustomQuestionModel.cursor m in
  if keyIs key ["up"; "k"] then
    (if cursor >? 0
     then with_customQuestion (CustomQuestionModel.with_cursor (cursor - 1) m) a
     else a, NoCmd)
  else if keyIs key ["down"; "j"] then
    (if cursor <? 1
     then with_customQuestion (CustomQuestionModel.with_cursor (cursor + 1) m) a
     else a, NoCmd)
  else if keyIs key ["n"] then
    (if cursor =? 0
     then with_customQuestion
            (CustomQuestionModel.with_input "test_name"
               (CustomQuestionModel.testName m) m) a
     else a, NoCmd)
  else if keyIs key ["d"] then
    (if cursor =? 1
     then with_customQuestion
            (CustomQuestionModel.with_input "test_desc"
               (CustomQuestionModel.testDesc m) m) a
     else a, NoCmd)
  else if keyIs key ["enter"; " "] then
    (with_customQuestion (CustomQuestionModel.with_step 1 0 m) a, NoCmd)
  else (a, NoCmd).

Definition with_text (v : string) (q : CurrentQuestion.t) : CurrentQuestion.t :=
  {| CurrentQuestion.text := v;
     CurrentQuestion.qType := CurrentQuestion.qType q;
     CurrentQuestion.options := CurrentQuestion.options q;
     CurrentQuestion.correctAnswer := CurrentQuestion.correctAnswer q;
     CurrentQuestion.explanation := CurrentQuestion.explanation q |}.
Definition with_qType (ty : string) (opts : list string)
    (q : CurrentQuestion.t) : CurrentQuestion.t :=
  {| CurrentQuestion.text := CurrentQuestion.text q;
     CurrentQuestion.qType := ty;
     CurrentQuestion.options := opts;
     CurrentQuestion.correctAnswer := CurrentQuestion.correctAnswer q;
     CurrentQuestion.explanation := CurrentQuestion.explanation q |}.
Definition with_options (opts : list string) (q : CurrentQuestion.t)
  : CurrentQuestion.t := with_qType (CurrentQuestion.qType q) opts q.
Definition with_correctAnswer (v : string) (q : CurrentQuestion.t)
  : CurrentQuestion.t :=
  {| CurrentQuestion.text := CurrentQuestion.text q;
     CurrentQuestion.qType := CurrentQuestion.qType q;
     CurrentQuestion.options := CurrentQuestion.options q;
     CurrentQuestion.correctAnswer := v;
     CurrentQuestion.explanation := CurrentQuestion.explanation q |}.
Definition with_explanation (v : string) (q : CurrentQuestion.t)
  : CurrentQuestion.t :=
  {| CurrentQuestion.text := CurrentQuestion.text q;
     CurrentQuestion.qType := CurrentQuestion.qType q;
     CurrentQuestion.options := CurrentQuestion.options q;
     CurrentQuestion.correctAnswer := CurrentQuestion.correctAnswer q;
     CurrentQuestion.explanation := v |}.

(** [cycleQuestionType] *)
Definition cycleQuestionType (m : CustomQuestionModel.t)
  : result CustomQuestionModel.t :=
  let types := CustomQuestionModel.questionTypes m in
  if llen types =? 0 then Panic "integer divide by zero"
  else
    let typeIndex := Z.rem (CustomQuestionModel.typeIndex m + 1) (llen types) in
    qType ← index types typeIndex;
    let q := CustomQuestionModel.currentQuestion m in
    let opts :=
      if String.eqb qType "multiple_choice" then makeStrings 4
      else if String.eqb qType "true_false" then []
      else if String.eqb qType "short_answer" then []
      else CurrentQuestion.options q in
    Done (CustomQuestionModel.with_currentQuestion (with_qType qType opts q)
            (CustomQuestionModel.with_typeIndex typeIndex m)).

(** The number of options that are not blank. *)
Definition validOptions (options : list string) : Z :=
  fold_left
    (fun n opt => if String.eqb (TrimSpace opt) "" then n else n + 1)
    options 0.

Definition saveCurrentQuestion (a : App) : App * Cmd :=
  let m := customQuestion a in
  let q := CustomQuestionModel.currentQuestion m in
  if String.eqb (TrimSpace (CurrentQuestion.text q)) "" then
    (with_customQuestion
       (CustomQuestionModel.with_errorMsg "Question text is required" m) a,
     NoCmd)
  else if String.eqb (TrimSpace (CurrentQuestion.correctAnswer q)) "" then
    (with_customQuestion
       (CustomQuestionModel.with_errorMsg "Correct answer is required" m) a,
     NoCmd)
  else if String.eqb (CurrentQuestion.qType q) "multiple_choice"
          && (validOptions (CurrentQuestion.options q) <? 2) then
    (with_customQuestion
       (CustomQuestionModel.with_errorMsg
          "Multiple choice questions need at least 2 options" m) a,
     NoCmd)
  else
    let question :=
      {| QuestionData.Text := TrimSpace (CurrentQuestion.text q);
         QuestionData.Type_ := CurrentQuestion.qType q;
         QuestionData.Options := CurrentQuestion.options q;
         QuestionData.CorrectAnswer :=
           TrimSpace (CurrentQuestion.correctAnswer q);
         QuestionData.Explanation :=
           TrimSpace (CurrentQuestion.explanation q) |} in
    let questions := (CustomQuestionModel.questions m ++ [question])%list in
    let q' :=
      {| CurrentQuestion.text := "";
         CurrentQuestion.qType := CurrentQuestion.qType q;
         CurrentQuestion.options :=
           if String.eqb (CurrentQuestion.qType q) "multiple_choice"
           then makeStrings 4 else [];
         CurrentQuestion.correctAnswer := "";
         CurrentQuestion.explanation := "" |} in
    (with_customQuestion
       (CustomQuestionModel.with_cursor 0
          (CustomQuestionModel.with_successMsg
             ("Question saved! (" ++ pretty (llen questions) ++ " total)")
             (CustomQuestionModel.with_currentQuestion q'
                (CustomQuestionModel.with_questions questions m)))) a,
     NoCmd).

Definition handleQuestionCreationStep (a : App) (key : string)
  : result (App * Cmd) :=
  let m := customQuestion a in
  let q := CustomQuestionModel.currentQuestion m in
  let cursor := CustomQuestionModel.cursor m in
  if keyIs key ["up"; "k"] then
    Done (if cursor >? 0
          then with_customQuestion
                 (CustomQuestionModel.with_cursor (cursor - 1) m) a
          else a, NoCmd)
  else if keyIs key ["down"; "j"] then
    Done (if cursor <? 4
          then with_customQuestion
                 (CustomQuestionModel.with_cursor (cursor + 1) m) a
          else a, NoCmd)
  else if keyIs key ["t"] then
    if cursor =? 0 then
      m' ← cycleQuestionType m; Done (with_customQuestion m' a, NoCmd)
    else Done (a, NoCmd)
  else if keyIs key ["q"] then
    Done (if cursor =? 1
          then with_customQuestion
                 (CustomQuestionModel.with_input "question"
                    (CurrentQuestion.text q) m) a
          else a, NoCmd)
  else if keyIs key ["o"] then
    if (cursor =? 2) && String.eqb (CurrentQuestion.qType q) "multiple_choice"
    then
      first ← index (CurrentQuestion.options q) 0;
      Done (with_customQuestion
              (CustomQuestionModel.with_input "option" first
                 (CustomQuestionModel.with_optionIndex 0 m)) a, NoCmd)
    else Done (a, NoCmd)
  else if keyIs key ["a"] then
    Done (if cursor =? 3
          then with_customQuestion
                 (CustomQuestionModel.with_input "answer"
                    (CurrentQuestion.correctAnswer q) m) a
          else a, NoCmd)
  else if keyIs key ["e"] then
    Done (if cursor =? 4
          then with_customQuestion
                 (CustomQuestionModel.with_input "explanation"
                    (CurrentQuestion.explanation q) m) a
          else a, NoCmd)
  else if keyIs key ["s"] then Done (saveCurrentQuestion a)
  else if keyIs key ["f"] then
    Done (with_customQuestion
            (if llen (CustomQuestionModel.questions m) >? 0
             then CustomQuestionModel.with_step 2 0 m
             else CustomQuestionModel.with_errorMsg
                    "Create at least one question before finishing" m) a,
          NoCmd)
  else Done (a, NoCmd).

(** The loop of [saveCustomTest] and of [generateQuestions] that stores
    the questions: it stops at the first failure, keeping what was
    stored. *)
Fixpoint createQuestions (d : DB) (testID : Z) (qs : list QuestionData.t)
  : DB * option string :=
  match qs with
  | [] => (d, None)
  | q :: qs' =>
      match CreateQuestion d testID (QuestionData.Text q)
              (QuestionData.Type_ q) (QuestionData.CorrectAnswer q)
              (QuestionData.Explanation q) (QuestionData.Options q) with
      | (d', Err err) => (d', Some err)
      | (d', Ok _) => createQuestions d' testID qs'
      end
  end.

Definition saveCustomTest (a : App) : App * Cmd :=
  let m := customQuestion a in
  if llen (CustomQuestionModel.questions m) =? 0 then
    (with_customQuestion
       (CustomQuestionModel.with_errorMsg "No questions to save" m) a, NoCmd)
  else
    match CreateTest (db a) (CustomQuestionModel.testName m)
            (CustomQuestionModel.testDesc m) with
    | (d, Err err) =>
        (with_customQuestion
           (CustomQuestionModel.with_errorMsg
              ("Failed to create test: " ++ err) m) (with_db d a), NoCmd)
    | (d, Ok test) =>
        match createQuestions d (Test.ID test)
                (CustomQuestionModel.questions m) with
        | (d', Some err) =>
            (with_customQuestion
               (CustomQuestionModel.with_errorMsg
                  ("Failed to save question: " ++ err) m) (with_db d' a),
             NoCmd)
        | (d', None) =>
            (with_currentView MainMenuView
               (with_customQuestion NewCustomQuestionModel (with_db d' a)),
             NoCmd)
        end
    end.

Definition handleReviewStep (a : App) (key : string) : App * Cmd :=
  if keyIs key ["enter"; " "] then saveCustomTest a
  else if keyIs key ["b"] then
    (with_customQuestion
       (CustomQuestionModel.with_step 1 0 (customQuestion a)) a, NoCmd)
  else (a, NoCmd).

(** [options\[i\] = v] *)
Definition store (options : list string) (i : Z) (v : string)
  : result (list string) :=
  if (0 <=? i) && (i <? llen options)
  then Done (<[Z.to_nat i := v]> options)
  else Panic "index out of range".

(** The confirmation of an input of the custom-question wizard: the
    model after the field is stored, and whether the handler returns at
    once, staying in input mode for the next option. *)
Definition confirmCustomInput (m : CustomQuestionModel.t)
  : result (CustomQuestionModel.t * bool) :=
  let input := CustomQuestionModel.input m in
  let mode := CustomQuestionModel.inputMode m in
  let q := CustomQuestionModel.currentQuestion m in
  let checked (minLength : Z) (set : string -> CustomQuestionModel.t) :=
    match validateInput input minLength with
    | None => set (TrimSpace input)
    | Some err => CustomQuestionModel.with_errorMsg err m
    end in
  if String.eqb mode "test_name" then
    Done (checked 1 (fun v => CustomQuestionModel.with_testName v m), false)
  else if String.eqb mode "test_desc" then
    Done (CustomQuestionModel.with_testDesc (TrimSpace input) m, false)
  else if String.eqb mode "question" then
    Done (checked 5
            (fun v => CustomQuestionModel.with_currentQuestion
                        (with_text v q) m), false)
  else if String.eqb mode "answer" then
    Done (checked 1
            (fun v => CustomQuestionModel.with_currentQuestion
                        (with_correctAnswer v q) m), false)
  else if String.eqb mode "explanation" then
    Done (CustomQuestionModel.with_currentQuestion
            (with_explanation (TrimSpace input) q) m, false)
  else if String.eqb mode "option" then
    match validateInput input 1 with
    | None =>
        let i := CustomQuestionModel.optionIndex m in
        opts ← store (CurrentQuestion.options q) i (TrimSpace input);
        let m' := CustomQuestionModel.with_currentQuestion
                    (with_options opts q) m in
        if i <? 3 then
          nextOpt ← index opts (i + 1);
          Done (CustomQuestionModel.with_input mode nextOpt
                  (CustomQuestionModel.with_optionIndex (i + 1) m'), true)
        else Done (m', false)
    | Some err => Done (CustomQuestionModel.with_errorMsg err m, false)
    end
  else Done (m, false).

Definition handleCustomQuestionInput (a : App) (key : string)
  : result (App * Cmd) :=
  let m := customQuestion a in
  let input := CustomQuestionModel.input m in
  if keyIs key ["enter"] then
    '(m', stay) ← confirmCustomInput m;
    Done (with_customQuestion
            (if stay : bool then m'
             else CustomQuestionModel.with_input "" "" m') a, NoCmd)
  else if keyIs key ["esc"] then
    Done (with_customQuestion (CustomQuestionModel.with_input "" "" m) a,
          NoCmd)
  else if keyIs key ["backspace"] then
    Done (if len input >? 0
          then with_customQuestion
                 (CustomQuestionModel.with_input
                    (CustomQuestionModel.inputMode m) (dropLast input) m) a
          else a, NoCmd)
  else
    Done (if len key =? 1
          then with_customQuestion
                 (CustomQuestionModel.with_input
                    (CustomQuestionModel.inputMode m) (input ++ key) m) a
          else a, NoCmd).

Definition updateCustomQuestion (a : App) (msg : Msg) : result (App * Cmd) :=
  match msg with
  | KeyMsg key =>
      let m := customQuestion a in
      if negb (String.eqb (CustomQuestionModel.inputMode m) "")
      then handleCustomQuestionInput a key
      else
        let step := CustomQuestionModel.step m in
        if step =? 0 then Done (handleTestInfoStep a key)
        else if step =? 1 then handleQuestionCreationStep a key
        else if step =? 2 then Done (handleReviewStep a key)
        else Done (a, NoCmd)
  | OtherMsg => Done (a, NoCmd)
  end.

(** *** The dispatcher of models.go *)

(** The handlers of the screens that list files, tests and results, and
    the two steps of the PDF wizard that call the text extractor and the
    question generator, act on the file system and the network: the
    dispatcher is defined for any such handlers. *)
Section Dispatch.
Variables extractPDFText generateQuestions : App -> result (App * Cmd).
Variables updateTestSelection updateTestResults updateFileSelection
  updateQuestionGen : App -> Msg -> result (App * Cmd).

Definition updatePDFProcess (a : App) (msg : Msg) : result (App * Cmd) :=
  let m := pdfProcess a in
  if PDFProcessModel.loading m then Done (a, NoCmd)
  else
    match msg with
    | KeyMsg key =>
        if negb (String.eqb (PDFProcessModel.inputMode m) "")
        then Done (handlePDFInputMode a key)
        else
          let step := PDFProcessModel.step m in
          if step =? 0 then
            if keyIs key ["enter"; " "] then extractPDFText a
            else Done (a, NoCmd)
          else if step =? 1 then handleConfigureStep a key
          else if step =? 2 then
            if keyIs key ["enter"; " "] then generateQuestions a
            else if keyIs key ["b"] then
              Done (with_pdfProcess (PDFProcessModel.with_step 1 m) a,
                    NoCmd)
            else Done (a, NoCmd)
          else Done (a, NoCmd)
    | OtherMsg => Done (a, NoCmd)
    end.

(** The routing of a message to the handler of the current view. *)
Definition route (a : App) (msg : Msg) : result (App * Cmd) :=
  match currentView a with
  | MainMenuView => Done (updateMainMenu a msg)
  | PDFProcessView => updatePDFProcess a msg
  | CustomQuestionView => updateCustomQuestion a msg
  | TestSelectionView => updateTestSelection a msg
  | TestTakingView => updateTestTaking a msg
  | TestResultsView => updateTestResults a msg
  | FileSelectionView => updateFileSelection a msg
  | QuestionGenView => updateQuestionGen a msg
  end.

Definition Update (a : App) (msg : Msg) : result (App * Cmd) :=
  match msg with
  | KeyMsg key =>
      if String.eqb key "ctrl+c" then Done (a, Quit)
      else if String.eqb key "esc"
              && negb (bool_decide (currentView a = MainMenuView))
      then Done (with_currentView MainMenuView a, NoCmd)
      else route a msg
  | OtherMsg => route a msg
  end.

End Dispatch.

End Tui.

(** ** Go's [strings.TrimSpace] on UTF-8 text *)
Module Unicode.
Import GoStrings.

(** The two-byte encodings of white space: U+0085 and U+00A0. *)
Definition isSpace2 (c d : ascii) : bool :=
  (code c =? 194) && ((code d =? 133) || (code d =? 160)).

(** The three-byte encodings of white space: U+1680, U+2000 to U+200A,
    U+2028, U+2029, U+202F, U+205F and U+3000. *)
Definition isSpace3 (c d e : ascii) : bool :=
  (code c =? 225) && (code d =? 154) && (code e =? 128)
  || (code c =? 226) && (code d =? 128)
     && ((128 <=? code e) && (code e <=? 138)
         || (code e =? 168) || (code e =? 169) || (code e =? 175))
  || (code c =? 226) && (code d =? 129) && (code e =? 159)
  || (code c =? 227) && (code d =? 128) && (code e =? 128).

(** The text is the encoding of one white-space character of
    [unicode.IsSpace]. *)
Definition isSpaceRune (s : string) : bool :=
  match s with
  | String c EmptyString => isSpace c
  | String c (String d EmptyString) => isSpace2 c d
  | String c (String d (String e EmptyString)) => isSpace3 c d e
  | _ => false
  end.

(** [strings.TrimLeftFunc(s, unicode.IsSpace)]: the leading white-space
    characters are removed, up to the first character that is not white
    space or the first byte that does not start a well-formed encoding. *)
Fixpoint trimLeft (s : string) : string :=
  match s with
  | EmptyString => EmptyString
  | String c s1 =>
      if isSpace c then trimLeft s1
      else
        match s1 with
        | String d s2 =>
            if isSpace2 c d then trimLeft s2
            else
              match s2 with
              | String e s3 => if isSpace3 c d e then trimLeft s3 else s
              | EmptyString => s
              end
        | EmptyString => s
        end
  end.

(** [strings.TrimRightFunc(s, unicode.IsSpace)]: the trailing white-space
    characters are removed. *)
Fixpoint trimRight (s : string) : string :=
  match s with
  | EmptyString => EmptyString
  | String c s' =>
      let t := trimRight s' in
      if isSpaceRune (String c t) then EmptyString else String c t
  end.

Definition TrimSpace (s : string) : string := trimRight (trimLeft s).

End Unicode.

(** ** The text-extraction package: cleaning and extraction *)
Module PdfText.
Import GoStrings.

Definition lineFeed : ascii := "010"%char.

(** [strings.Split(text, "\n")] *)
Fixpoint splitLines (text : string) : list string :=
  match text with
  | EmptyString => [EmptyString]
  | String c text' =>
      if Ascii.eqb c lineFeed then EmptyString :: splitLines text'
      else
        match splitLines text' with
        | line :: lines => String c line :: lines
        | [] => [String c EmptyString]
        end
  end.

(** [strings.Join(elems, sep)] *)
Fixpoint Join (elems : list string) (sep : string) : string :=
  match elems with
  | [] => EmptyString
  | [e] => e
  | e :: rest => e ++ sep ++ Join rest sep
  end.

(** The loop of [cleanText]: the lines that are kept, trimmed. *)
Fixpoint cleanedLines (lines : list string) : list string :=
  match lines with
  | [] => []
  | line :: rest =>
      let line := Unicode.TrimSpace line in
      if String.eqb line "" then cleanedLines rest
      else if len line <? 3 then cleanedLines rest
      else line :: cleanedLines rest
  end.

Definition cleanText (text : string) : string :=
  Join (cleanedLines (splitLines text)) " ".

(** A document as the PDF library presents it: the error of [pdf.Open],
    or the pages in order, each with its plain text, or with [None] when
    the page is null or its text cannot be read. *)
Definition Document : Type := Database.outcome (list (option string)).

Definition separator : string := String lineFeed (String lineFeed "").

(** The loop of [ExtractText] over the pages: the contents of the
    builder. *)
Fixpoint writePages (pages : list (option string)) (builder : string)
  : string :=
  match pages with
  | [] => builder
  | None :: rest => writePages rest builder
  | Some pageText :: rest =>
      let cleanedText := cleanText pageText in
      if negb (String.eqb cleanedText "")
      then writePages rest (builder ++ cleanedText ++ separator)
      else writePages rest builder
  end.

Definition ExtractText (doc : Document) : Database.outcome string :=
  match doc with
  | Database.Err err => Database.Err ("failed to open PDF file: " ++ err)
  | Database.Ok pages =>
      let extractedText := writePages pages "" in
      if String.eqb extractedText ""
      then Database.Err "no text could be extracted from the PDF"
      else Database.Ok (Unicode.TrimSpace extractedText)
  end.

End PdfText.

(** ** The other screens, and the world around them *)
Module Screens.
Import GoStrings Database Tui.

Module TestResultWithName.
Record t : Type := {
  ID : Z;
  TestID : Z;
  TestName : string;
  Score : Float64.float64;
  TotalQuestions : Z;
  CorrectAnswers : Z;
  TimeTaken : Z;
  CompletedAt : Z
}.
End TestResultWithName.

Module QuestionAnswerDetail.
Record t : Type := {
  ID : Z;
  ResultID : Z;
  QuestionID : Z;
  QuestionText : string;
  UserAnswer : string;
  CorrectAnswer : string;
  IsCorrect : bool;
  Explanation : string
}.
End QuestionAnswerDetail.

(** Arithmetic on [int64] wraps around. *)
Definition wrap64 (n : Z) : Z := (n + 2 ^ 63) mod 2 ^ 64 - 2 ^ 63.

(** [int(x)] for a [float64]: the fraction is discarded.  For a value
    outside the range of [int], and for NaN, Go leaves the result to the
    implementation; amd64 yields the smallest [int]. *)
Definition truncate (x : Float64.float64) : Z :=
  match x with
  | S754_zero _ => 0
  | S754_finite s m e =>
      let mag := if 0 <=? e then Z.pos m * 2 ^ e else Z.pos m / 2 ^ (- e) in
      let v := if s then - mag else mag in
      if (minInt <=? v) && (v <=? maxInt) then v else minInt
  | _ => minInt
  end.

Definition with_testResults (v : TestResultsModel.t) (a : App) : App :=
  {| currentView := currentView a; db := db a; mainMenu := mainMenu a;
     pdfProcess := pdfProcess a; customQuestion := customQuestion a;
     testSelection := testSelection a; testTaking := testTaking a;
     testResults := v; fileSelection := fileSelection a;
     questionGen := questionGen a; currentTest := currentTest a;
     currentQuestions := currentQuestions a;
     userAnswers := userAnswers a; testStartTime := testStartTime a |}.
Definition with_testStartTime (v : Z) (a : App) : App :=
  {| currentView := currentView a; db := db a; mainMenu := mainMenu a;
     pdfProcess := pdfProcess a; customQuestion := customQuestion a;
     testSelection := testSelection a; testTaking := testTaking a;
     testResults := testResults a; fileSelection := fileSelection a;
     questionGen := questionGen a; currentTest := currentTest a;
     currentQuestions := currentQuestions a;
     userAnswers := userAnswers a; testStartTime := v |}.

Module Selection.
Import TestSelectionModel.
Definition with_tests (v : list Test.t) (m : t) : t :=
  {| tests := v; cursor := cursor m; purpose := purpose m;
     errorMsg := errorMsg m; loading := loading m |}.
Definition with_cursor (v : Z) (m : t) : t :=
  {| tests := tests m; cursor := v; purpose := purpose m;
     errorMsg := errorMsg m; loading := loading m |}.
Definition with_errorMsg (v : string) (m : t) : t :=
  {| tests := tests m; cursor := cursor m; purpose := purpose m;
     errorMsg := v; loading := loading m |}.
Definition with_loading (v : bool) (m : t) : t :=
  {| tests := tests m; cursor := cursor m; purpose := purpose m;
     errorMsg := errorMsg m; loading := v |}.
End Selection.

Module Results.
Import TestResultsModel.
Definition with_cursor (v : Z) (m : t) : t :=
  {| cursor := v; results := results m; selectedResult := selectedResult m;
     viewMode := viewMode m; errorMsg := errorMsg m;
     successMsg := successMsg m |}.
Definition with_results (v : list TestResultData.t) (m : t) : t :=
  {| cursor := cursor m; results := v; selectedResult := selectedResult m;
     viewMode := viewMode m; errorMsg := errorMsg m;
     successMsg := successMsg m |}.
Definition with_selected (mode : string) (v : option TestResultData.t)
    (m : t) : t :=
  {| cursor := cursor m; results := results m; selectedResult := v;
     viewMode := mode; errorMsg := errorMsg m;
     successMsg := successMsg m |}.
Definition with_errorMsg (v : string) (m : t) : t :=
  {| cursor := cursor m; results := results m;
     selectedResult := selectedResult m;
     viewMode := viewMode m; errorMsg := v;
     successMsg := successMsg m |}.
Definition with_successMsg (v : string) (m : t) : t :=
  {| cursor := cursor m; results := results m;
     selectedResult := selectedResult m;
     viewMode := viewMode m; errorMsg := errorMsg m;
     successMsg := v |}.
End Results.

Definition with_Answers (v : list AnswerData.t) (r : TestResultData.t)
  : TestResultData.t :=
  {| TestResultData.ID := TestResultData.ID r;
     TestResultData.TestName := TestResultData.TestName r;
     TestResultData.Score := TestResultData.Score r;
     TestResultData.TotalQuestions := TestResultData.TotalQuestions r;
     TestResultData.Percentage := TestResultData.Percentage r;
     TestResultData.TimeTaken := TestResultData.TimeTaken r;
     TestResultData.CompletedAt := TestResultData.CompletedAt r;
     TestResultData.Answers := v |}.

(** [l\[:i\] ++ l\[i+1:\]], as [append(l\[:i\], l\[i+1:\]...)] leaves the
    list. *)
Definition remove {A} (l : list A) (i : Z) : result (list A) :=
  if (0 <=? i) && (i + 1 <=? llen l)
  then Done (firstn (Z.to_nat i) l ++ skipn (Z.to_nat (i + 1)) l)%list
  else Panic "slice bounds out of range".

Module Files.
Import FileSelectionModel.
Definition with_files (v : list string) (m : t) : t :=
  {| files := v; cursor := cursor m; currentDir := currentDir m;
     purpose := purpose m; errorMsg := errorMsg m; loading := loading m;
     inputMode := inputMode m; input := input m |}.
Definition with_cursor (v : Z) (m : t) : t :=
  {| files := files m; cursor := v; currentDir := currentDir m;
     purpose := purpose m; errorMsg := errorMsg m; loading := loading m;
     inputMode := inputMode m; input := input m |}.
Definition with_currentDir (v : string) (m : t) : t :=
  {| files := files m; cursor := cursor m; currentDir := v;
     purpose := purpose m; errorMsg := errorMsg m; loading := loading m;
     inputMode := inputMode m; input := input m |}.
Definition with_errorMsg (v : string) (m : t) : t :=
  {| files := files m; cursor := cursor m; currentDir := currentDir m;
     purpose := purpose m; errorMsg := v; loading := loading m;
     inputMode := inputMode m; input := input m |}.
Definition with_input (mode : bool) (v : string) (m : t) : t :=
  {| files := files m; cursor := cursor m; currentDir := currentDir m;
     purpose := purpose m; errorMsg := errorMsg m; loading := loading m;
     inputMode := mode; input := v |}.
End Files.

Module Wizard.
Import PDFProcessModel.
Definition with_selectedFile (v : string) (m : t) : t :=
  {| selectedFile := v; extractedText := extractedText m;
     step := step m; errorMsg := errorMsg m; successMsg := successMsg m;
     loading := loading m; numQuestions := numQuestions m;
     questionTypes := questionTypes m; testName := testName m;
     testDesc := testDesc m; inputMode := inputMode m;
     input := input m; cursor := cursor m |}.
Definition with_extractedText (v : string) (m : t) : t :=
  {| selectedFile := selectedFile m; extractedText := v;
     step := step m; errorMsg := errorMsg m; successMsg := successMsg m;
     loading := loading m; numQuestions := numQuestions m;
     questionTypes := questionTypes m; testName := testName m;
     testDesc := testDesc m; inputMode := inputMode m;
     input := input m; cursor := cursor m |}.
Definition with_successMsg (v : string) (m : t) : t :=
  {| selectedFile := selectedFile m; extractedText := extractedText m;
     step := step m; errorMsg := errorMsg m; successMsg := v;
     loading := loading m; numQuestions := numQuestions m;
     questionTypes := questionTypes m; testName := testName m;
     testDesc := testDesc m; inputMode := inputMode m;
     input := input m; cursor := cursor m |}.
Definition with_loading (v : bool) (m : t) : t :=
  {| selectedFile := selectedFile m; extractedText := extractedText m;
     step := step m; errorMsg := errorMsg m; successMsg := successMsg m;
     loading := v; numQuestions := numQuestions m;
     questionTypes := questionTypes m; testName := testName m;
     testDesc := testDesc m; inputMode := inputMode m;
     input := input m; cursor := cursor m |}.
End Wizard.

Definition with_questionGen (v : QuestionGenModel.t) (a : App) : App :=
  {| currentView := currentView a; db := db a; mainMenu := mainMenu a;
     pdfProcess := pdfProcess a; customQuestion := customQuestion a;
     testSelection := testSelection a; testTaking := testTaking a;
     testResults := testResults a; fileSelection := fileSelection a;
     questionGen := v; currentTest := currentTest a;
     currentQuestions := currentQuestions a;
     userAnswers := userAnswers a; testStartTime := testStartTime a |}.

(** The first result of [strconv.Atoi], which callers that drop the error
    use: [0] after a syntax error, the nearest [int] after a range
    error. *)
Definition AtoiValue (s : string) : Z :=
  let '(neg, body) :=
    match s with
    | String "-" s' => (true, s')
    | String "+" s' => (false, s')
    | _ => (false, s)
    end in
  match body with
  | EmptyString => 0
  | _ =>
      match digits 0 body with
      | None => 0
      | Some n => if (neg : bool) then Z.max (- n) minInt else Z.min n maxInt
      end
  end.

(** The world around the screens.  The queries whose row order is left to
    the engine (they order by a time stamp) and the calls that involve the
    table of stored answers are parameters: the screens are defined for
    any database behind them.
    A deletion returns the database and the error text, if any.
    The file system, the text extractor and the question generator are
    parameters as well; so is the order in which [range] visits the keys
    of the map of question types. *)
Record World : Type := {
  GetAllTests : DB -> outcome (list Test.t);
  GetAllTestResults : DB -> outcome (list TestResultWithName.t);
  GetTestResultAnswers : DB -> Z -> outcome (list QuestionAnswerDetail.t);
  DeleteTest : DB -> Z -> DB * option string;
  DeleteTestResult : DB -> Z -> DB * option string;
  listPDFFiles : string -> outcome (list string);
  statOK : string -> bool;
  ExtractText : string -> outcome string;
  GenerateQuestions :
    string -> Z -> list string -> outcome (list QuestionData.t);
  rangeOrder : gmap string bool -> list (string * bool)
}.

Section World.
Variable w : World.

(** *** test_results.go *)

(** The display record that [loadTestResults] builds from a row. *)
Definition resultData (r : TestResultWithName.t) : TestResultData.t :=
  {| TestResultData.ID := TestResultWithName.ID r;
     TestResultData.TestName := TestResultWithName.TestName r;
     TestResultData.Score := truncate (TestResultWithName.Score r);
     TestResultData.TotalQuestions := TestResultWithName.TotalQuestions r;
     TestResultData.Percentage :=
       Float64.mul
         (Float64.div (TestResultWithName.Score r)
            (Float64.of_int (TestResultWithName.TotalQuestions r)))
         (Float64.of_int 100);
     TestResultData.TimeTaken :=
       wrap64 (TestResultWithName.TimeTaken r * 1000000000);
     TestResultData.CompletedAt := TestResultWithName.CompletedAt r;
     TestResultData.Answers := [] |}.

Definition loadTestResults (a : App) : App :=
  let m := testResults a in
  match GetAllTestResults w (db a) with
  | Err err =>
      with_testResults
        (Results.with_errorMsg ("Failed to load results: " ++ err) m) a
  | Ok results =>
      let m' := Results.with_results (resultData <$> results) m in
      with_testResults
        (if TestResultsModel.cursor m' >=? llen (TestResultsModel.results m')
         then Results.with_cursor 0 m' else m') a
  end.

Definition answerData (d : QuestionAnswerDetail.t) : AnswerData.t :=
  {| AnswerData.QuestionText := QuestionAnswerDetail.QuestionText d;
     AnswerData.UserAnswer := QuestionAnswerDetail.UserAnswer d;
     AnswerData.CorrectAnswer := QuestionAnswerDetail.CorrectAnswer d;
     AnswerData.IsCorrect := QuestionAnswerDetail.IsCorrect d;
     AnswerData.Explanation := QuestionAnswerDetail.Explanation d |}.

(** [loadResultDetails]: the answers of the record, or the error text. *)
Definition loadResultDetails (a : App) (result : TestResultData.t)
  : outcome TestResultData.t :=
  match GetTestResultAnswers w (db a) (TestResultData.ID result) with
  | Err err => Err ("Failed to load result details: " ++ err)
  | Ok answers => Ok (with_Answers (answerData <$> answers) result)
  end.

Definition deleteTestResult (a : App) : result (App * Cmd) :=
  let m := testResults a in
  selected ←
    match (if String.eqb (TestResultsModel.viewMode m) "detail"
           then TestResultsModel.selectedResult m else None) with
    | Some r => Done (Some r)
    | None =>
        if String.eqb (TestResultsModel.viewMode m) "list"
           && (llen (TestResultsModel.results m) >? 0)
        then r ← index (TestResultsModel.results m)
                   (TestResultsModel.cursor m); Done (Some r)
        else Done None
    end;
  match selected with
  | None =>
      Done (with_testResults
              (Results.with_errorMsg "No result selected for deletion" m) a,
            NoCmd)
  | Some r =>
      match DeleteTestResult w (db a) (TestResultData.ID r) with
      | (d, Some err) =>
          Done (with_testResults
                  (Results.with_errorMsg
                     ("Failed to delete result: " ++ err) m) (with_db d a),
                NoCmd)
      | (d, None) =>
          let a' := loadTestResults (with_db d a) in
          Done (with_testResults
                  (Results.with_successMsg
                     ("Deleted result for '" ++ TestResultData.TestName r
                      ++ "'")
                     (Results.with_selected "list" None (testResults a')))
                  a', NoCmd)
      end
  end.

Definition handleResultsListInput (a : App) (key : string)
  : result (App * Cmd) :=
  let m := testResults a in
  let cursor := TestResultsModel.cursor m in
  if keyIs key ["up"; "k"] then
    Done (if cursor >? 0
          then with_testResults (Results.with_cursor (cursor - 1) m) a
          else a, NoCmd)
  else if keyIs key ["down"; "j"] then
    Done (if cursor <? llen (TestResultsModel.results m) - 1
          then with_testResults (Results.with_cursor (cursor + 1) m) a
          else a, NoCmd)
  else if keyIs key ["enter"; " "] then
    if llen (TestResultsModel.results m) >? 0 then
      r ← index (TestResultsModel.results m) cursor;
      match loadResultDetails a r with
      | Err err =>
          Done (with_testResults
                  (Results.with_selected "detail" (Some r)
                     (Results.with_errorMsg err m)) a, NoCmd)
      | Ok r' =>
          Done (with_testResults
                  (Results.with_selected "detail" (Some r')
                     (Results.with_results
                        (<[Z.to_nat cursor := r']>
                           (TestResultsModel.results m)) m)) a, NoCmd)
      end
    else Done (a, NoCmd)
  else if keyIs key ["d"] then
    if llen (TestResultsModel.results m) >? 0 then deleteTestResult a
    else Done (a, NoCmd)
  else if keyIs key ["r"] then
    let a' := loadTestResults a in
    Done (with_testResults
            (Results.with_successMsg "Results refreshed" (testResults a')) a',
          NoCmd)
  else if keyIs key ["q"] then Done (with_currentView MainMenuView a, NoCmd)
  else Done (a, NoCmd).

Definition handleResultsDetailInput (a : App) (key : string)
  : result (App * Cmd) :=
  if keyIs key ["b"] then
    Done (with_testResults
            (Results.with_selected "list" None (testResults a)) a, NoCmd)
  else if keyIs key ["d"] then deleteTestResult a
  else if keyIs key ["q"] then Done (with_currentView MainMenuView a, NoCmd)
  else Done (a, NoCmd).

Definition updateTestResults (a : App) (msg : Msg) : result (App * Cmd) :=
  match msg with
  | KeyMsg key =>
      let mode := TestResultsModel.viewMode (testResults a) in
      if String.eqb mode "list" then handleResultsListInput a key
      else if String.eqb mode "detail" then handleResultsDetailInput a key
      else Done (a, NoCmd)
  | OtherMsg => Done (a, NoCmd)
  end.

(** *** test_selection.go *)

Definition loadTests (a : App) : App :=
  let m := testSelection a in
  with_testSelection
    (Selection.with_loading false
       (Selection.with_cursor 0
          match GetAllTests w (db a) with
          | Err err =>
              Selection.with_tests []
                (Selection.with_errorMsg ("Failed to load tests: " ++ err) m)
          | Ok tests => Selection.with_tests tests m
          end)) a.

Definition handleTestSelection (a : App) : result (App * Cmd) :=
  let m := testSelection a in
  if llen (TestSelectionModel.tests m) =? 0 then Done (a, NoCmd)
  else
    selectedTest ← index (TestSelectionModel.tests m)
                     (TestSelectionModel.cursor m);
    let a := with_currentTest (Some selectedTest) a in
    if String.eqb (TestSelectionModel.purpose m) "take_test" then
      match GetQuestionsByTestID (db a) (Test.ID selectedTest) with
      | Err err =>
          Done (with_testSelection
                  (Selection.with_errorMsg
                     ("Failed to load questions: " ++ err) m) a, NoCmd)
      | Ok questions =>
          if llen questions =? 0 then
            Done (with_testSelection
                    (Selection.with_errorMsg "This test has no questions" m)
                    a, NoCmd)
          else
            Done (with_currentView TestTakingView
                    (with_testTaking
                       (TestTakingModel.with_input ""
                          (TestTakingModel.with_currentQuestion 0
                             (testTaking a)))
                       (with_testStartTime (clock (db a))
                          (with_userAnswers ∅
                             (with_currentQuestions questions a)))), NoCmd)
      end
    else if String.eqb (TestSelectionModel.purpose m) "view_tests" then
      Done (loadTestResults (with_currentView TestResultsView a), NoCmd)
    else Done (a, NoCmd).

Definition deleteSelectedTest (a : App) : result (App * Cmd) :=
  let m := testSelection a in
  let cursor := TestSelectionModel.cursor m in
  if llen (TestSelectionModel.tests m) =? 0 then Done (a, NoCmd)
  else
    selectedTest ← index (TestSelectionModel.tests m) cursor;
    match DeleteTest w (db a) (Test.ID selectedTest) with
    | (d, Some err) =>
        Done (with_testSelection
                (Selection.with_errorMsg ("Failed to delete test: " ++ err) m)
                (with_db d a), NoCmd)
    | (d, None) =>
        tests ← remove (TestSelectionModel.tests m) cursor;
        let m' := Selection.with_tests tests m in
        Done (with_testSelection
                (if (cursor >=? llen tests) && (llen tests >? 0)
                 then Selection.with_cursor (llen tests - 1) m' else m')
                (with_db d a), NoCmd)
    end.

Definition updateTestSelection (a : App) (msg : Msg) : result (App * Cmd) :=
  if TestSelectionModel.loading (testSelection a) then Done (a, NoCmd)
  else
    let a :=
      if llen (TestSelectionModel.tests (testSelection a)) =? 0
      then loadTests a else a in
    let m := testSelection a in
    let cursor := TestSelectionModel.cursor m in
    match msg with
    | KeyMsg key =>
        if keyIs key ["up"; "k"] then
          Done (if cursor >? 0
                then with_testSelection (Selection.with_cursor (cursor - 1) m) a
                else a, NoCmd)
        else if keyIs key ["down"; "j"] then
          Done (if cursor <? llen (TestSelectionModel.tests m) - 1
                then with_testSelection (Selection.with_cursor (cursor + 1) m) a
                else a, NoCmd)
        else if keyIs key ["enter"; " "] then handleTestSelection a
        else if keyIs key ["d"] then
          if llen (TestSelectionModel.tests m) >? 0 then deleteSelectedTest a
          else Done (a, NoCmd)
        else if keyIs key ["r"] then Done (loadTests a, NoCmd)
        else Done (a, NoCmd)
    | OtherMsg => Done (a, NoCmd)
    end.

(** *** file_selection.go *)

Definition refreshFileList (a : App) : App :=
  let m := fileSelection a in
  with_fileSelection
    (Files.with_cursor 0
       match listPDFFiles w (FileSelectionModel.currentDir m) with
       | Err err =>
           Files.with_files []
             (Files.with_errorMsg ("Error reading directory: " ++ err) m)
       | Ok files => Files.with_files files m
       end) a.

Definition handleFileInputMode (a : App) (key : string) : App * Cmd :=
  let m := fileSelection a in
  let input := FileSelectionModel.input m in
  if keyIs key ["enter"] then
    let a' :=
      if statOK w input
      then refreshFileList (with_fileSelection (Files.with_currentDir input m) a)
      else with_fileSelection
             (Files.with_errorMsg "Directory does not exist" m) a in
    (with_fileSelection (Files.with_input false "" (fileSelection a')) a',
     NoCmd)
  else if keyIs key ["esc"] then
    (with_fileSelection (Files.with_input false "" m) a, NoCmd)
  else if keyIs key ["backspace"] then
    (if len input >? 0
     then with_fileSelection
            (Files.with_input (FileSelectionModel.inputMode m)
               (dropLast input) m) a
     else a, NoCmd)
  else
    (if len key =? 1
     then with_fileSelection
            (Files.with_input (FileSelectionModel.inputMode m)
               (input ++ key) m) a
     else a, NoCmd).

Definition handleFileSelection (a : App) : result (App * Cmd) :=
  let m := fileSelection a in
  if llen (FileSelectionModel.files m) =? 0 then Done (a, NoCmd)
  else
    selectedFile ← index (FileSelectionModel.files m)
                     (FileSelectionModel.cursor m);
    if String.eqb (FileSelectionModel.purpose m) "pdf_generation" then
      Done (with_currentView PDFProcessView
              (with_pdfProcess
                 (Wizard.with_selectedFile selectedFile (pdfProcess a)) a),
            NoCmd)
    else Done (a, NoCmd).

Definition updateFileSelection (a : App) (msg : Msg) : result (App * Cmd) :=
  match msg with
  | KeyMsg key =>
      let m := fileSelection a in
      let cursor := FileSelectionModel.cursor m in
      if FileSelectionModel.inputMode m then Done (handleFileInputMode a key)
      else if keyIs key ["up"; "k"] then
        Done (if cursor >? 0
              then with_fileSelection (Files.with_cursor (cursor - 1) m) a
              else a, NoCmd)
      else if keyIs key ["down"; "j"] then
        Done (if cursor <? llen (FileSelectionModel.files m) - 1
              then with_fileSelection (Files.with_cursor (cursor + 1) m) a
              else a, NoCmd)
      else if keyIs key ["enter"; " "] then handleFileSelection a
      else if keyIs key ["r"] then Done (refreshFileList a, NoCmd)
      else if keyIs key ["c"] then
        Done (with_fileSelection
                (Files.with_input true (FileSelectionModel.currentDir m) m) a,
              NoCmd)
      else Done (a, NoCmd)
  | OtherMsg => Done (a, NoCmd)
  end.

(** *** question_gen.go *)

Definition updateQuestionGen (a : App) (msg : Msg) : result (App * Cmd) :=
  match msg with
  | KeyMsg key =>
      let m := questionGen a in
      if keyIs key ["q"] then Done (with_currentView MainMenuView a, NoCmd)
      else if keyIs key ["r"] then
        Done (if String.eqb (QuestionGenModel.status m) "error"
              then with_questionGen
                     {| QuestionGenModel.cursor := QuestionGenModel.cursor m;
                        QuestionGenModel.status := "idle";
                        QuestionGenModel.errorMsg := "";
                        QuestionGenModel.successMsg :=
                          QuestionGenModel.successMsg m;
                        QuestionGenModel.progress :=
                          QuestionGenModel.progress m;
                        QuestionGenModel.generatedQuestions :=
                          QuestionGenModel.generatedQuestions m;
                        QuestionGenModel.totalQuestions :=
                          QuestionGenModel.totalQuestions m |} a
              else a, NoCmd)
      else Done (a, NoCmd)
  | OtherMsg => Done (a, NoCmd)
  end.

(** *** pdf_process.go: the steps that extract and generate *)

Definition extractPDFText (a : App) : result (App * Cmd) :=
  let m := pdfProcess a in
  if negb (String.eqb (PDFProcessModel.extractedText m) "") then
    Done (with_pdfProcess (PDFProcessModel.with_step 1 m) a, NoCmd)
  else
    match ExtractText w (PDFProcessModel.selectedFile m) with
    | Err err =>
        Done (with_pdfProcess
                (Wizard.with_loading false
                   (PDFProcessModel.with_errorMsg
                      ("Failed to extract text: " ++ err) m)) a, NoCmd)
    | Ok text =>
        Done (with_pdfProcess
                (PDFProcessModel.with_step 1
                   (Wizard.with_loading false
                      (Wizard.with_successMsg "Text extracted successfully!"
                         (Wizard.with_extractedText text m)))) a, NoCmd)
    end.

(** The enabled question types, in the order of the [range] loop. *)
Definition enabledTypes (types : gmap string bool) : list string :=
  fst <$> List.filter snd (rangeOrder w types).

Definition generateQuestions (a : App) : result (App * Cmd) :=
  let m := pdfProcess a in
  let failed (d : DB) (err : string) :=
    Done (with_pdfProcess
            (Wizard.with_loading false (PDFProcessModel.with_errorMsg err m))
            (with_db d a), NoCmd) in
  let questionTypes := enabledTypes (PDFProcessModel.questionTypes m) in
  if llen questionTypes =? 0 then
    Done (with_pdfProcess
            (PDFProcessModel.with_step 1
               (Wizard.with_loading false
                  (PDFProcessModel.with_errorMsg
                     "Please select at least one question type" m))) a,
          NoCmd)
  else
    let numQuestions := AtoiValue (PDFProcessModel.numQuestions m) in
    match GenerateQuestions w (PDFProcessModel.extractedText m) numQuestions
            questionTypes with
    | Err err => failed (db a) ("Failed to generate questions: " ++ err)
    | Ok generatedQuestions =>
        match CreateTest (db a) (PDFProcessModel.testName m)
                (PDFProcessModel.testDesc m) with
        | (d, Err err) => failed d ("Failed to create test: " ++ err)
        | (d, Ok test) =>
            match createQuestions d (Test.ID test) generatedQuestions with
            | (d', Some err) => failed d' ("Failed to save question: " ++ err)
            | (d', None) =>
                Done (with_currentView MainMenuView
                        (with_pdfProcess
                           (Wizard.with_successMsg
                              ("Successfully generated "
                               ++ pretty (llen generatedQuestions)
                               ++ " questions!")
                              (Wizard.with_loading false m))
                           (with_db d' a)), NoCmd)
            end
        end
    end.

(** *** models.go: [Update], with every handler in place *)

Definition Update (a : App) (msg : Msg) : result (App * Cmd) :=
  Tui.Update extractPDFText generateQuestions updateTestSelection
    updateTestResults updateFileSelection updateQuestionGen a msg.

End World.

End Screens.

(** * Vocabulary of the properties *)

Import GoStrings Database Tui.

(** A question is answered correctly when the answer map holds an answer
    for its id whose trimmed, lower-cased form equals that of the correct
    answer. *)
Definition answeredCorrectly (answers : gmap Z string) (q : Question.t)
  : Prop :=
  exists userAnswer,
    answers !! Question.ID q = Some userAnswer
    /\ ToLower (TrimSpace (Question.CorrectAnswer q))
       = ToLower (TrimSpace userAnswer).

#[global] Instance answeredCorrectly_dec answers q :
  Decision (answeredCorrectly answers q).
Proof.
  unfold answeredCorrectly.
  destruct (answers !! Question.ID q) as [ua|].
  - destruct (decide (ToLower (TrimSpace (Question.CorrectAnswer q))
                      = ToLower (TrimSpace ua))) as [E|N].
    + left. exists ua. auto.
    + right. intros (ua' & [= <-] & E). auto.
  - right. intros (ua' & [=] & _).
Defined.

(** The number of questions answered correctly. *)
Definition correctCount (questions : list Question.t)
    (answers : gmap Z string) : Z :=
  llen (filter (answeredCorrectly answers) questions).

Definition question (id : Z) (ty : string) (options : list string)
    (correct : string) : Question.t :=
  {| Question.ID := id; Question.TestID := 1;
     Question.QuestionText := "Which one?"; Question.QuestionType := ty;
     Question.Options := options; Question.CorrectAnswer := correct;
     Question.Explanation := ""; Question.CreatedAt := 0 |}.

Definition fourQuestions : list Question.t :=
  [question 1 "multiple_choice" ["x"; "y"; "z"] "B";
   question 2 "true_false" [] "true";
   question 3 "short_answer" [] "Paris";
   question 4 "short_answer" [] "Rome"].

Definition threeAnswers : gmap Z string :=
  <[1 := "B"]> (<[2 := "true"]> (<[3 := " paris"]> ∅)).





(** Exactly the type [k] is enabled. *)
Definition onlyEnabled (m : gmap string bool) (k : string) : Prop :=
  forall k', enabled m k' = bool_decide (k' = k).

(** The type reached after [n] toggles, in the fixed order. *)
Definition typeAt (n : nat) : string :=
  nth (n mod 3) questionTypeNames "".

Definition types (a : App) : gmap string bool :=
  PDFProcessModel.questionTypes (pdfProcess a).

Definition setTypes (m : gmap string bool) (a : App) : App :=
  with_pdfProcess (PDFProcessModel.with_questionTypes m (pdfProcess a)) a.

(** [n] toggle operations in a row. *)
Fixpoint toggles (n : nat) (a : App) : result App :=
  match n with
  | O => Done a
  | S n' => r ← toggleQuestionTypes a; toggles n' (fst r)
  end.






Definition sampleTest : Test.t :=
  {| Test.ID := 1; Test.Name := "Sample"; Test.Description := "";
     Test.CreatedAt := 0; Test.UpdatedAt := 0 |}.


(** A finished test of four questions, in the result sub-mode, over the
    database [d]. *)
Definition finishedTest (d : DB) : App :=
  with_currentView TestTakingView
    (with_userAnswers threeAnswers
       (with_currentQuestions fourQuestions
          (with_currentTest (Some sampleTest)
             (with_testTaking
                (TestTakingModel.with_showResult true
                   (TestTakingModel.with_currentQuestion 3 NewTestTakingModel))
                (NewApp d "/home/user"))))).

Definition workingDB : DB :=
  {| tests := [sampleTest]; questions := []; test_results := [];
     seq_tests := 1; seq_questions := 4; seq_test_results := 0;
     clock := 120; fault := None |}.

(** The entry parses, once trimmed, as an integer between 1 and 50. *)
Definition acceptedCount (input : string) : Prop :=
  exists num, Atoi (TrimSpace input) = Some num /\ 1 <= num <= 50.

#[global] Instance acceptedCount_dec input : Decision (acceptedCount input).
Proof.
  unfold acceptedCount. destruct (Atoi (TrimSpace input)) as [num|].
  - destruct (decide (1 <= num <= 50)) as [H|H].
    + left. exists num. auto.
    + right. intros (n & [= <-] & Hn). auto.
  - right. intros (n & [=] & _).
Defined.

(** The decimal numerals of the integers from [lo] up, [n] of them. *)
Fixpoint numerals (lo : Z) (n : nat) : list (Z * string) :=
  match n with
  | O => []
  | S n' => (lo, pretty lo) :: numerals (lo + 1) n'
  end.

(** The statement that a rejected entry stays in the input buffer. *)
Definition rejected_count_retained : Prop :=
  forall a : App,
    PDFProcessModel.inputMode (pdfProcess a) = "num_questions" ->
    ~ acceptedCount (PDFProcessModel.input (pdfProcess a)) ->
    PDFProcessModel.input (pdfProcess (fst (handlePDFInputMode a "enter")))
    = PDFProcessModel.input (pdfProcess a).

(** The configure step while the number of questions is being edited,
    with [input] typed so far. *)
Definition editingCount (input : string) : App :=
  with_currentView PDFProcessView
    (with_pdfProcess
       (PDFProcessModel.with_input "num_questions" input
          (PDFProcessModel.with_step 1 NewPDFProcessModel))
       (NewApp Database.empty "/home/user")).

(** The number of option slots that are not blank. *)
Definition nonBlank (options : list string) : nat :=
  length (filter (fun o => TrimSpace o <> "") options).

(** The in-progress question of a state. *)
Definition inProgress (a : App) : CurrentQuestion.t :=
  CustomQuestionModel.currentQuestion (customQuestion a).

(** The record that saving appends for the in-progress question [q]. *)
Definition savedQuestion (q : CurrentQuestion.t) : QuestionData.t :=
  {| QuestionData.Text := TrimSpace (CurrentQuestion.text q);
     QuestionData.Type_ := CurrentQuestion.qType q;
     QuestionData.Options := CurrentQuestion.options q;
     QuestionData.CorrectAnswer := TrimSpace (CurrentQuestion.correctAnswer q);
     QuestionData.Explanation := TrimSpace (CurrentQuestion.explanation q) |}.

(** The question-creation step with the given in-progress question. *)
Definition creating (q : CurrentQuestion.t) : App :=
  with_currentView CustomQuestionView
    (with_customQuestion
       (CustomQuestionModel.with_currentQuestion q
          (CustomQuestionModel.with_step 1 0 NewCustomQuestionModel))
       (NewApp Database.empty "/home/user")).

Definition capitalQuestion (options : list string) : CurrentQuestion.t :=
  {| CurrentQuestion.text := "Capital of France?";
     CurrentQuestion.qType := "multiple_choice";
     CurrentQuestion.options := options;
     CurrentQuestion.correctAnswer := "A";
     CurrentQuestion.explanation := "" |}.

(** The byte at position [p] of [text] is a space, a period or a line
    feed. *)
Definition breakAt (text : string) (p : Z) : bool :=
  match String.get (Z.to_nat p) text with
  | Some c => Pdf.isBreak c
  | None => false
  end.

(** The positions that [GetTextSummary] examines: the 50 positions up to
    [maxLength], position 0 excepted. *)
Definition examined (maxLength p : Z) : Prop :=
  maxLength - 50 < p <= maxLength /\ 0 < p.

(** The statement that the summary is cut at the nearest boundary
    character at or below [maxLength] and less than 50 positions from it. *)
Definition summary_cut_at_nearest_boundary : Prop :=
  forall (text : string) (maxLength p : Z),
    maxLength < len text ->
    0 <= p <= maxLength -> maxLength - 50 < p ->
    breakAt text p = true ->
    (forall j, p < j <= maxLength -> breakAt text j = false) ->
    Pdf.GetTextSummary text maxLength
    = Done (take (Z.to_nat p) text ++ "...").

(** What follows the first option in the stored text. *)
Fixpoint tailJSON (rest : list string) : string :=
  match rest with
  | [] => String quote "]"
  | o :: rest' =>
      String quote (String "," (String quote (o ++ tailJSON rest')))
  end.

(** A byte that a JSON string literal takes as it is: no control
    character, no double quote, no backslash. *)
Definition plainByte (c : ascii) : bool :=
  (32 <=? code c) && negb (code c =? 34) && negb (code c =? 92).

Fixpoint allPlain (s : string) : bool :=
  match s with
  | EmptyString => true
  | String c s' => plainByte c && allPlain s'
  end.

(** Well-formed UTF-8: a sequence of encodings that [utf8.DecodeRune]
    accepts. *)
Inductive ValidUTF8 : string -> Prop :=
  | ValidUTF8_nil : ValidUTF8 ""
  | ValidUTF8_rune s n :
      Json.decodeSize s = Some n -> ValidUTF8 (Json.drop n s) -> ValidUTF8 s.

(** An option that the stored text represents faithfully. *)
Definition plainOption (o : string) : Prop :=
  allPlain o = true /\ ValidUTF8 o.

(** The row that [CreateQuestion] inserts. *)
Definition insertedRow (d : DB) (id testID : Z)
    (questionText questionType correctAnswer explanation : string)
    (options : list string) : QuestionRow :=
  {| row_id := id; row_test_id := testID;
     row_question_text := questionText;
     row_question_type := questionType;
     row_options := optionsJSON options;
     row_correct_answer := correctAnswer;
     row_explanation := explanation;
     row_created_at := clock d |}.

(** No option holds a double quote or a backslash. *)
Fixpoint quoteFree (s : string) : bool :=
  match s with
  | EmptyString => true
  | String c s' =>
      negb (code c =? 34) && negb (code c =? 92) && quoteFree s'
  end.

(** The statement that options free of double quotes and backslashes are
    read back as they were given. *)
Definition quote_free_options_round_trip : Prop :=
  forall d testID qt ty ca ex options d' q,
    options <> [] ->
    Forall (fun o => quoteFree o = true) options ->
    CreateQuestion d testID qt ty ca ex options = (d', Ok q) ->
    Question.Options q = options.

(** An option of two lines. *)
Definition twoLines : string := String "a" (String "010" "b").

Definition cityOptions : list string := ["Paris"; "Rome, Italy"; "Oslo"].

(** ** Test taking: the session *)

(** The test-taking state is in order: the option cursor is not negative
    and, when a test is loaded, the question cursor points at one of its
    questions and the test is known. *)
Definition takingOK (a : App) : Prop :=
  0 <= TestTakingModel.cursor (testTaking a)
  /\ (currentQuestions a = []
      \/ (0 <= TestTakingModel.currentQuestion (testTaking a)
            < llen (currentQuestions a)
          /\ is_Some (currentTest a))).

(** The review cursor points at a question of the loaded test. *)
Definition reviewOK (a : App) : Prop :=
  currentQuestions a = []
  \/ 0 <= TestTakingModel.reviewQuestion (testTaking a)
       < llen (currentQuestions a).

(** Every recorded answer belongs to a question of the test. *)
Definition answersInTest (a : App) : Prop :=
  forall id, is_Some (userAnswers a !! id) ->
             exists q, q ∈ currentQuestions a /\ Question.ID q = id.

Definition sessionOK (a : App) : Prop :=
  takingOK a /\ reviewOK a /\ answersInTest a.

(** [takingOK], together with the other two parts of [sessionOK] when
    [full] is set. *)
Definition sessionInv (full : bool) (a : App) : Prop :=
  takingOK a /\ (full = true -> reviewOK a /\ answersInTest a).

(** A handler returned, without a command, a state that satisfies [P]. *)
Definition stepsTo (r : result (App * Cmd)) (P : App -> Prop) : Prop :=
  exists a', r = Done (a', NoCmd) /\ P a'.

(** A database with the sample test and a second test; the sample test
    has two questions, stored under the ids 3 and 2 in that order, the
    second test has one. *)
Definition quizDB : DB :=
  {| tests := [sampleTest;
               {| Test.ID := 2; Test.Name := "Other"; Test.Description := "";
                  Test.CreatedAt := 60; Test.UpdatedAt := 60 |}];
     questions :=
       [ {| row_id := 3; row_test_id := 1;
            row_question_text := "Is the sky blue?";
            row_question_type := "true_false";
            row_options := "[]";
            row_correct_answer := "True";
            row_explanation := "";
            row_created_at := 30 |};
         {| row_id := 1; row_test_id := 2;
            row_question_text := "Name a prime number.";
            row_question_type := "short_answer";
            row_options := "[]";
            row_correct_answer := "2";
            row_explanation := "";
            row_created_at := 60 |};
         {| row_id := 2; row_test_id := 1;
            row_question_text := "What is 2 + 2?";
            row_question_type := "short_answer";
            row_options := "[]";
            row_correct_answer := "4";
            row_explanation := "";
            row_created_at := 30 |} ];
     test_results := [];
     seq_tests := 2; seq_questions := 3; seq_test_results := 0;
     clock := 120; fault := None |}.

(** A test of four questions that has just been started. *)
Definition startedTest (d : DB) : App :=
  with_currentView TestTakingView
    (with_currentQuestions fourQuestions
       (with_currentTest (Some sampleTest) (NewApp d "/home/user"))).

(** The answer [v] is one the test-taking screen records: not empty and
    free of surrounding white space. *)
Definition cleanAnswer (v : string) : Prop := v <> "" /\ TrimSpace v = v.

(** [a'] is [a] with the current question and the answer map unchanged. *)
Definition sameQuestion (a a' : App) : Prop :=
  TestTakingModel.currentQuestion (testTaking a')
  = TestTakingModel.currentQuestion (testTaking a)
  /\ TestTakingModel.showResult (testTaking a')
     = TestTakingModel.showResult (testTaking a)
  /\ userAnswers a' = userAnswers a.

(** [a'] is [a] after the answer [v] to the current question [q] has been
    recorded: the next question is current, or after the last question the
    result is shown. *)
Definition answered (a a' : App) (q : Question.t) (v : string) : Prop :=
  let cq := TestTakingModel.currentQuestion (testTaking a) in
  userAnswers a' = <[Question.ID q := v]> (userAnswers a)
  /\ TestTakingModel.cursor (testTaking a') = 0
  /\ if cq <? llen (currentQuestions a) - 1
     then TestTakingModel.currentQuestion (testTaking a') = cq + 1
          /\ TestTakingModel.showResult (testTaking a') = false
     else TestTakingModel.currentQuestion (testTaking a') = cq
          /\ TestTakingModel.showResult (testTaking a') = true.

Definition progress (a : App) (q : Question.t) (r : result (App * Cmd))
  : Prop :=
  exists a', r = Done (a', NoCmd)
    /\ currentQuestions a' = currentQuestions a
    /\ (sameQuestion a a' \/ exists v, cleanAnswer v /\ answered a a' q v).

(** ** The whole application: what every update keeps *)

(** A list cursor is in order: not negative and, unless the list is empty,
    on one of its entries. *)
Definition cursorOK {A} (cursor : Z) (l : list A) : Prop :=
  0 <= cursor /\ (l = [] \/ cursor < llen l).

(** The custom-question wizard is in order: the three question types are
    in place with the type index on one of them, a multiple-choice
    question in progress has its four option slots, and an option is only
    edited for a multiple-choice question, with the option index on one of
    the slots. *)
Definition customOK (m : CustomQuestionModel.t) : Prop :=
  CustomQuestionModel.questionTypes m
  = ["multiple_choice"; "true_false"; "short_answer"]
  /\ 0 <= CustomQuestionModel.typeIndex m < 3
  /\ (CurrentQuestion.qType (CustomQuestionModel.currentQuestion m)
      = "multiple_choice" ->
      length (CurrentQuestion.options (CustomQuestionModel.currentQuestion m))
      = 4%nat)
  /\ (CustomQuestionModel.inputMode m = "option" ->
      CurrentQuestion.qType (CustomQuestionModel.currentQuestion m)
      = "multiple_choice"
      /\ 0 <= CustomQuestionModel.optionIndex m <= 3).

(** The state of the application is in order. *)
Definition appOK (a : App) : Prop :=
  takingOK a
  /\ cursorOK (TestSelectionModel.cursor (testSelection a))
       (TestSelectionModel.tests (testSelection a))
  /\ cursorOK (TestResultsModel.cursor (testResults a))
       (TestResultsModel.results (testResults a))
  /\ cursorOK (FileSelectionModel.cursor (fileSelection a))
       (FileSelectionModel.files (fileSelection a))
  /\ customOK (customQuestion a)
  /\ currentView a <> QuestionGenView.

(** What the test-taking handler leaves alone. *)
Definition besideSession (a a' : App) : Prop :=
  testSelection a' = testSelection a
  /\ testResults a' = testResults a
  /\ fileSelection a' = fileSelection a
  /\ customQuestion a' = customQuestion a
  /\ pdfProcess a' = pdfProcess a
  /\ (currentView a' = currentView a \/ currentView a' = MainMenuView).

(** The state is in order, and its test-taking model and the text
    extracted for the PDF wizard satisfy [Q]. *)
Definition appInv (Q : TestTakingModel.t -> string -> Prop) (a : App)
  : Prop :=
  appOK a
  /\ Q (testTaking a) (PDFProcessModel.extractedText (pdfProcess a)).

(** A handler returned a state that satisfies [P], with some command. *)
Definition returns (r : result (App * Cmd)) (P : App -> Prop) : Prop :=
  exists a' c, r = Done (a', c) /\ P a'.

(** A world with an empty disk and no generator, whose queries list the
    rows in the order of insertion. *)
Definition quietWorld : Screens.World :=
  {| Screens.GetAllTests := fun d => Ok (tests d);
     Screens.GetAllTestResults := fun _ => Ok [];
     Screens.GetTestResultAnswers := fun _ _ => Ok [];
     Screens.DeleteTest := fun d _ => (d, Some "database is locked");
     Screens.DeleteTestResult := fun d _ => (d, Some "database is locked");
     Screens.listPDFFiles := fun _ => Ok [];
     Screens.statOK := fun _ => false;
     Screens.ExtractText := fun _ => Err "no text could be extracted from the PDF";
     Screens.GenerateQuestions := fun _ _ _ => Err "API key not configured";
     Screens.rangeOrder := fun m => map_to_list m |}.

(** The world [w], with a database that deletes a test together with its
    results and its questions, and never refuses. *)
Definition deletingWorld (w : Screens.World) : Screens.World :=
  {| Screens.GetAllTests := Screens.GetAllTests w;
     Screens.GetAllTestResults := Screens.GetAllTestResults w;
     Screens.GetTestResultAnswers := Screens.GetTestResultAnswers w;
     Screens.DeleteTest := fun d id =>
       ({| tests := List.filter (fun t => negb (Test.ID t =? id)) (tests d);
           questions :=
             List.filter (fun r => negb (row_test_id r =? id)) (questions d);
           test_results :=
             List.filter (fun r => negb (TestResult.TestID r =? id))
               (test_results d);
           seq_tests := seq_tests d; seq_questions := seq_questions d;
           seq_test_results := seq_test_results d;
           clock := clock d; fault := fault d |}, None);
     Screens.DeleteTestResult := Screens.DeleteTestResult w;
     Screens.listPDFFiles := Screens.listPDFFiles w;
     Screens.statOK := Screens.statOK w;
     Screens.ExtractText := Screens.ExtractText w;
     Screens.GenerateQuestions := Screens.GenerateQuestions w;
     Screens.rangeOrder := Screens.rangeOrder w |}.

(** ** The answer review and the start of a test *)

(** The result of a test is shown and its answers are under review. *)
Definition inReview (tt : TestTakingModel.t) : Prop :=
  TestTakingModel.showResult tt = true
  /\ TestTakingModel.reviewMode tt = true.

(** The state after [r] has been pressed on the result of the finished
    test. *)
Definition reviewing (d : DB) : App :=
  with_testTaking
    (TestTakingModel.with_review true 0 (testTaking (finishedTest d)))
    (finishedTest d).

(** The test-selection screen with the given tests, the cursor on the
    first, entered to take a test. *)
Definition choosing (d : DB) (ts : list Test.t) (a : App) : App :=
  with_currentView TestSelectionView
    (with_testSelection
       {| TestSelectionModel.tests := ts;
          TestSelectionModel.cursor := 0;
          TestSelectionModel.purpose := "take_test";
          TestSelectionModel.errorMsg := "";
          TestSelectionModel.loading := false |}
       (with_db d a)).

(** ** The PDF wizard: what it sends to the generator *)

(** A state of the PDF wizard with the given extracted text. *)
Definition extracted (text : string) (d : DB) : App :=
  with_currentView FileSelectionView
    (with_pdfProcess
       (Screens.Wizard.with_extractedText text
          (PDFProcessModel.with_step 2 NewPDFProcessModel))
       (NewApp d "/home/user")).

(** Some byte of the text is white space. *)
Fixpoint hasSpace (s : string) : bool :=
  match s with
  | EmptyString => false
  | String c s' => isSpace c || hasSpace s'
  end.

(** The world [w] with a generator that is asked for [n] questions
    whatever number it is called with. *)
Definition askingFor (n : Z) (w : Screens.World) : Screens.World :=
  {| Screens.GetAllTests := Screens.GetAllTests w;
     Screens.GetAllTestResults := Screens.GetAllTestResults w;
     Screens.GetTestResultAnswers := Screens.GetTestResultAnswers w;
     Screens.DeleteTest := Screens.DeleteTest w;
     Screens.DeleteTestResult := Screens.DeleteTestResult w;
     Screens.listPDFFiles := Screens.listPDFFiles w;
     Screens.statOK := Screens.statOK w;
     Screens.ExtractText := Screens.ExtractText w;
     Screens.GenerateQuestions :=
       fun text _ types => Screens.GenerateQuestions w text n types;
     Screens.rangeOrder := Screens.rangeOrder w |}.

(** ** The PDF wizard: its settings *)

(** The settings of the PDF wizard are valid: the number of questions is
    an entry that the validation accepts, the test name is not empty, name
    and description carry no surrounding white space, and exactly one
    question type is enabled. *)
Definition settingsOK (m : PDFProcessModel.t) : Prop :=
  acceptedCount (PDFProcessModel.numQuestions m)
  /\ PDFProcessModel.testName m <> ""
  /\ TrimSpace (PDFProcessModel.testName m) = PDFProcessModel.testName m
  /\ TrimSpace (PDFProcessModel.testDesc m) = PDFProcessModel.testDesc m
  /\ exists n, onlyEnabled (PDFProcessModel.questionTypes m) (typeAt n).

(** ** The database: tests and their questions *)

(** The largest rowid in use or used before, per table. *)
Definition lastTestID (d : DB) : Z := max_id (Test.ID <$> tests d) (seq_tests d).

Definition lastQuestionID (d : DB) : Z :=
  max_id (row_id <$> questions d) (seq_questions d).

(** Every question row belongs to a test id that has been given out. *)
Definition knownTests (d : DB) : Prop :=
  forall r, r ∈ questions d -> row_test_id r <= lastTestID d.

(** The rows that storing the questions [qs] one after the other adds,
    the first under the id after [last], at the time [created]. *)
Fixpoint rowsFor (created testID last : Z) (qs : list QuestionData.t)
  : list QuestionRow :=
  match qs with
  | [] => []
  | q :: qs' =>
      {| row_id := last + 1; row_test_id := testID;
         row_question_text := QuestionData.Text q;
         row_question_type := QuestionData.Type_ q;
         row_options := optionsJSON (QuestionData.Options q);
         row_correct_answer := QuestionData.CorrectAnswer q;
         row_explanation := QuestionData.Explanation q;
         row_created_at := created |}
      :: rowsFor created testID (last + 1) qs'
  end.

(** The question type is one the table accepts. *)
Definition validType (q : QuestionData.t) : Prop :=
  validQuestionType (QuestionData.Type_ q) = true.

(** The question [q], as read back, is the question [qd], as entered,
    of the test [testID]. *)
Definition readsBack (testID : Z) (q : Question.t) (qd : QuestionData.t)
  : Prop :=
  Question.TestID q = testID
  /\ Question.QuestionText q = QuestionData.Text qd
  /\ Question.QuestionType q = QuestionData.Type_ qd
  /\ Question.CorrectAnswer q = QuestionData.CorrectAnswer qd
  /\ Question.Explanation q = QuestionData.Explanation qd
  /\ Question.Options q = parseOptions (optionsJSON (QuestionData.Options qd)).

(** The database after [CreateTest] has stored the test [t]. *)
Definition withTest (t : Test.t) (d : DB) : DB :=
  {| tests := tests d ++ [t]; questions := questions d;
     test_results := test_results d; seq_tests := Test.ID t;
     seq_questions := seq_questions d;
     seq_test_results := seq_test_results d;
     clock := clock d; fault := fault d |}.

#[global] Instance row_le_total : Total row_le.
Proof. intros r1 r2. unfold row_le. lia. Qed.

#[global] Instance row_le_trans : Transitive row_le.
Proof. intros r1 r2 r3. unfold row_le. lia. Qed.

(** The questions are in ascending order of id. *)
Definition ascending (qs : list Question.t) : Prop :=
  Sorted (fun q1 q2 => Question.ID q1 <= Question.ID q2) qs.

(** What [createQuestions] leaves alone. *)
Definition sameTests (d d' : DB) : Prop :=
  tests d' = tests d /\ seq_tests d' = seq_tests d
  /\ test_results d' = test_results d
  /\ seq_test_results d' = seq_test_results d
  /\ clock d' = clock d /\ fault d' = fault d.

Definition essay : QuestionData.t :=
  {| QuestionData.Text := "Discuss."; QuestionData.Type_ := "essay";
     QuestionData.Options := []; QuestionData.CorrectAnswer := "x";
     QuestionData.Explanation := "" |}.

Definition yesNo : QuestionData.t :=
  {| QuestionData.Text := "The sky is blue."; QuestionData.Type_ := "true_false";
     QuestionData.Options := []; QuestionData.CorrectAnswer := "true";
     QuestionData.Explanation := "" |}.

(** The custom-question wizard holding the questions [qs], over the
    database [d]. *)
Definition reviewingTest (qs : list QuestionData.t) (d : DB) : App :=
  with_currentView CustomQuestionView
    (with_customQuestion
       (CustomQuestionModel.with_questions qs
          (CustomQuestionModel.with_step 2 0 NewCustomQuestionModel))
       (NewApp d "/home/user")).

(** ** Text extraction *)

(** No byte of the text is a line feed. *)
Fixpoint noLineFeed (s : string) : bool :=
  match s with
  | EmptyString => true
  | String c s' => negb (Ascii.eqb c PdfText.lineFeed) && noLineFeed s'
  end.

(** The text starts with the encoding of a white-space character. *)
Definition startsWithSpace (s : string) : bool :=
  match s with
  | EmptyString => false
  | String c s1 =>
      isSpace c
      || match s1 with
         | EmptyString => false
         | String d s2 =>
             Unicode.isSpace2 c d
             || match s2 with
                | EmptyString => false
                | String e _ => Unicode.isSpace3 c d e
                end
         end
  end.

(** A text of at least three bytes without white space at either end. *)
Definition solid (s : string) : Prop :=
  Unicode.trimLeft s = s /\ Unicode.trimRight s = s /\ 3 <= len s.

(** The cleaned texts of the pages that have any, in page order. *)
Fixpoint cleanedPages (pages : list (option string)) : list string :=
  match pages with
  | [] => []
  | None :: rest => cleanedPages rest
  | Some pageText :: rest =>
      if String.eqb (PdfText.cleanText pageText) "" then cleanedPages rest
      else PdfText.cleanText pageText :: cleanedPages rest
  end.

(** ** The main menu *)

(** The key selects the entry under the cursor. *)
Definition selects (msg : Msg) : Prop :=
  msg = KeyMsg "enter" \/ msg = KeyMsg " ".

(** ** The custom-question wizard: the questions it collects *)

(** A collected question is well formed: its type is one the table
    accepts, its text and correct answer are not empty, text, answer and
    explanation carry no surrounding white space, and a multiple-choice
    question has at least two options that are not blank. *)
Definition wellFormed (q : QuestionData.t) : Prop :=
  validType q
  /\ QuestionData.Text q <> ""
  /\ TrimSpace (QuestionData.Text q) = QuestionData.Text q
  /\ QuestionData.CorrectAnswer q <> ""
  /\ TrimSpace (QuestionData.CorrectAnswer q) = QuestionData.CorrectAnswer q
  /\ TrimSpace (QuestionData.Explanation q) = QuestionData.Explanation q
  /\ (QuestionData.Type_ q = "multiple_choice" ->
      2 <= validOptions (QuestionData.Options q)).

(** The wizard is in order, the type of the question in progress is the
    one under the type index, and every collected question is well
    formed. *)
Definition wizardOK (m : CustomQuestionModel.t) : Prop :=
  customOK m
  /\ index (CustomQuestionModel.questionTypes m)
       (CustomQuestionModel.typeIndex m)
     = Done (CurrentQuestion.qType (CustomQuestionModel.currentQuestion m))
  /\ Forall wellFormed (CustomQuestionModel.questions m).

(** What the confirmation of an input leaves alone. *)
Definition sameQuestions (m m' : CustomQuestionModel.t) : Prop :=
  CustomQuestionModel.questions m' = CustomQuestionModel.questions m
  /\ CustomQuestionModel.questionTypes m' = CustomQuestionModel.questionTypes m
  /\ CustomQuestionModel.typeIndex m' = CustomQuestionModel.typeIndex m
  /\ CurrentQuestion.qType (CustomQuestionModel.currentQuestion m')
     = CurrentQuestion.qType (CustomQuestionModel.currentQuestion m).

(** ** The screen of test results *)

(** The results screen is in order: the cursor is on an entry of the
    list, the list mode has no selected result and the detail mode has
    one, and the screen does not report a deletion without a target. *)
Definition resultsOK (m : TestResultsModel.t) : Prop :=
  cursorOK (TestResultsModel.cursor m) (TestResultsModel.results m)
  /\ ((TestResultsModel.viewMode m = "list"
       /\ TestResultsModel.selectedResult m = None)
      \/ (TestResultsModel.viewMode m = "detail"
          /\ is_Some (TestResultsModel.selectedResult m)))
  /\ TestResultsModel.errorMsg m <> "No result selected for deletion".

(** * Properties of the embedded program *)

(** ** Letter grades *)

Lemma of_int_grades :
  Float64.of_int 90 = S754_finite false 6333186975989760 (-46)
  /\ Float64.of_int 80 = S754_finite false 5629499534213120 (-46)
  /\ Float64.of_int 70 = S754_finite false 4925812092436480 (-46)
  /\ Float64.of_int 60 = S754_finite false 8444249301319680 (-47).
Proof. repeat split; vm_compute; reflexivity. Qed.

(** Comparison of two positive finite floats is lexicographic on the
    exponent and the mantissa. *)
Lemma SFleb_pos m1 e1 m2 e2 :
  SFleb (S754_finite false m1 e1) (S754_finite false m2 e2) = true
  <-> e1 < e2 \/ (e1 = e2 /\ (m1 <= m2)%positive).
Proof.
  unfold SFleb; cbn [SFcompare].
  change (PosDef.Pos.compare_cont Eq) with Pos.compare.
  destruct (Z.compare_spec e1 e2); [destruct (Pos.compare_spec m1 m2) | |];
    split; intros; try discriminate; try reflexivity; lia.
Qed.

Lemma SFltb_pos m1 e1 m2 e2 :
  SFltb (S754_finite false m1 e1) (S754_finite false m2 e2) = true
  <-> e1 < e2 \/ (e1 = e2 /\ (m1 < m2)%positive).
Proof.
  unfold SFltb; cbn [SFcompare].
  change (PosDef.Pos.compare_cont Eq) with Pos.compare.
  destruct (Z.compare_spec e1 e2); [destruct (Pos.compare_spec m1 m2) | |];
    split; intros; try discriminate; try reflexivity; lia.
Qed.

Lemma SFleb_pos_false m1 e1 m2 e2 :
  SFleb (S754_finite false m1 e1) (S754_finite false m2 e2) = false
  <-> e2 < e1 \/ (e1 = e2 /\ (m2 < m1)%positive).
Proof.
  rewrite <- not_true_iff_false, SFleb_pos. lia.
Qed.

Ltac grade_cases :=
  repeat match goal with
    | |- context [SFleb ?a ?b] =>
        let E := fresh "E" in
        destruct (SFleb a b) eqn:E;
        [apply SFleb_pos in E | apply SFleb_pos_false in E]
    end.

(** C7. For every percentage [p]: [p >= 90] gives A; [80 <= p < 90] gives
    B; [70 <= p < 80] gives C; [60 <= p < 70] gives D; [p < 60] gives F.
    The bounds are closed below: 90.0, 80.0, 70.0 and 60.0 themselves map to
    A, B, C and D. *)
Theorem getGrade_thresholds (p : Float64.float64) :
  (Float64.geb p (Float64.of_int 90) = true -> getGrade p = "A")
  /\ (Float64.geb p (Float64.of_int 80) = true ->
      Float64.ltb p (Float64.of_int 90) = true -> getGrade p = "B")
  /\ (Float64.geb p (Float64.of_int 70) = true ->
      Float64.ltb p (Float64.of_int 80) = true -> getGrade p = "C")
  /\ (Float64.geb p (Float64.of_int 60) = true ->
      Float64.ltb p (Float64.of_int 70) = true -> getGrade p = "D")
  /\ (Float64.ltb p (Float64.of_int 60) = true -> getGrade p = "F")
  /\ getGrade (Float64.of_int 90) = "A"
  /\ getGrade (Float64.of_int 80) = "B"
  /\ getGrade (Float64.of_int 70) = "C"
  /\ getGrade (Float64.of_int 60) = "D".
Proof.
  destruct of_int_grades as (E90 & E80 & E70 & E60).
  unfold getGrade, Float64.geb, Float64.ltb.
  rewrite E90, E80, E70, E60. clear E90 E80 E70 E60.
  assert (H1 : (4925812092436480 < 5629499534213120)%positive) by reflexivity.
  assert (H2 : (5629499534213120 < 6333186975989760)%positive) by reflexivity.
  repeat apply conj.
  6-9: vm_compute; reflexivity.
  all: destruct p as [s | s | | s m e]; try destruct s;
    try (cbn [SFleb SFltb SFcompare]; intros;
         first [discriminate | reflexivity]);
    revert H1 H2;
    generalize 4925812092436480%positive 5629499534213120%positive
      6333186975989760%positive 8444249301319680%positive;
    intros m70 m80 m90 m60 H1 H2;
    rewrite ?SFleb_pos, ?SFltb_pos; intros;
    grade_cases; try reflexivity; lia.
Qed.

Lemma getGrade_thresholds_witness :
  getGrade (Float64.of_int 85) = "B" /\ getGrade (Float64.of_int 59) = "F".
Proof.
  split.
  - apply (proj1 (proj2 (getGrade_thresholds (Float64.of_int 85))));
      vm_compute; reflexivity.
  - apply (proj1 (proj2 (proj2 (proj2 (proj2
             (getGrade_thresholds (Float64.of_int 59)))))));
      vm_compute; reflexivity.
Defined.

(** ** Scoring *)



Lemma correctCount_bounds qs answers :
  0 <= correctCount qs answers <= llen qs.
Proof.
  unfold correctCount, llen. pose proof (length_filter (answeredCorrectly answers) qs).
  lia.
Qed.




(** *** Normalisation of answers *)



















(** ** The PDF wizard: question types *)

Lemma onlyEnabled_move m cur next :
  cur <> next -> onlyEnabled m cur ->
  onlyEnabled (<[next := true]> (<[cur := false]> m)) next.
Proof.
  intros Hne Hm k. unfold enabled.
  destruct (decide (k = next)) as [->|Hk].
  - rewrite lookup_insert_eq, bool_decide_eq_true_2; reflexivity.
  - rewrite lookup_insert_ne by congruence.
    rewrite (bool_decide_eq_false_2 _ Hk).
    destruct (decide (k = cur)) as [->|Hk'].
    + rewrite lookup_insert_eq. reflexivity.
    + rewrite lookup_insert_ne by congruence.
      specialize (Hm k). unfold enabled in Hm. rewrite Hm.
      apply bool_decide_eq_false_2, Hk'.
Qed.

Lemma typeAt_cases n :
  (typeAt n = "multiple_choice" /\ typeAt (S n) = "true_false")
  \/ (typeAt n = "true_false" /\ typeAt (S n) = "short_answer")
  \/ (typeAt n = "short_answer" /\ typeAt (S n) = "multiple_choice").
Proof.
  unfold typeAt.
  assert (H : (S n mod 3 = (n mod 3 + 1) mod 3)%nat).
  { replace (S n) with (n + 1)%nat by lia.
    rewrite Nat.Div0.add_mod_idemp_l. reflexivity. }
  rewrite H. pose proof (Nat.mod_upper_bound n 3 ltac:(lia)) as Hlt.
  destruct (n mod 3)%nat as [|[|[|k]]]; [auto | auto | auto | lia].
Qed.

Lemma toggleFrom_step m n :
  onlyEnabled m (typeAt n) ->
  exists m',
    toggleFrom questionTypeNames questionTypeNames 0 m = Done m'
    /\ onlyEnabled m' (typeAt (S n)).
Proof.
  intros Hm.
  destruct (typeAt_cases n) as [[E E']|[[E E']|[E E']]];
    rewrite E in Hm; rewrite E'; unfold questionTypeNames;
    cbn [toggleFrom]; rewrite !Hm;
    repeat (rewrite bool_decide_eq_false_2 by discriminate);
    rewrite bool_decide_eq_true_2 by reflexivity.
  all: eexists; split; [reflexivity|].
  all: apply onlyEnabled_move; [discriminate | exact Hm].
Qed.

Lemma toggleQuestionTypes_eq a :
  toggleQuestionTypes a
  = match toggleFrom questionTypeNames questionTypeNames 0 (types a) with
    | Done m => Done (setTypes m a, NoCmd)
    | Panic w => Panic w
    end.
Proof. reflexivity. Qed.

Lemma toggles_S n a m :
  toggleFrom questionTypeNames questionTypeNames 0 (types a) = Done m ->
  toggles (S n) a = toggles n (setTypes m a).
Proof.
  intros H. cbn [toggles]. rewrite toggleQuestionTypes_eq, H. reflexivity.
Qed.

Lemma toggleQuestionTypes_step a n :
  onlyEnabled (types a) (typeAt n) ->
  exists m',
    toggleQuestionTypes a = Done (setTypes m' a, NoCmd)
    /\ onlyEnabled m' (typeAt (S n)).
Proof.
  intros Hm. destruct (toggleFrom_step _ _ Hm) as (m' & Hstep & Hm').
  exists m'. split; [|exact Hm'].
  rewrite toggleQuestionTypes_eq, Hstep. reflexivity.
Qed.

Lemma types_setTypes m a : types (setTypes m a) = m.
Proof. reflexivity. Qed.

Lemma setTypes_setTypes m m' a : setTypes m (setTypes m' a) = setTypes m a.
Proof. reflexivity. Qed.

Lemma setTypes_types a : setTypes (types a) a = a.
Proof. destruct a as [? ? ? [] ? ? ? ? ? ? ? ? ? ?]. reflexivity. Qed.

Lemma toggles_from a n k :
  onlyEnabled (types a) (typeAt k) ->
  exists m',
    toggles n a = Done (setTypes m' a)
    /\ onlyEnabled m' (typeAt (k + n)).
Proof.
  revert a k. induction n as [|n IH]; intros a k Hm.
  - exists (types a). rewrite setTypes_types, Nat.add_0_r. auto.
  - destruct (toggleQuestionTypes_step a k Hm) as (m1 & Hstep & Hm1).
    destruct (IH (setTypes m1 a) (S k)) as (m' & Hn & Hm').
    { rewrite types_setTypes. exact Hm1. }
    exists m'. cbn [toggles]. rewrite Hstep. cbn [mbind result_bind fst].
    rewrite Hn, setTypes_setTypes. split; [reflexivity|].
    replace (k + S n)%nat with (S k + n)%nat by lia. exact Hm'.
Qed.

Lemma default_onlyEnabled :
  onlyEnabled (PDFProcessModel.questionTypes NewPDFProcessModel)
    "multiple_choice".
Proof.
  intros k. unfold enabled. cbn [NewPDFProcessModel PDFProcessModel.questionTypes].
  destruct (decide (k = "multiple_choice")) as [->|H1].
  - rewrite lookup_insert_eq. reflexivity.
  - rewrite lookup_insert_ne, (bool_decide_eq_false_2 _ H1) by congruence.
    destruct (decide (k = "true_false")) as [->|H2].
    + rewrite lookup_insert_eq. reflexivity.
    + rewrite lookup_insert_ne by congruence.
      destruct (decide (k = "short_answer")) as [->|H3].
      * rewrite lookup_insert_eq. reflexivity.
      * rewrite lookup_insert_ne, lookup_empty by congruence. reflexivity.
Qed.

Lemma three_toggles_default :
  exists m1 m2,
    toggleFrom questionTypeNames questionTypeNames 0
      (PDFProcessModel.questionTypes NewPDFProcessModel) = Done m1
    /\ toggleFrom questionTypeNames questionTypeNames 0 m1 = Done m2
    /\ toggleFrom questionTypeNames questionTypeNames 0 m2
       = Done (PDFProcessModel.questionTypes NewPDFProcessModel).
Proof.
  eexists _, _. repeat apply conj; vm_compute; reflexivity.
Qed.

(** C4. From the default state (only multiple_choice enabled), every
    toggle moves the single enabled type to the next one in the order
    multiple_choice, true_false, short_answer, multiple_choice: after [n]
    toggles exactly the type number [n mod 3] is enabled, nothing else of the
    state has changed, and three toggles give the initial state back. *)
Theorem toggle_cycles_question_types (a : App) :
  types a = PDFProcessModel.questionTypes NewPDFProcessModel ->
  (forall n, exists m',
      toggles n a = Done (setTypes m' a) /\ onlyEnabled m' (typeAt n))
  /\ (forall n a', toggles n a = Done a' ->
      forall m'', toggleQuestionTypes a' = Done (setTypes m'' a', NoCmd) ->
      onlyEnabled m'' (typeAt (S n)))
  /\ toggles 3 a = Done a.
Proof.
  intros Hdefault.
  assert (H0 : onlyEnabled (types a) (typeAt 0)).
  { rewrite Hdefault. exact default_onlyEnabled. }
  split; [|split].
  - intros n. apply (toggles_from a n 0 H0).
  - intros n a' Hn m'' Hstep.
    destruct (toggles_from a n 0 H0) as (m' & Hn' & Hm').
    rewrite Hn in Hn'. injection Hn' as ->.
    destruct (toggleQuestionTypes_step (setTypes m' a) n) as (m3 & Hs & Hm3).
    { rewrite types_setTypes. exact Hm'. }
    rewrite Hstep in Hs. injection Hs as ->. exact Hm3.
  - destruct three_toggles_default as (m1 & m2 & H1 & H2 & H3).
    rewrite <- Hdefault in H1, H3.
    rewrite (toggles_S 2 a m1 H1).
    rewrite (toggles_S 1 (setTypes m1 a) m2 H2).
    rewrite (toggles_S 0 (setTypes m2 (setTypes m1 a)) (types a) H3).
    cbn [toggles]. rewrite !setTypes_setTypes, setTypes_types. reflexivity.
Qed.

Lemma toggle_cycles_question_types_witness :
  toggles 3 (NewApp Database.empty "/home/user")
  = Done (NewApp Database.empty "/home/user").
Proof.
  apply (proj2 (proj2 (toggle_cycles_question_types
                         (NewApp Database.empty "/home/user") eq_refl))).
Defined.

(** ** Navigation: the escape key *)

Lemma with_currentView_same a :
  currentView a = MainMenuView -> with_currentView MainMenuView a = a.
Proof. destruct a. cbn. intros ->. reflexivity. Qed.

Section Escape.
Variables extractPDFText generateQuestions : App -> result (App * Cmd).
Variables updateTestSelection updateTestResults updateFileSelection
  updateQuestionGen : App -> Msg -> result (App * Cmd).

(** C5. Whatever the state (any view, any input mode or sub-mode), an
    escape key event is processed without panic and leaves the
    application on MainMenu: from a view other than MainMenu the current
    view is set to MainMenu, no handler runs and nothing else changes; on
    MainMenu itself nothing changes. No escape event leads to any other
    view. *)
Theorem escape_returns_to_main_menu (a : App) :
  Update extractPDFText generateQuestions updateTestSelection
    updateTestResults updateFileSelection updateQuestionGen a (KeyMsg "esc")
  = Done (with_currentView MainMenuView a, NoCmd)
  /\ currentView (with_currentView MainMenuView a) = MainMenuView.
Proof.
  split; [|reflexivity].
  unfold Update. change (String.eqb "esc" "ctrl+c") with false.
  change (String.eqb "esc" "esc") with true. cbn [andb].
  destruct (decide (currentView a = MainMenuView)) as [Hmain|Hother].
  - rewrite (bool_decide_eq_true_2 _ Hmain). cbn [negb].
    unfold route. rewrite Hmain.
    rewrite (with_currentView_same a Hmain). reflexivity.
  - rewrite (bool_decide_eq_false_2 _ Hother). reflexivity.
Qed.

End Escape.

(** ** Test taking: saving the result *)








(** ** The PDF wizard: the number of questions *)

Lemma confirmPDFInput_num m :
  PDFProcessModel.inputMode m = "num_questions" ->
  confirmPDFInput m
  = if decide (acceptedCount (PDFProcessModel.input m))
    then PDFProcessModel.with_numQuestions (PDFProcessModel.input m) m
    else PDFProcessModel.with_errorMsg numQuestionsError m.
Proof.
  intros Hmode. unfold confirmPDFInput. rewrite Hmode.
  change (String.eqb "num_questions" "num_questions") with true. cbn iota.
  destruct (decide _) as [(num & Hnum & Hrange)|Hno].
  - rewrite Hnum.
    destruct (Z.gtb_spec num 0); [|lia].
    destruct (Z.leb_spec num 50); [reflexivity | lia].
  - destruct (Atoi _) as [num|] eqn:Hnum; [|reflexivity].
    destruct (Z.gtb_spec num 0); [|reflexivity].
    destruct (Z.leb_spec num 50); [|reflexivity].
    exfalso. apply Hno. exists num. split; [exact Hnum | lia].
Qed.

Lemma numerals_complete lo n k :
  lo <= k < lo + Z.of_nat n -> (k, pretty k) ∈ numerals lo n.
Proof.
  revert lo. induction n as [|n IH]; intros lo Hk; [lia|].
  cbn [numerals]. destruct (decide (k = lo)) as [->|Hne].
  - apply list_elem_of_here.
  - apply list_elem_of_further, IH. lia.
Qed.

Lemma numerals_accepted :
  Forall (fun p => Atoi (TrimSpace (snd p)) = Some (fst p)) (numerals 1 50).
Proof.
  apply Forall_forall. intros p Hp.
  assert (Hall : forallb
            (fun p => bool_decide (Atoi (TrimSpace (snd p)) = Some (fst p)))
            (numerals 1 50) = true) by (vm_compute; reflexivity).
  rewrite forallb_forall in Hall.
  apply list_elem_of_In, Hall in Hp.
  apply bool_decide_eq_true_1 in Hp. exact Hp.
Qed.

(** C6, as stated, fails: an out-of-range entry is rejected, but it is
    not retained: the input buffer is cleared and input mode is left. *)
Lemma rejected_count_retained_fails : ~ rejected_count_retained.
Proof.
  intros Hclaim. specialize (Hclaim (editingCount "99") eq_refl).
  assert (Hrej : ~ acceptedCount "99").
  { intros (num & Hnum & Hrange). vm_compute in Hnum.
    injection Hnum as <-. lia. }
  specialize (Hclaim Hrej). vm_compute in Hclaim. discriminate Hclaim.
Qed.

(** C6, amended. Confirming the number-of-questions input accepts the
    entry exactly when, once trimmed, it parses as an integer in [1,50]
    (every decimal numeral of such an integer does): the entry then
    replaces the stored count. Otherwise the stored count is unchanged and
    the validation message is set. In both cases the input buffer is
    cleared and input mode is left: a rejected entry is not retained. *)
Theorem confirm_count_validates_range (a : App) :
  PDFProcessModel.inputMode (pdfProcess a) = "num_questions" ->
  let m := pdfProcess a in
  let m' := pdfProcess (fst (handlePDFInputMode a "enter")) in
  snd (handlePDFInputMode a "enter") = NoCmd
  /\ PDFProcessModel.inputMode m' = ""
  /\ PDFProcessModel.input m' = ""
  /\ (acceptedCount (PDFProcessModel.input m) ->
      PDFProcessModel.numQuestions m' = PDFProcessModel.input m
      /\ PDFProcessModel.errorMsg m' = PDFProcessModel.errorMsg m)
  /\ (~ acceptedCount (PDFProcessModel.input m) ->
      PDFProcessModel.numQuestions m' = PDFProcessModel.numQuestions m
      /\ PDFProcessModel.errorMsg m' = numQuestionsError)
  /\ (forall n, 1 <= n <= 50 -> acceptedCount (pretty n))
  /\ PDFProcessModel.numQuestions NewPDFProcessModel = "5".
Proof.
  intros Hmode m m'. subst m m'. unfold handlePDFInputMode.
  change (keyIs "enter" ["enter"]) with true. cbn iota. cbn [fst snd].
  rewrite (confirmPDFInput_num _ Hmode).
  split; [reflexivity|]. split; [reflexivity|]. split; [reflexivity|].
  split; [|split; [|split]].
  - intros Hacc. destruct (decide _); [|contradiction]. split; reflexivity.
  - intros Hrej. destruct (decide _); [contradiction|]. split; reflexivity.
  - intros n Hn. exists n. split; [|exact Hn].
    pose proof numerals_accepted as Hall. rewrite Forall_forall in Hall.
    exact (Hall (n, pretty n) (numerals_complete 1 50 n ltac:(lia))).
  - reflexivity.
Qed.

Lemma confirm_count_validates_range_witness :
  PDFProcessModel.numQuestions
    (pdfProcess (fst (handlePDFInputMode (editingCount " 12") "enter")))
  = " 12"
  /\ PDFProcessModel.errorMsg
       (pdfProcess (fst (handlePDFInputMode (editingCount "0") "enter")))
     = numQuestionsError.
Proof.
  split.
  - apply (confirm_count_validates_range (editingCount " 12") eq_refl).
    exists 12. split; [vm_compute; reflexivity | lia].
  - apply (confirm_count_validates_range (editingCount "0") eq_refl).
    intros (num & Hnum & Hrange). vm_compute in Hnum.
    injection Hnum as <-. lia.
Defined.

(** ** The custom-question wizard: saving a question *)

Lemma validOptions_loop options acc :
  fold_left
    (fun n opt => if String.eqb (TrimSpace opt) "" then n else n + 1)
    options acc
  = acc + Z.of_nat (nonBlank options).
Proof.
  unfold nonBlank. revert acc.
  induction options as [|o options IH]; intros acc; simpl.
  - lia.
  - rewrite IH, filter_cons.
    destruct (String.eqb_spec (TrimSpace o) "") as [E|N];
      destruct (decide (TrimSpace o <> "")) as [D|D];
      try contradiction; simpl length; lia.
Qed.

Lemma validOptions_nonBlank options :
  validOptions options = Z.of_nat (nonBlank options).
Proof. unfold validOptions. rewrite validOptions_loop. lia. Qed.

Lemma TrimSpace_idem s : TrimSpace (TrimSpace s) = TrimSpace s.
Proof.
  unfold TrimSpace.
  assert (Hl : forall t, trimLeft (trimLeft t) = trimLeft t).
  { induction t as [|c t IH]; [reflexivity|]. simpl.
    destruct (isSpace c) eqn:E; [exact IH|]. simpl. rewrite E. reflexivity. }
  assert (Hr : forall t, trimRight (trimRight t) = trimRight t).
  { induction t as [|c t IH]; [reflexivity|]. simpl.
    destruct (trimRight t) as [|d t'] eqn:E.
    - destruct (isSpace c) eqn:Ec; [reflexivity|]. simpl. rewrite Ec.
      reflexivity.
    - simpl in IH |- *. rewrite IH. reflexivity. }
  assert (Hlr : forall t, trimLeft (trimRight (trimLeft t))
                          = trimRight (trimLeft t)).
  { intros t. generalize (Hl t). generalize (trimLeft t). clear.
    intros [|c u]; [reflexivity|]. simpl.
    destruct (isSpace c) eqn:Ec.
    - intros Hu. exfalso.
      assert (Hn : forall v, trimLeft v <> String c u).
      { induction v as [|d v IHv]; simpl; [discriminate|].
        destruct (isSpace d) eqn:Ed; [exact IHv|].
        intros [= -> ->]. congruence. }
      exact (Hn u Hu).
    - intros _. destruct (trimRight u); simpl; rewrite Ec; reflexivity. }
  intros. rewrite Hlr, Hr. reflexivity.
Qed.

(** A stored text that is not empty is not blank either: the wizard only
    stores trimmed texts. *)
Lemma stored_text_not_blank input :
  TrimSpace input <> "" -> TrimSpace (TrimSpace input) <> "".
Proof. rewrite TrimSpace_idem. auto. Qed.

(** C8. Saving an in-progress multiple_choice question whose text and
    correct answer are not blank is rejected, with the validation message
    and nothing saved, when at most one option slot is not blank; it is
    accepted, the question being appended to the session's list and the
    in-progress question reset, when at least two option slots are not
    blank. *)
Theorem saveCurrentQuestion_needs_two_options (a : App) :
  let q := inProgress a in
  let m := customQuestion a in
  let m' := customQuestion (fst (saveCurrentQuestion a)) in
  CurrentQuestion.qType q = "multiple_choice" ->
  TrimSpace (CurrentQuestion.text q) <> "" ->
  TrimSpace (CurrentQuestion.correctAnswer q) <> "" ->
  ((nonBlank (CurrentQuestion.options q) <= 1)%nat ->
     saveCurrentQuestion a
     = (with_customQuestion
          (CustomQuestionModel.with_errorMsg
             "Multiple choice questions need at least 2 options" m) a, NoCmd)
     /\ CustomQuestionModel.questions m' = CustomQuestionModel.questions m
     /\ CustomQuestionModel.currentQuestion m' = q)
  /\ ((2 <= nonBlank (CurrentQuestion.options q))%nat ->
      CustomQuestionModel.questions m'
      = (CustomQuestionModel.questions m ++ [savedQuestion q])%list
      /\ CustomQuestionModel.errorMsg m' = CustomQuestionModel.errorMsg m
      /\ CustomQuestionModel.currentQuestion m'
         = {| CurrentQuestion.text := "";
              CurrentQuestion.qType := "multiple_choice";
              CurrentQuestion.options := makeStrings 4;
              CurrentQuestion.correctAnswer := "";
              CurrentQuestion.explanation := "" |}).
Proof.
  intros q m m' Hty Htext Hans. subst q m m'.
  unfold saveCurrentQuestion, inProgress in *.
  set (q := CustomQuestionModel.currentQuestion (customQuestion a)) in *.
  destruct (String.eqb_spec (TrimSpace (CurrentQuestion.text q)) "");
    [contradiction|].
  destruct (String.eqb_spec (TrimSpace (CurrentQuestion.correctAnswer q)) "");
    [contradiction|].
  rewrite Hty, validOptions_nonBlank.
  change (String.eqb "multiple_choice" "multiple_choice") with true.
  cbn [andb]. split; intros Hn.
  - destruct (Z.ltb_spec (Z.of_nat (nonBlank (CurrentQuestion.options q))) 2);
      [|lia].
    repeat split.
  - destruct (Z.ltb_spec (Z.of_nat (nonBlank (CurrentQuestion.options q))) 2);
      [lia|].
    cbn [fst]. unfold savedQuestion. rewrite Hty. repeat split.
Qed.

Lemma saveCurrentQuestion_needs_two_options_witness :
  CustomQuestionModel.questions
    (customQuestion
       (fst (saveCurrentQuestion
               (creating (capitalQuestion ["Paris"; "Rome"; ""; ""])))))
  = [savedQuestion (capitalQuestion ["Paris"; "Rome"; ""; ""])]
  /\ CustomQuestionModel.questions
       (customQuestion
          (fst (saveCurrentQuestion
                  (creating (capitalQuestion ["Paris"; " "; ""; ""])))))
     = [].
Proof.
  split.
  - apply (saveCurrentQuestion_needs_two_options
             (creating (capitalQuestion ["Paris"; "Rome"; ""; ""])) eq_refl);
      [vm_compute; discriminate | vm_compute; discriminate
      | vm_compute; lia].
  - apply (saveCurrentQuestion_needs_two_options
             (creating (capitalQuestion ["Paris"; " "; ""; ""])) eq_refl);
      [vm_compute; discriminate | vm_compute; discriminate
      | vm_compute; lia].
Defined.

(** ** Text summaries *)

Lemma get_in_range (s : string) (n : nat) :
  (n < String.length s)%nat -> exists c, String.get n s = Some c.
Proof.
  revert n. induction s as [|c s IH]; intros n Hn; simpl in Hn; [lia|].
  destruct n as [|n]; simpl; [eauto|]. apply IH. lia.
Qed.

Lemma byteAt_in_range text i :
  0 <= i < len text ->
  exists c, Pdf.byteAt text i = Done c /\ Pdf.isBreak c = breakAt text i.
Proof.
  intros Hi. unfold Pdf.byteAt, breakAt.
  destruct (Z.leb_spec 0 i); [|lia].
  destruct (Z.ltb_spec i (len text)); [|lia]. cbn [andb].
  destruct (get_in_range text (Z.to_nat i)) as (c & Hc).
  { unfold len in Hi. lia. }
  rewrite Hc. eauto.
Qed.

Lemma findBreak_scan text maxLength n :
  maxLength < len text -> Z.of_nat n <= 50 ->
  exists bp,
    Pdf.findBreak text maxLength n = Done bp
    /\ ((maxLength - 50 < bp <= maxLength - 50 + Z.of_nat n
         /\ 0 < bp /\ breakAt text bp = true
         /\ forall j, bp < j <= maxLength - 50 + Z.of_nat n ->
                      breakAt text j = false)
        \/ (bp = maxLength
            /\ forall j, maxLength - 50 < j <= maxLength - 50 + Z.of_nat n ->
                         0 < j -> breakAt text j = false)).
Proof.
  intros Hlen. induction n as [|n IH]; intros Hn.
  - exists maxLength. split; [reflexivity|]. right. split; [reflexivity|].
    intros j Hj. lia.
  - cbn [Pdf.findBreak].
    set (i := maxLength - 50 + Z.of_nat (S n)).
    destruct (Z.gtb_spec i 0) as [Hpos|Hneg].
    + destruct (byteAt_in_range text i) as (c & Hc & Hbreak); [lia|].
      rewrite Hc. cbn [mbind result_bind]. rewrite Hbreak.
      destruct (breakAt text i) eqn:Ei.
      * exists i. split; [reflexivity|]. left.
        split; [lia|]. split; [lia|]. split; [exact Ei|].
        intros j Hj. lia.
      * destruct IH as (bp & Hbp & Hcases); [lia|].
        exists bp. split; [exact Hbp|].
        destruct Hcases as [(Hr & Hp & Hb & Habove)|(-> & Hnone)].
        -- left. split; [lia|]. split; [lia|]. split; [exact Hb|].
           intros j Hj. destruct (decide (j = i)) as [->|Hne]; [exact Ei|].
           apply Habove. lia.
        -- right. split; [reflexivity|]. intros j Hj Hj0.
           destruct (decide (j = i)) as [->|Hne]; [exact Ei|].
           apply Hnone; lia.
    + exists maxLength. split; [reflexivity|]. right.
      split; [reflexivity|]. intros j Hj Hj0. lia.
Qed.

Lemma GetTextSummary_long text maxLength :
  0 <= maxLength < len text ->
  exists bp,
    Pdf.GetTextSummary text maxLength
    = Done (take (Z.to_nat bp) text ++ "...")
    /\ ((examined maxLength bp /\ breakAt text bp = true
         /\ forall j, bp < j <= maxLength -> breakAt text j = false)
        \/ (bp = maxLength
            /\ forall j, examined maxLength j -> breakAt text j = false)).
Proof.
  intros Hm. unfold Pdf.GetTextSummary.
  destruct (Z.leb_spec (len text) maxLength); [lia|].
  destruct (findBreak_scan text maxLength 50) as (bp & Hbp & Hcases);
    [lia | lia |].
  rewrite Hbp. cbn [mbind result_bind]. exists bp.
  assert (Hrange : 0 <= bp <= len text).
  { destruct Hcases as [(Hr & Hp & _)|(-> & _)]; lia. }
  unfold Pdf.prefix.
  destruct (Z.leb_spec 0 bp); [|lia].
  destruct (Z.leb_spec bp (len text)); [|lia]. cbn [andb].
  split; [reflexivity|].
  destruct Hcases as [(Hr & Hp & Hb & Habove)|(-> & Hnone)].
  - left. unfold examined. split; [lia|]. split; [exact Hb|].
    intros j Hj. apply Habove. lia.
  - right. split; [reflexivity|]. intros j [Hj Hj0]. apply Hnone; lia.
Qed.

(** C9, as stated, fails: position 0 is never examined, so a text that
    begins with a space and has no other boundary before [maxLength] is
    cut at [maxLength], not at 0. *)
Lemma summary_cut_at_nearest_boundary_fails :
  ~ summary_cut_at_nearest_boundary.
Proof.
  intros Hclaim.
  specialize (Hclaim " ab" 1 0 ltac:(vm_compute; reflexivity)
                ltac:(lia) ltac:(lia) eq_refl).
  assert (Habove : forall j, 0 < j <= 1 -> breakAt " ab" j = false).
  { intros j Hj. replace j with 1 by lia. reflexivity. }
  specialize (Hclaim Habove). vm_compute in Hclaim. discriminate Hclaim.
Qed.

(** C9, amended. A text of length at most [maxLength] is returned
    unchanged. For a text longer than [maxLength >= 0], the summary is
    the text cut at the nearest space, period or line feed among the
    positions [p] with [maxLength - 50 < p <= maxLength] and [p > 0],
    followed by an ellipsis; when none of these positions holds such a
    character, the text is cut exactly at [maxLength], followed by an
    ellipsis. *)
Theorem GetTextSummary_cuts_at_boundary (text : string) (maxLength : Z) :
  (len text <= maxLength -> Pdf.GetTextSummary text maxLength = Done text)
  /\ (0 <= maxLength < len text ->
      (forall p,
          examined maxLength p -> breakAt text p = true ->
          (forall j, p < j <= maxLength -> breakAt text j = false) ->
          Pdf.GetTextSummary text maxLength
          = Done (take (Z.to_nat p) text ++ "..."))
      /\ ((forall j, examined maxLength j -> breakAt text j = false) ->
          Pdf.GetTextSummary text maxLength
          = Done (take (Z.to_nat maxLength) text ++ "...")))
  /\ Pdf.GetTextSummary "abcdefghijklmnop" 10 = Done "abcdefghij...".
Proof.
  split; [|split; [|reflexivity]].
  - intros Hshort. unfold Pdf.GetTextSummary.
    destruct (Z.leb_spec (len text) maxLength); [reflexivity | lia].
  - intros Hm.
    destruct (GetTextSummary_long text maxLength Hm) as (bp & Hrun & Hcases).
    rewrite Hrun. split.
    + intros p [Hp Hp0] Hb Habove.
      destruct Hcases as [([Hr Hr0] & Hbb & Hbabove)|(-> & Hnone)].
      * destruct (Z.lt_trichotomy bp p) as [Hlt|[->|Hgt]].
        -- rewrite Hbabove in Hb by lia. discriminate.
        -- reflexivity.
        -- rewrite Habove in Hbb by lia. discriminate.
      * rewrite Hnone in Hb by (split; lia). discriminate.
    + intros Hnone.
      destruct Hcases as [(Hex & Hbb & _)|(-> & _)]; [|reflexivity].
      rewrite Hnone in Hbb by exact Hex. discriminate.
Qed.

Lemma GetTextSummary_cuts_at_boundary_witness :
  Pdf.GetTextSummary "hello world. this is" 14 = Done "hello world...."
  /\ Pdf.GetTextSummary "short" 10 = Done "short".
Proof.
  split.
  - apply (proj1 (proj1 (proj2 (GetTextSummary_cuts_at_boundary
                                  "hello world. this is" 14))
                    ltac:(vm_compute; split; [discriminate | reflexivity]))
             12).
    + unfold examined. lia.
    + reflexivity.
    + intros j Hj.
      assert (Hc : j = 13 \/ j = 14) by lia.
      destruct Hc as [-> | ->]; reflexivity.
  - apply (proj1 (GetTextSummary_cuts_at_boundary "short" 10)).
    vm_compute. discriminate.
Defined.

(** ** Stored options *)

Lemma append_cons (x : ascii) (a b : string) :
  String x a ++ b = String x (a ++ b).
Proof. reflexivity. Qed.

Lemma append_assoc (a b c : string) : (a ++ b) ++ c = a ++ (b ++ c).
Proof.
  induction a as [|x a IH]; [reflexivity|].
  rewrite !append_cons, IH. reflexivity.
Qed.

Lemma append_empty_r (a : string) : a ++ "" = a.
Proof.
  induction a as [|x a IH]; [reflexivity|]. rewrite append_cons, IH.
  reflexivity.
Qed.

Lemma optionsJSON_loop rest acc :
  fold_left
    (fun acc o' => acc ++ String quote (String "," (String quote o')))
    rest acc ++ String quote "]"
  = acc ++ tailJSON rest.
Proof.
  revert acc. induction rest as [|o rest IH]; intros acc; simpl.
  - reflexivity.
  - rewrite IH, append_assoc. reflexivity.
Qed.

Lemma optionsJSON_cons o rest :
  optionsJSON (o :: rest) = String "[" (String quote (o ++ tailJSON rest)).
Proof. unfold optionsJSON. rewrite optionsJSON_loop. reflexivity. Qed.

Lemma scan_plain o : forall raw acc rest,
  allPlain o = true ->
  Json.scan (Json.Str raw) acc (o ++ rest)
  = Json.scan (Json.Str (raw ++ o)) acc rest.
Proof.
  induction o as [|c o IH]; intros raw acc rest Hp.
  - rewrite append_empty_r. reflexivity.
  - simpl in Hp. apply andb_true_iff in Hp as [Hc Ho].
    unfold plainByte in Hc.
    apply andb_true_iff in Hc as [Hc H92].
    apply andb_true_iff in Hc as [H32 H34].
    apply negb_true_iff in H34, H92. apply Z.leb_le in H32.
    rewrite append_cons. cbn [Json.scan]. rewrite H34, H92.
    destruct (Z.ltb_spec (code c) 32); [lia|].
    rewrite IH by exact Ho. unfold Json.snoc. rewrite append_assoc.
    reflexivity.
Qed.

Lemma scan_close raw acc rest :
  Json.scan (Json.Str raw) acc (String quote rest)
  = match Json.unquote raw with
    | Some d => Json.scan Json.After (acc ++ [d]) rest
    | None => None
    end.
Proof. reflexivity. Qed.

Lemma allPlain_drop n : forall s,
  allPlain s = true -> allPlain (Json.drop n s) = true.
Proof.
  induction n as [|n IH]; intros [|c s] H; simpl; auto.
  simpl in H. apply andb_true_iff in H as [_ H]. auto.
Qed.

Lemma decodeSize_bounds s n :
  Json.decodeSize s = Some n -> (1 <= n <= String.length s)%nat.
Proof.
  unfold Json.decodeSize.
  destruct s as [|c0 [|c1 [|c2 [|c3 s]]]]; simpl;
    repeat match goal with
      | |- context [if ?b then _ else _] => destruct b
      end; intros [= <-]; lia.
Qed.

Lemma decodeSize_ascii c s :
  (code c <? 128) = true -> Json.decodeSize (String c s) = Some 1%nat.
Proof. intros H. unfold Json.decodeSize. rewrite H. reflexivity. Qed.

Lemma copy_mode k : forall s,
  (k <= String.length s)%nat ->
  Json.unquoteFrom Json.Decode (Json.drop k s) = Some (Json.drop k s) ->
  Json.unquoteFrom (Json.next Json.Copy k) s = Some s.
Proof.
  induction k as [|k IH]; intros s Hk Hrest.
  - exact Hrest.
  - destruct s as [|c s]; simpl in Hk; [lia|].
    cbn [Json.next Json.unquoteFrom]. rewrite IH; [reflexivity | lia |].
    exact Hrest.
Qed.

Lemma unquote_plain s :
  ValidUTF8 s -> allPlain s = true -> Json.unquote s = Some s.
Proof.
  unfold Json.unquote. induction 1 as [|s n Hdec Hvalid IH]; intros Hp.
  - reflexivity.
  - specialize (IH (allPlain_drop n s Hp)).
    pose proof (decodeSize_bounds s n Hdec) as Hn.
    destruct s as [|c s]; [discriminate|].
    simpl in Hp. apply andb_true_iff in Hp as [Hc _].
    unfold plainByte in Hc.
    apply andb_true_iff in Hc as [Hc H92].
    apply andb_true_iff in Hc as [H32 H34].
    apply negb_true_iff in H34, H92. apply Z.leb_le in H32.
    cbn [Json.unquoteFrom]. rewrite H92, H34.
    destruct (Z.ltb_spec (code c) 32); [lia|]. cbn [orb].
    destruct (code c <? 128) eqn:Hascii.
    + rewrite (decodeSize_ascii c s Hascii) in Hdec. injection Hdec as <-.
      simpl in IH. rewrite IH. reflexivity.
    + rewrite Hdec. simpl in Hn.
      rewrite (copy_mode (n - 1) s); [reflexivity | lia |].
      replace (Json.drop (n - 1) s) with (Json.drop n (String c s)); [exact IH|].
      destruct n as [|n]; [lia|]. simpl. rewrite Nat.sub_0_r. reflexivity.
Qed.

Lemma scan_elements rest : forall o acc,
  plainOption o -> Forall plainOption rest ->
  Json.scan (Json.Str "") acc (o ++ tailJSON rest)
  = Some (acc ++ o :: rest)%list.
Proof.
  induction rest as [|o' rest IH]; intros o acc [Hp Hv] Hrest;
    rewrite scan_plain by exact Hp; cbn [tailJSON];
    change ("" ++ o) with o;
    rewrite scan_close, (unquote_plain o Hv Hp).
  - reflexivity.
  - apply Forall_cons in Hrest as [Ho' Hrest].
    change (Json.scan Json.After (acc ++ [o])
              (String "," (String quote (o' ++ tailJSON rest))))
      with (Json.scan (Json.Str "") (acc ++ [o]) (o' ++ tailJSON rest)).
    rewrite IH by assumption. rewrite <- app_assoc. reflexivity.
Qed.

Lemma Unmarshal_optionsJSON o rest :
  Forall plainOption (o :: rest) ->
  Json.Unmarshal (optionsJSON (o :: rest)) = Some (o :: rest).
Proof.
  intros [Ho Hrest]%Forall_cons. rewrite optionsJSON_cons.
  change (Json.Unmarshal (String "[" (String quote (o ++ tailJSON rest))))
    with (Json.scan (Json.Str "") [] (o ++ tailJSON rest)).
  apply (scan_elements rest o [] Ho Hrest).
Qed.

Lemma parseOptions_optionsJSON options :
  options <> [] -> Forall plainOption options ->
  parseOptions (optionsJSON options) = options.
Proof.
  intros Hne Hplain. destruct options as [|o rest]; [congruence|].
  unfold parseOptions. rewrite (Unmarshal_optionsJSON o rest Hplain).
  rewrite optionsJSON_cons. reflexivity.
Qed.

Lemma max_id_ge_seq ids seq : seq <= max_id ids seq.
Proof. unfold max_id. induction ids as [|i ids IH]; simpl; lia. Qed.

Lemma max_id_ge ids seq i : i ∈ ids -> i <= max_id ids seq.
Proof.
  unfold max_id. induction ids as [|j ids IH]; intros Hi.
  - apply elem_of_nil in Hi. contradiction.
  - apply elem_of_cons in Hi as [->|Hi]; simpl; [lia|].
    specialize (IH Hi). lia.
Qed.

Lemma find_fresh_row rows row :
  (forall r, r ∈ rows -> row_id r <> row_id row) ->
  List.find (fun r => row_id r =? row_id row) (rows ++ [row]) = Some row.
Proof.
  induction rows as [|r rows IH]; intros Hfresh; simpl.
  - rewrite Z.eqb_refl. reflexivity.
  - destruct (Z.eqb_spec (row_id r) (row_id row)) as [E|_].
    + exfalso. apply (Hfresh r); [apply list_elem_of_here | exact E].
    + apply IH. intros r' Hr'. apply Hfresh, list_elem_of_further, Hr'.
Qed.

Lemma CreateQuestion_ok d testID qt ty ca ex options d' q :
  CreateQuestion d testID qt ty ca ex options = (d', Ok q) ->
  exists id,
    let row := insertedRow d id testID qt ty ca ex options in
    fault d' = None
    /\ questions d' = (questions d ++ [row])%list
    /\ (forall r, r ∈ questions d -> row_id r <> id)
    /\ q = questionOfRow row.
Proof.
  unfold CreateQuestion, insertId.
  destruct (fault d) eqn:Hfault; [discriminate|].
  destruct (next_id _ _) as [id|] eqn:Hid; [|discriminate].
  destruct (validQuestionType ty); [|discriminate].
  unfold next_id in Hid.
  destruct (Z.ltb_spec (max_id (row_id <$> questions d) (seq_questions d))
              maxInt); [|discriminate].
  injection Hid as <-.
  set (id := max_id (row_id <$> questions d) (seq_questions d) + 1).
  assert (Hfresh : forall r, r ∈ questions d -> row_id r <> id).
  { intros r Hr.
    pose proof (max_id_ge (row_id <$> questions d) (seq_questions d)
                  (row_id r) (list_elem_of_fmap_2 row_id _ _ Hr)).
    subst id. lia. }
  unfold GetQuestion, wrap, findRow, omap. cbn [fault questions].
  pose proof (find_fresh_row (questions d)
                (insertedRow d id testID qt ty ca ex options) Hfresh) as Hfind.
  cbn [insertedRow row_id] in Hfind. fold id. unfold insertedRow in Hfind.
  rewrite Hfind.
  intros [= <- <-]. exists id. cbn [fault questions]. repeat split; auto.
Qed.

Lemma CreateQuestion_succeeds d testID qt ty ca ex options :
  fault d = None -> validQuestionType ty = true ->
  max_id (row_id <$> questions d) (seq_questions d) < maxInt ->
  exists d' q, CreateQuestion d testID qt ty ca ex options = (d', Ok q).
Proof.
  intros Hfault Hty Hmax.
  destruct (CreateQuestion d testID qt ty ca ex options) as [d' [q|err]] eqn:E;
    [eauto|].
  exfalso. revert E. unfold CreateQuestion, insertId, next_id.
  rewrite Hfault, Hty.
  destruct (Z.ltb_spec (max_id (row_id <$> questions d) (seq_questions d))
              maxInt); [|lia].
  set (id := max_id (row_id <$> questions d) (seq_questions d) + 1).
  assert (Hfresh : forall r, r ∈ questions d -> row_id r <> id).
  { intros r Hr.
    pose proof (max_id_ge (row_id <$> questions d) (seq_questions d)
                  (row_id r) (list_elem_of_fmap_2 row_id _ _ Hr)).
    subst id. lia. }
  unfold GetQuestion, wrap, findRow, omap. cbn [fault questions].
  pose proof (find_fresh_row (questions d)
                (insertedRow d id testID qt ty ca ex options) Hfresh) as Hfind.
  cbn [insertedRow row_id] in Hfind. unfold insertedRow in Hfind.
  rewrite Hfind. discriminate.
Qed.

(** C10, as stated, fails: an option with a line feed holds neither a
    double quote nor a backslash, yet the stored text is not valid JSON
    and the question is read back with no options. *)
Lemma quote_free_options_round_trip_fails : ~ quote_free_options_round_trip.
Proof.
  intros Hclaim.
  specialize (Hclaim Database.empty 1 "Which one?" "multiple_choice" "A" ""
                [twoLines; "c"] _ _ ltac:(discriminate)
                ltac:(repeat constructor) eq_refl).
  vm_compute in Hclaim. discriminate Hclaim.
Qed.

Lemma sorted_rows_elem (rows : list QuestionRow) (testID : Z) (r : QuestionRow) :
  r ∈ merge_sort row_le
        (List.filter (fun r => row_test_id r =? testID) rows)
  <-> r ∈ rows /\ row_test_id r = testID.
Proof.
  rewrite merge_sort_Permutation, !list_elem_of_In, filter_In, Z.eqb_eq.
  reflexivity.
Qed.

(** Options with a double quote or with a backslash are lost or altered
    on the way: the precondition on them cannot be dropped. *)
Lemma unescaped_options_lost :
  parseOptions (optionsJSON [String "a" (String quote "b")]) = []
  /\ parseOptions (optionsJSON [String "a" (String "092" "")]) = []
  /\ parseOptions (optionsJSON [String "092" "n"])
     = [String "010" ""].
Proof. repeat split; vm_compute; reflexivity. Qed.

(** C10, amended. When [CreateQuestion] succeeds on a non-empty list of
    options each of which is well-formed UTF-8 without double quote,
    backslash or control character (a byte below 32), the question it
    returns, the question that [GetQuestion] reads back and the question
    with that id among those that [GetQuestionsByTestID] reads back all
    carry exactly the given options, in the given order. *)
Theorem plain_options_round_trip
    (d : DB) (testID : Z) (qt ty ca ex : string) (options : list string)
    (d' : DB) (q : Question.t) :
  options <> [] ->
  Forall plainOption options ->
  CreateQuestion d testID qt ty ca ex options = (d', Ok q) ->
  Question.Options q = options
  /\ GetQuestion d' (Question.ID q) = Ok q
  /\ exists qs,
       GetQuestionsByTestID d' testID = Ok qs
       /\ q ∈ qs
       /\ forall q', q' ∈ qs -> Question.ID q' = Question.ID q -> q' = q.
Proof.
  intros Hne Hplain Hcreate.
  apply CreateQuestion_ok in Hcreate
    as (id & Hfault & Hrows & Hfresh & ->).
  set (row := insertedRow d id testID qt ty ca ex options) in *.
  split; [|split].
  - cbn [questionOfRow Question.Options row insertedRow row_options].
    apply parseOptions_optionsJSON; assumption.
  - unfold GetQuestion, wrap, findRow, omap. rewrite Hfault, Hrows.
    change (Question.ID (questionOfRow row)) with (row_id row).
    rewrite (find_fresh_row (questions d) row Hfresh). reflexivity.
  - unfold GetQuestionsByTestID. rewrite Hfault, Hrows.
    eexists. split; [reflexivity|]. split.
    + apply list_elem_of_fmap_2, sorted_rows_elem. split; [|reflexivity].
      apply elem_of_app. right. apply list_elem_of_singleton. reflexivity.
    + intros q' Hq' Hid.
      apply list_elem_of_fmap in Hq' as (r & -> & Hr).
      apply sorted_rows_elem in Hr as [Hr _].
      apply elem_of_app in Hr as [Hold|Hnew].
      * exfalso. apply (Hfresh r Hold). exact Hid.
      * apply list_elem_of_singleton in Hnew. subst r. reflexivity.
Qed.

Lemma plainOption_ascii o :
  allPlain o = true -> forallb (fun c => code c <? 128) (list_ascii_of_string o) = true ->
  plainOption o.
Proof.
  intros Hp Ha. split; [exact Hp|]. clear Hp.
  induction o as [|c o IH]; [constructor|].
  simpl in Ha. apply andb_true_iff in Ha as [Hc Ho].
  apply (ValidUTF8_rune _ 1 (decodeSize_ascii c o Hc)). apply IH, Ho.
Qed.

Lemma plain_options_round_trip_witness :
  exists d' q,
    CreateQuestion Database.empty 1 "Which one?" "multiple_choice" "A" ""
      cityOptions = (d', Ok q)
    /\ Question.Options q = cityOptions
    /\ GetQuestion d' (Question.ID q) = Ok q.
Proof.
  destruct (CreateQuestion Database.empty 1 "Which one?" "multiple_choice"
              "A" "" cityOptions) as [d' [q|err]] eqn:Hcreate.
  - exists d', q. split; [reflexivity|].
    assert (Hplain : Forall plainOption cityOptions)
      by (repeat constructor; apply plainOption_ascii; reflexivity).
    destruct (plain_options_round_trip Database.empty 1 "Which one?"
                "multiple_choice" "A" "" cityOptions d' q
                ltac:(discriminate) Hplain Hcreate) as (Hopts & Hget & _).
    split; assumption.
  - vm_compute in Hcreate. discriminate Hcreate.
Defined.

(** ** Supporting facts *)

(** Confirming a multiple-choice option records the letter at the cursor. *)
Lemma handleMultipleChoice_records_letter (a : App) (q : Question.t) (L : string) :
  index (currentQuestions a) (TestTakingModel.currentQuestion (testTaking a))
  = Done q ->
  index letters (TestTakingModel.cursor (testTaking a)) = Done L ->
  TestTakingModel.cursor (testTaking a) < llen (Question.Options q) ->
  L ∈ letters
  /\ userAnswers (fst (nextQuestion
                         (with_userAnswers
                            (<[Question.ID q := L]> (userAnswers a)) a)))
     = <[Question.ID q := L]> (userAnswers a)
  /\ handleMultipleChoice a "enter"
     = Done (nextQuestion
               (with_userAnswers (<[Question.ID q := L]> (userAnswers a)) a)).
Proof.
  intros Hq HL Hc. split; [|split; [reflexivity|]].
  - unfold index in HL.
    destruct (TestTakingModel.cursor (testTaking a) <? 0); [discriminate|].
    destruct (letters !! _) as [L'|] eqn:E; [|discriminate].
    injection HL as ->. apply list_elem_of_lookup. eauto.
  - unfold handleMultipleChoice. rewrite Hq. cbn [mbind result_bind].
    change (keyIs "enter" ["up"; "k"]) with false.
    change (keyIs "enter" ["down"; "j"]) with false.
    change (keyIs "enter" ["enter"; " "]) with true. cbn iota.
    destruct (Z.gtb_spec (llen (Question.Options q))
                (TestTakingModel.cursor (testTaking a))); [|lia].
    assert (Hlt : TestTakingModel.cursor (testTaking a) < llen letters).
    { unfold index in HL.
      destruct (Z.ltb_spec (TestTakingModel.cursor (testTaking a)) 0);
        [discriminate|].
      destruct (letters !! _) as [L'|] eqn:E; [|discriminate].
      apply lookup_lt_Some in E. unfold llen. lia. }
    destruct (Z.ltb_spec (TestTakingModel.cursor (testTaking a))
                (llen letters)); [|lia].
    rewrite HL. reflexivity.
Qed.

(** The score is rounded as [float64] arithmetic rounds: 7 correct
    answers out of 25 give the [float64] next above 28. *)
Lemma score_is_float64_arithmetic :
  Float64.mul (Float64.div (Float64.of_int 7) (Float64.of_int 25))
    (Float64.of_int 100)
  = S754_finite false 7881299347898369 (-48)
  /\ Float64.of_int 28 = S754_finite false 7881299347898368 (-48).
Proof. split; vm_compute; reflexivity. Qed.

(** A negative [maxLength] makes the slice expression of
    [GetTextSummary] panic. *)
Lemma GetTextSummary_negative_panics (text : string) (maxLength : Z) :
  maxLength < 0 ->
  Pdf.GetTextSummary text maxLength = Panic "slice bounds out of range".
Proof.
  intros Hneg. unfold Pdf.GetTextSummary.
  assert (Hlen : 0 <= len text) by (unfold len; lia).
  destruct (Z.leb_spec (len text) maxLength); [lia|].
  change 50%nat with (S 49). cbn [Pdf.findBreak].
  destruct (Z.gtb_spec (maxLength - 50 + Z.of_nat 50) 0); [lia|].
  cbn [mbind result_bind]. unfold Pdf.prefix.
  destruct (Z.leb_spec 0 maxLength); [lia | reflexivity].
Qed.

(** The wizard stores the question text and the correct answer
    trimmed, and only when they are not blank. *)
Lemma confirmCustomInput_stores_trimmed (m : CustomQuestionModel.t) :
  (CustomQuestionModel.inputMode m = "question" ->
   validateInput (CustomQuestionModel.input m) 5 = None ->
   exists m',
     confirmCustomInput m = Done (m', false)
     /\ CurrentQuestion.text (CustomQuestionModel.currentQuestion m')
        = TrimSpace (CustomQuestionModel.input m)
     /\ TrimSpace (CustomQuestionModel.input m) <> "")
  /\ (CustomQuestionModel.inputMode m = "answer" ->
      validateInput (CustomQuestionModel.input m) 1 = None ->
      exists m',
        confirmCustomInput m = Done (m', false)
        /\ CurrentQuestion.correctAnswer
             (CustomQuestionModel.currentQuestion m')
           = TrimSpace (CustomQuestionModel.input m)
        /\ TrimSpace (CustomQuestionModel.input m) <> "").
Proof.
  split; intros Hmode Hvalid; unfold confirmCustomInput;
    rewrite Hmode, Hvalid; eexists; (split; [reflexivity|]);
    (split; [reflexivity|]);
    unfold validateInput in Hvalid;
    intros E; rewrite E in Hvalid; discriminate Hvalid.
Qed.

(** ** Test taking: the session *)

Lemma stepsTo_Done a (P : App -> Prop) : P a -> stepsTo (Done (a, NoCmd)) P.
Proof. intros H. exists a. auto. Qed.

Lemma stepsTo_impl r (P Q : App -> Prop) :
  (forall a, P a -> Q a) -> stepsTo r P -> stepsTo r Q.
Proof. intros H (a & E & HP). exists a. auto. Qed.

Lemma llen_nil {A} : llen (@nil A) = 0.
Proof. reflexivity. Qed.

Lemma llen_nonneg {A} (l : list A) : 0 <= llen l.
Proof. unfold llen. lia. Qed.

Lemma llen_pos {A} (l : list A) : l <> [] -> 0 < llen l.
Proof. destruct l; [congruence|]. intros _. unfold llen. cbn. lia. Qed.

Lemma llen_zero {A} (l : list A) : (llen l =? 0) = true -> l = [].
Proof. destruct l; [reflexivity|]. unfold llen. cbn. discriminate. Qed.

Lemma llen_nonzero {A} (l : list A) : (llen l =? 0) = false -> l <> [].
Proof. intros H ->. discriminate. Qed.

Lemma index_in_range {A} (l : list A) (i : Z) :
  0 <= i < llen l -> exists x, index l i = Done x /\ x ∈ l.
Proof.
  intros Hi. unfold index, llen in *.
  destruct (Z.ltb_spec i 0); [lia|].
  destruct (l !! Z.to_nat i) as [x|] eqn:E.
  - exists x. split; [reflexivity|]. apply list_elem_of_lookup. eauto.
  - apply lookup_ge_None in E. lia.
Qed.

Ltac zbool :=
  repeat match goal with
    | H : (_ >? _) = true |- _ => apply Z.gtb_lt in H
    | H : (_ >? _) = false |- _ => rewrite Z.gtb_ltb in H
    | H : (_ >=? _) = true |- _ => rewrite Z.geb_leb in H
    | H : (_ >=? _) = false |- _ => rewrite Z.geb_leb in H
    | H : (_ <? _) = true |- _ => apply Z.ltb_lt in H
    | H : (_ <? _) = false |- _ => apply Z.ltb_ge in H
    | H : (_ <=? _) = true |- _ => apply Z.leb_le in H
    | H : (_ <=? _) = false |- _ => apply Z.leb_gt in H
    | H : (_ =? _) = true |- _ => apply Z.eqb_eq in H
    | H : (_ =? _) = false |- _ => apply Z.eqb_neq in H
    | H : (_ && _) = true |- _ => apply andb_true_iff in H; destruct H
    end.

Lemma keyIs_one key name : keyIs key [name] = true -> key = name.
Proof.
  unfold keyIs. cbn. rewrite orb_false_r. apply String.eqb_eq.
Qed.

Lemma keyIs_two key n1 n2 :
  keyIs key [n1; n2] = true <-> key = n1 \/ key = n2.
Proof.
  unfold keyIs. cbn. rewrite orb_false_r, orb_true_iff, !String.eqb_eq.
  reflexivity.
Qed.

Lemma sessionInv_bounds full a :
  sessionInv full a -> currentQuestions a <> [] ->
  0 <= TestTakingModel.cursor (testTaking a)
  /\ 0 <= TestTakingModel.currentQuestion (testTaking a)
       < llen (currentQuestions a)
  /\ is_Some (currentTest a)
  /\ (full = true ->
      0 <= TestTakingModel.reviewQuestion (testTaking a)
        < llen (currentQuestions a)).
Proof.
  intros [[Hc [Hnil|[Hq Ht]]] Hfull] Hne; [contradiction|].
  split; [exact Hc|]. split; [exact Hq|]. split; [exact Ht|].
  intros E. destruct (Hfull E) as [[Hnil|Hr] _]; [contradiction | exact Hr].
Qed.

Lemma sessionInv_current full a :
  sessionInv full a -> currentQuestions a <> [] ->
  exists q, index (currentQuestions a)
              (TestTakingModel.currentQuestion (testTaking a)) = Done q
            /\ q ∈ currentQuestions a.
Proof.
  intros Hok Hne. apply index_in_range.
  apply (sessionInv_bounds full a Hok Hne).
Qed.

(** Replacing the test-taking model keeps the invariant when the cursors
    of the new model are in range. *)
Lemma sessionInv_testTaking full a tt :
  sessionInv full a -> currentQuestions a <> [] ->
  0 <= TestTakingModel.cursor tt ->
  0 <= TestTakingModel.currentQuestion tt < llen (currentQuestions a) ->
  (full = true ->
   0 <= TestTakingModel.reviewQuestion tt < llen (currentQuestions a)) ->
  sessionInv full (with_testTaking tt a).
Proof.
  intros Hok Hne Hc Hq Hr.
  pose proof (sessionInv_bounds full a Hok Hne) as (_ & _ & Ht & _).
  destruct Hok as [_ Hfull]. split.
  - split; [exact Hc|]. right. split; [exact Hq | exact Ht].
  - intros E. split; [right; apply Hr, E | apply (Hfull E)].
Qed.

Lemma sessionInv_answer full a q v :
  sessionInv full a -> q ∈ currentQuestions a ->
  sessionInv full
    (with_userAnswers (<[Question.ID q := v]> (userAnswers a)) a).
Proof.
  intros [Ht Hfull] Hq. split; [exact Ht|].
  intros E. destruct (Hfull E) as [Hr Hans]. split; [exact Hr|].
  intros id. cbn [userAnswers with_userAnswers currentQuestions].
  destruct (decide (id = Question.ID q)) as [->|Hne].
  - intros _. exists q. auto.
  - rewrite lookup_insert_ne by congruence. apply Hans.
Qed.

Lemma sessionInv_nextQuestion full a :
  sessionInv full a -> currentQuestions a <> [] ->
  sessionInv full (fst (nextQuestion a)).
Proof.
  intros Hok Hne.
  pose proof (sessionInv_bounds full a Hok Hne) as (Hc & Hq & Ht & Hr).
  unfold nextQuestion. cbn [fst].
  apply sessionInv_testTaking; try assumption;
    destruct (_ <? _) eqn:E; cbn in *; zbool; try lia; exact Hr.
Qed.

Lemma stepsTo_nextQuestion full a :
  sessionInv full a -> currentQuestions a <> [] ->
  stepsTo (Done (nextQuestion a)) (sessionInv full).
Proof.
  intros Hok Hne. exists (fst (nextQuestion a)). split.
  - rewrite (surjective_pairing (nextQuestion a)) at 1. reflexivity.
  - apply sessionInv_nextQuestion; assumption.
Qed.

(** A branch that at most replaces the test-taking model by one whose
    cursors are in range. *)
Ltac keep_session Hok Hne :=
  apply stepsTo_Done; try exact Hok;
  let H := fresh in
  pose proof (sessionInv_bounds _ _ Hok Hne) as (? & ? & _ & H);
  apply sessionInv_testTaking; try assumption; cbn; zbool;
  try lia; try (let F := fresh in intros F; specialize (H F); lia).

Lemma handleMultipleChoice_session full a key :
  sessionInv full a -> currentQuestions a <> [] ->
  stepsTo (handleMultipleChoice a key) (sessionInv full).
Proof.
  intros Hok Hne.
  destruct (sessionInv_current full a Hok Hne) as (q & Hq & Hin).
  unfold handleMultipleChoice. rewrite Hq. cbn [mbind result_bind].
  destruct (keyIs key ["up"; "k"]).
  { destruct (_ >? 0) eqn:E; keep_session Hok Hne. }
  destruct (keyIs key ["down"; "j"]).
  { destruct (_ <? _) eqn:E; keep_session Hok Hne. }
  destruct (keyIs key ["enter"; " "]); [|keep_session Hok Hne].
  destruct (_ >? _) eqn:Eo; [|keep_session Hok Hne].
  destruct (_ <? llen letters) eqn:El; [|keep_session Hok Hne].
  pose proof (sessionInv_bounds _ _ Hok Hne) as (Hc & _).
  zbool. destruct (index_in_range letters
                     (TestTakingModel.cursor (testTaking a)))
    as (l & Hl & _); [lia|].
  rewrite Hl. cbn [mbind result_bind].
  apply stepsTo_nextQuestion; [|exact Hne].
  apply sessionInv_answer; assumption.
Qed.

Lemma handleTrueFalse_session full a key :
  sessionInv full a -> currentQuestions a <> [] ->
  stepsTo (handleTrueFalse a key) (sessionInv full).
Proof.
  intros Hok Hne.
  destruct (sessionInv_current full a Hok Hne) as (q & Hq & Hin).
  unfold handleTrueFalse. rewrite Hq. cbn [mbind result_bind].
  destruct (keyIs key ["up"; "k"]).
  { destruct (_ >? 0) eqn:E; keep_session Hok Hne. }
  destruct (keyIs key ["down"; "j"]).
  { destruct (_ <? _) eqn:E; keep_session Hok Hne. }
  destruct (keyIs key ["enter"; " "]); [|keep_session Hok Hne].
  apply stepsTo_nextQuestion; [|exact Hne].
  apply sessionInv_answer; assumption.
Qed.

Lemma handleShortAnswer_session full a key :
  sessionInv full a -> currentQuestions a <> [] ->
  stepsTo (handleShortAnswer a key) (sessionInv full).
Proof.
  intros Hok Hne.
  destruct (sessionInv_current full a Hok Hne) as (q & Hq & Hin).
  unfold handleShortAnswer. rewrite Hq. cbn [mbind result_bind].
  destruct (keyIs key ["enter"]).
  { destruct (String.eqb _ ""); [keep_session Hok Hne|].
    apply stepsTo_nextQuestion; [|exact Hne].
    pose proof (sessionInv_answer full a q
                  (TrimSpace (TestTakingModel.input (testTaking a))) Hok Hin)
      as Hans.
    pose proof (sessionInv_bounds _ _ Hok Hne) as (? & ? & _ & Hr).
    apply (sessionInv_testTaking full _ _ Hans Hne); cbn; try lia.
    exact Hr. }
  destruct (keyIs key ["backspace"]).
  { destruct (_ >? 0) eqn:E; keep_session Hok Hne. }
  destruct (_ =? 1) eqn:E; keep_session Hok Hne.
Qed.

Lemma handleAnswerReview_session full a key :
  sessionInv full a -> currentQuestions a <> [] ->
  stepsTo (Done (handleAnswerReview a key)) (sessionInv full).
Proof.
  intros Hok Hne. unfold handleAnswerReview.
  pose proof (llen_pos _ Hne).
  destruct (keyIs key ["left"; "h"]).
  { destruct (_ >? 0) eqn:E; keep_session Hok Hne. }
  destruct (keyIs key ["right"; "l"]).
  { destruct (_ <? _) eqn:E; keep_session Hok Hne. }
  destruct (keyIs key ["esc"]); keep_session Hok Hne.
Qed.

Lemma sessionInv_reset full a :
  currentQuestions a = [] -> userAnswers a = ∅ ->
  0 <= TestTakingModel.cursor (testTaking a) ->
  sessionInv full a.
Proof.
  intros Hq Ha Hc. split; [split; [exact Hc | left; exact Hq]|].
  intros _. split; [left; exact Hq|].
  intros id [v Hv]. rewrite Ha, lookup_empty in Hv. discriminate.
Qed.

Lemma saveTestResults_session full a :
  sessionInv full a -> currentQuestions a <> [] ->
  stepsTo (saveTestResults a) (sessionInv full).
Proof.
  intros Hok Hne.
  pose proof (sessionInv_bounds _ _ Hok Hne) as (_ & _ & [t Ht] & _).
  unfold saveTestResults.
  destruct (calculateScore _ _) as [correct score]. rewrite Ht.
  destruct (SaveTestResult _ _ _ _ _ _) as [d [r|err]].
  - apply stepsTo_Done. apply sessionInv_reset; cbn; (reflexivity || lia).
  - keep_session Hok Hne.
Qed.

Lemma handleResultView_session full a key :
  sessionInv full a -> currentQuestions a <> [] ->
  stepsTo (handleResultView a key) (sessionInv full).
Proof.
  intros Hok Hne. unfold handleResultView. pose proof (llen_pos _ Hne).
  destruct (TestTakingModel.reviewMode _).
  { apply handleAnswerReview_session; assumption. }
  destruct (keyIs key ["enter"]).
  { apply saveTestResults_session; assumption. }
  destruct (keyIs key ["r"]); keep_session Hok Hne.
Qed.

Lemma sessionInv_view full a v :
  sessionInv full a -> sessionInv full (with_currentView v a).
Proof. intros H. exact H. Qed.

Lemma updateTestTaking_session full a msg :
  sessionInv full a -> stepsTo (updateTestTaking a msg) (sessionInv full).
Proof.
  intros Hok. unfold updateTestTaking.
  destruct (llen (currentQuestions a) =? 0) eqn:E.
  { apply stepsTo_Done, sessionInv_view, Hok. }
  apply llen_nonzero in E.
  destruct msg as [key|]; [|apply stepsTo_Done; exact Hok].
  destruct (TestTakingModel.showResult _).
  { apply handleResultView_session; assumption. }
  destruct (sessionInv_current full a Hok E) as (q & Hq & Hin).
  rewrite Hq. cbn [mbind result_bind].
  destruct (String.eqb _ "multiple_choice").
  { apply handleMultipleChoice_session; assumption. }
  destruct (String.eqb _ "true_false").
  { apply handleTrueFalse_session; assumption. }
  destruct (String.eqb _ "short_answer").
  { apply handleShortAnswer_session; assumption. }
  apply stepsTo_Done; exact Hok.
Qed.

Lemma sessionInv_full a : sessionInv true a <-> sessionOK a.
Proof.
  unfold sessionInv, sessionOK. split.
  - intros [Ht H]. destruct (H eq_refl). auto.
  - intros (Ht & Hr & Ha). auto.
Qed.

(** X1. The test-taking handler never panics on a session that is in
    order, returns no command, and leaves the session in order: the
    question cursor and the review cursor stay on questions of the test,
    and every recorded answer belongs to a question of the test. *)
Theorem updateTestTaking_keeps_session (a : App) (msg : Msg) :
  sessionOK a -> stepsTo (updateTestTaking a msg) sessionOK.
Proof.
  intros Hok. apply (stepsTo_impl _ (sessionInv true)).
  - intros a'. apply sessionInv_full.
  - apply updateTestTaking_session, sessionInv_full, Hok.
Qed.

Lemma startedTest_sessionOK d : sessionOK (startedTest d).
Proof.
  split; [|split].
  - split; [cbn; lia|]. right. split; [vm_compute; split; congruence|].
    eexists. reflexivity.
  - right. vm_compute. split; congruence.
  - intros id [v Hv]. cbn in Hv. rewrite lookup_empty in Hv. discriminate.
Qed.

Lemma updateTestTaking_keeps_session_witness :
  sessionOK (startedTest workingDB)
  /\ stepsTo (updateTestTaking (startedTest workingDB) (KeyMsg "enter"))
       sessionOK.
Proof.
  split.
  - apply startedTest_sessionOK.
  - apply (updateTestTaking_keeps_session (startedTest workingDB)
             (KeyMsg "enter") (startedTest_sessionOK workingDB)).
Defined.

Lemma progress_same a q :
  progress a q (Done (a, NoCmd)).
Proof. exists a. repeat split; auto. left. repeat split. Qed.

Lemma progress_testTaking a q tt :
  TestTakingModel.currentQuestion tt
  = TestTakingModel.currentQuestion (testTaking a) ->
  TestTakingModel.showResult tt = TestTakingModel.showResult (testTaking a) ->
  progress a q (Done (with_testTaking tt a, NoCmd)).
Proof. intros H1 H2. eexists. split; [reflexivity|]. split; [reflexivity|]. left. repeat split; assumption. Qed.

Lemma answered_nextQuestion a q v :
  TestTakingModel.showResult (testTaking a) = false ->
  answered a
    (fst (nextQuestion
            (with_userAnswers (<[Question.ID q := v]> (userAnswers a)) a)))
    q v.
Proof.
  intros Hs. unfold answered, nextQuestion. cbn.
  split; [reflexivity|].
  destruct (_ <? _); cbn; auto.
Qed.

Lemma progress_nextQuestion a q v :
  TestTakingModel.showResult (testTaking a) = false ->
  cleanAnswer v ->
  progress a q
    (Done (nextQuestion
             (with_userAnswers (<[Question.ID q := v]> (userAnswers a)) a))).
Proof.
  intros Hs Hv. eexists. split.
  { rewrite (surjective_pairing (nextQuestion _)). reflexivity. }
  split; [reflexivity|]. right. exists v. split; [exact Hv|].
  apply answered_nextQuestion. exact Hs.
Qed.

Lemma letters_clean l : l ∈ letters -> cleanAnswer l.
Proof.
  unfold letters. rewrite !elem_of_cons, elem_of_nil.
  intros [->|[->|[->|[->|[]]]]]; split; (discriminate || reflexivity).
Qed.

Lemma TrimSpace_clean s : TrimSpace s <> "" -> cleanAnswer (TrimSpace s).
Proof. intros H. split; [exact H | apply TrimSpace_idem]. Qed.

(** X2. While a test is being taken, a key press either leaves the
    current question, the result flag and the recorded answers as they
    are, or records an answer to the current question -- an answer that is
    not empty and has no surrounding white space -- and moves to the next
    question, or to the result after the last one.  No question is passed
    without an answer, and none is gone back to. *)
Theorem answering_is_the_only_way_forward (a : App) (key : string) :
  takingOK a -> currentQuestions a <> [] ->
  TestTakingModel.showResult (testTaking a) = false ->
  exists q,
    index (currentQuestions a)
      (TestTakingModel.currentQuestion (testTaking a)) = Done q
    /\ progress a q (updateTestTaking a (KeyMsg key)).
Proof.
  intros Htaking Hne Hs.
  assert (Hok : sessionInv false a) by (split; [exact Htaking | discriminate]).
  destruct (sessionInv_current false a Hok Hne) as (q & Hq & Hin).
  pose proof (sessionInv_bounds _ _ Hok Hne) as (Hc & _).
  exists q. split; [exact Hq|].
  unfold updateTestTaking.
  destruct (llen (currentQuestions a) =? 0) eqn:E.
  { destruct (currentQuestions a); [contradiction | discriminate]. }
  rewrite Hs, Hq. cbn [mbind result_bind].
  destruct (String.eqb _ "multiple_choice").
  { unfold handleMultipleChoice. rewrite Hq. cbn [mbind result_bind].
    destruct (keyIs key ["up"; "k"]).
    { destruct (_ >? 0); [apply progress_testTaking; reflexivity
                         | apply progress_same]. }
    destruct (keyIs key ["down"; "j"]).
    { destruct (_ <? _); [apply progress_testTaking; reflexivity
                         | apply progress_same]. }
    destruct (keyIs key ["enter"; " "]); [|apply progress_same].
    destruct (_ >? _); [|apply progress_same].
    destruct (_ <? llen letters) eqn:El; [|apply progress_same].
    zbool.
    destruct (index_in_range letters (TestTakingModel.cursor (testTaking a)))
      as (l & Hl & Hlin); [lia|].
    rewrite Hl. cbn [mbind result_bind].
    apply progress_nextQuestion; [exact Hs | apply letters_clean, Hlin]. }
  destruct (String.eqb _ "true_false").
  { unfold handleTrueFalse. rewrite Hq. cbn [mbind result_bind].
    destruct (keyIs key ["up"; "k"]).
    { destruct (_ >? 0); [apply progress_testTaking; reflexivity
                         | apply progress_same]. }
    destruct (keyIs key ["down"; "j"]).
    { destruct (_ <? _); [apply progress_testTaking; reflexivity
                         | apply progress_same]. }
    destruct (keyIs key ["enter"; " "]); [|apply progress_same].
    apply progress_nextQuestion; [exact Hs|].
    destruct (_ =? 1); split; (discriminate || reflexivity). }
  destruct (String.eqb _ "short_answer"); [|apply progress_same].
  unfold handleShortAnswer. rewrite Hq. cbn [mbind result_bind].
  destruct (keyIs key ["enter"]).
  { destruct (String.eqb _ "") eqn:Eb.
    { apply progress_testTaking; reflexivity. }
    apply String.eqb_neq in Eb.
    eexists. split.
    { rewrite (surjective_pairing (nextQuestion _)). reflexivity. }
    split; [reflexivity|]. right. eexists. split.
    { apply TrimSpace_clean, Eb. }
    unfold answered, nextQuestion. cbn. split; [reflexivity|].
    destruct (_ <? _); cbn; auto. }
  destruct (keyIs key ["backspace"]).
  { destruct (_ >? 0); [apply progress_testTaking; reflexivity
                       | apply progress_same]. }
  destruct (_ =? 1); [apply progress_testTaking; reflexivity
                     | apply progress_same].
Qed.

Lemma answering_is_the_only_way_forward_witness :
  exists q,
    index (currentQuestions (startedTest workingDB))
      (TestTakingModel.currentQuestion (testTaking (startedTest workingDB)))
    = Done q
    /\ progress (startedTest workingDB) q
         (updateTestTaking (startedTest workingDB) (KeyMsg "enter")).
Proof.
  apply (answering_is_the_only_way_forward (startedTest workingDB) "enter").
  - apply startedTest_sessionOK.
  - discriminate.
  - reflexivity.
Defined.

Import Screens.

(** ** The whole application: what every update keeps *)

Lemma returns_Done a c (P : App -> Prop) : P a -> returns (Done (a, c)) P.
Proof. intros H. exists a, c. auto. Qed.

Lemma returns_pair (p : App * Cmd) (P : App -> Prop) :
  P (fst p) -> returns (Done p) P.
Proof. destruct p as [a c]. apply returns_Done. Qed.

Lemma stepsTo_returns r P : stepsTo r P -> returns r P.
Proof. intros (a & E & H). exists a, NoCmd. auto. Qed.

Lemma cursorOK_zero {A} (l : list A) : cursorOK 0 l.
Proof.
  split; [lia|]. destruct l; [left; reflexivity | right].
  unfold llen. cbn. lia.
Qed.

Lemma cursorOK_up {A} c (l : list A) :
  cursorOK c l -> 0 < c -> cursorOK (c - 1) l.
Proof.
  intros [H0 [Hn|Hl]] Hc; (split; [lia|]); [left; exact Hn | right; lia].
Qed.

Lemma cursorOK_down {A} c (l : list A) :
  cursorOK c l -> c < llen l - 1 -> cursorOK (c + 1) l.
Proof. intros [H0 _] Hc. split; [lia | right; lia]. Qed.

Lemma cursorOK_index {A} c (l : list A) :
  cursorOK c l -> l <> [] -> exists x, index l c = Done x /\ x ∈ l.
Proof.
  intros [H0 [Hn|Hl]] Hne; [contradiction|].
  apply index_in_range. lia.
Qed.

(** Splits [appOK] of a state built from [a] into its parts, and closes
    those that the construction leaves as they were in [a]. *)
Ltac app_frame Hok :=
  let Ht := fresh "Ht" in let Hs := fresh "Hs" in let Hr := fresh "Hr" in
  let Hf := fresh "Hf" in let Hc := fresh "Hc" in let Hv := fresh "Hv" in
  let HQ := fresh "HQ" in
  pose proof Hok as ((Ht & Hs & Hr & Hf & Hc & Hv) & HQ);
  refine (conj (conj _ (conj _ (conj _ (conj _ (conj _ _))))) _);
  cbn; try assumption; try discriminate.

(** Splits [customOK] of a model built from one that is in order, and
    closes the parts that the construction leaves as they were. *)
Ltac custom_frame Hc :=
  let H1 := fresh "Hty" in let H2 := fresh "Hti" in
  let H3 := fresh "Hmc" in let H4 := fresh "Hopt" in
  pose proof Hc as (H1 & H2 & H3 & H4);
  refine (conj _ (conj _ (conj _ _)));
  cbn; try assumption; try (intros; discriminate); try reflexivity.

Lemma NewApp_appOK d home : appOK (NewApp d home).
Proof.
  unfold appOK. cbn.
  repeat split; try (cbn; lia); try (left; reflexivity); try discriminate.
Qed.

Section WorldProps.

Variable w : World.

Variable Q : TestTakingModel.t -> string -> Prop.

Hypothesis Q_start :
  forall tt text, Q tt text ->
    Q (TestTakingModel.with_input ""
         (TestTakingModel.with_currentQuestion 0 tt)) text.

Hypothesis Q_taking :
  forall a msg a' c text,
    msg <> KeyMsg "esc" -> takingOK a -> Q (testTaking a) text ->
    updateTestTaking a msg = Done (a', c) -> Q (testTaking a') text.

Hypothesis Q_extract : forall tt text, Q tt "" -> Q tt text.

(** *** The main menu *)

Lemma updateMainMenu_inv a msg :
  (appInv Q) a -> returns (Done (updateMainMenu a msg)) (appInv Q).
Proof.
  intros Hok. apply returns_pair.
  destruct msg as [key|]; [|exact Hok].
  unfold updateMainMenu.
  destruct (keyIs key ["q"]); [exact Hok|].
  destruct (keyIs key ["up"; "k"]).
  { cbn [fst]. destruct (_ >? 0); [app_frame Hok | exact Hok]. }
  destruct (keyIs key ["down"; "j"]).
  { cbn [fst]. destruct (_ <? _); [app_frame Hok | exact Hok]. }
  destruct (keyIs key ["enter"; " "]); [|exact Hok].
  unfold handleMainMenuSelection.
  repeat (destruct (_ =? _); [cbn [fst]; app_frame Hok|]).
  exact Hok.
Qed.

(** *** The list of tests *)

Lemma loadTestResults_inv a : (appInv Q) a -> (appInv Q) (loadTestResults w a).
Proof.
  intros Hok. unfold loadTestResults.
  destruct (GetAllTestResults w (db a)) as [rs|err]; [|app_frame Hok].
  destruct (_ >=? _) eqn:E; app_frame Hok.
  - apply cursorOK_zero.
  - cbn in E. zbool. destruct Hr as [H0 _]. split; [exact H0 | right; lia].
Qed.

Lemma loadTests_inv a : (appInv Q) a -> (appInv Q) (loadTests w a).
Proof.
  intros Hok. unfold loadTests.
  destruct (GetAllTests w (db a)) as [ts|err]; app_frame Hok;
    apply cursorOK_zero.
Qed.

Lemma takingOK_started a t qs :
  takingOK a -> qs <> [] ->
  takingOK
    (with_currentView TestTakingView
       (with_testTaking
          (TestTakingModel.with_input ""
             (TestTakingModel.with_currentQuestion 0
                (testTaking (with_currentTest (Some t) a))))
          (with_testStartTime (clock (db (with_currentTest (Some t) a)))
             (with_userAnswers ∅
                (with_currentQuestions qs (with_currentTest (Some t) a)))))).
Proof.
  intros [Hc _] Hne. split; [exact Hc|]. right. cbn.
  pose proof (llen_pos _ Hne). split; [lia | eexists; reflexivity].
Qed.

Lemma takingOK_currentTest a t :
  takingOK a -> takingOK (with_currentTest (Some t) a).
Proof.
  intros [Hc [Hn|[Hq _]]]; (split; [exact Hc|]); [left; exact Hn|].
  right. split; [exact Hq | eexists; reflexivity].
Qed.

Lemma handleTestSelection_inv a :
  (appInv Q) a -> returns (handleTestSelection w a) (appInv Q).
Proof.
  intros Hok. unfold handleTestSelection.
  destruct (llen _ =? 0) eqn:E; [apply returns_Done, Hok|].
  apply llen_nonzero in E.
  pose proof (proj1 Hok) as (Ht & Hs & _).
  destruct (cursorOK_index _ _ Hs E) as (t & Hidx & _).
  rewrite Hidx. cbn [mbind result_bind].
  assert (Hok' : (appInv Q) (with_currentTest (Some t) a)).
  { app_frame Hok. apply takingOK_currentTest, Ht. }
  destruct (String.eqb _ "take_test").
  { cbn [db with_currentTest].
    destruct (GetQuestionsByTestID (db a) (Test.ID t)) as [qs|err].
    - destruct (llen qs =? 0) eqn:Eq.
      + apply returns_Done. app_frame Hok'.
      + apply llen_nonzero in Eq. apply returns_Done.
        app_frame Hok; [apply (takingOK_started a t qs Ht Eq)|].
        apply Q_start. assumption.
    - apply returns_Done. app_frame Hok'. }
  destruct (String.eqb _ "view_tests"); [|apply returns_Done, Hok'].
  apply returns_Done, loadTestResults_inv. app_frame Hok'.
Qed.

Lemma remove_in_range {A} (l : list A) (c : Z) :
  0 <= c < llen l ->
  exists l', remove l c = Done l' /\ llen l' = llen l - 1.
Proof.
  intros Hc. unfold remove.
  destruct (Z.leb_spec 0 c); [|lia].
  destruct (Z.leb_spec (c + 1) (llen l)); [|lia]. cbn [andb].
  eexists. split; [reflexivity|].
  unfold llen in *. rewrite length_app, length_firstn, length_skipn. lia.
Qed.

Lemma deleteSelectedTest_inv a :
  (appInv Q) a -> returns (deleteSelectedTest w a) (appInv Q).
Proof.
  intros Hok. unfold deleteSelectedTest.
  destruct (llen _ =? 0) eqn:E; [apply returns_Done, Hok|].
  apply llen_nonzero in E.
  pose proof (proj1 Hok) as (_ & Hs & _).
  destruct (cursorOK_index _ _ Hs E) as (t & Hidx & _).
  rewrite Hidx. cbn [mbind result_bind].
  destruct (DeleteTest w (db a) (Test.ID t)) as [d [err|]].
  { apply returns_Done. app_frame Hok. }
  destruct Hs as [H0 [Hn|Hl]]; [contradiction|].
  destruct (remove_in_range (TestSelectionModel.tests (testSelection a))
              (TestSelectionModel.cursor (testSelection a)))
    as (l' & Hrm & Hlen); [lia|].
  rewrite Hrm. cbn [mbind result_bind]. apply returns_Done.
  destruct (_ && _) eqn:Ec; app_frame Hok; zbool.
  - split; [lia | right; lia].
  - split; [exact H0|]. apply andb_false_iff in Ec. destruct Ec; zbool.
    + right. lia.
    + left. destruct l'; [reflexivity|]. unfold llen in *. cbn in *. lia.
Qed.

Lemma updateTestSelection_inv a msg :
  (appInv Q) a -> returns (updateTestSelection w a msg) (appInv Q).
Proof.
  intros Hok0. unfold updateTestSelection.
  destruct (TestSelectionModel.loading _); [apply returns_Done, Hok0|].
  set (a1 := if llen _ =? 0 then loadTests w a else a).
  assert (Hok : (appInv Q) a1).
  { subst a1. destruct (llen _ =? 0); [apply loadTests_inv|]; exact Hok0. }
  clearbody a1. clear Hok0.
  destruct msg as [key|]; [|apply returns_Done, Hok].
  destruct (keyIs key ["up"; "k"]).
  { apply returns_Done. destruct (_ >? 0) eqn:E; [|exact Hok].
    app_frame Hok. zbool. apply cursorOK_up; assumption. }
  destruct (keyIs key ["down"; "j"]).
  { apply returns_Done. destruct (_ <? _) eqn:E; [|exact Hok].
    app_frame Hok. zbool. apply cursorOK_down; assumption. }
  destruct (keyIs key ["enter"; " "]).
  { apply handleTestSelection_inv, Hok. }
  destruct (keyIs key ["d"]).
  { destruct (_ >? 0); [apply deleteSelectedTest_inv | apply returns_Done];
      exact Hok. }
  destruct (keyIs key ["r"]); apply returns_Done;
    [apply loadTests_inv|]; exact Hok.
Qed.

(** *** The list of results *)

Lemma deleteTestResult_inv a :
  (appInv Q) a -> returns (deleteTestResult w a) (appInv Q).
Proof.
  intros Hok. unfold deleteTestResult.
  pose proof (proj1 Hok) as (_ & _ & Hr & _).
  assert (Hfail : returns
            (Done (with_testResults
                     (Results.with_errorMsg "No result selected for deletion"
                        (testResults a)) a, NoCmd)) (appInv Q)).
  { apply returns_Done. app_frame Hok. }
  assert (Hdel : forall r,
            returns
              match DeleteTestResult w (db a) (TestResultData.ID r) with
              | (d, Some err) =>
                  Done (with_testResults
                          (Results.with_errorMsg
                             ("Failed to delete result: " ++ err)
                             (testResults a)) (with_db d a), NoCmd)
              | (d, None) =>
                  let a' := loadTestResults w (with_db d a) in
                  Done (with_testResults
                          (Results.with_successMsg
                             ("Deleted result for '"
                              ++ TestResultData.TestName r ++ "'")
                             (Results.with_selected "list" None
                                (testResults a'))) a', NoCmd)
              end (appInv Q)).
  { intros r. destruct (DeleteTestResult w (db a) _) as [d [err|]].
    - apply returns_Done. app_frame Hok.
    - cbv zeta. apply returns_Done.
      assert (Hd : (appInv Q) (with_db d a)) by app_frame Hok.
      apply loadTestResults_inv in Hd. app_frame Hd. }
  destruct (if String.eqb _ "detail" then _ else None) as [r|].
  { cbn [mbind result_bind]. apply Hdel. }
  destruct (String.eqb _ "list" && _) eqn:E; [|exact Hfail].
  apply andb_true_iff in E as [_ E]. zbool.
  destruct (cursorOK_index _ _ Hr) as (r & Hidx & _).
  { intros H. rewrite H in E. unfold llen in E. simpl in E. lia. }
  rewrite Hidx. cbn [mbind result_bind]. apply Hdel.
Qed.

Lemma handleResultsListInput_inv a key :
  (appInv Q) a -> returns (handleResultsListInput w a key) (appInv Q).
Proof.
  intros Hok. unfold handleResultsListInput.
  pose proof (proj1 Hok) as (_ & _ & Hr & _).
  destruct (keyIs key ["up"; "k"]).
  { apply returns_Done. destruct (_ >? 0) eqn:E; [|exact Hok].
    app_frame Hok. zbool. apply cursorOK_up; assumption. }
  destruct (keyIs key ["down"; "j"]).
  { apply returns_Done. destruct (_ <? _) eqn:E; [|exact Hok].
    app_frame Hok. zbool. apply cursorOK_down; assumption. }
  destruct (keyIs key ["enter"; " "]).
  { destruct (_ >? 0) eqn:E; [|apply returns_Done, Hok]. zbool.
    destruct (cursorOK_index _ _ Hr) as (r & Hidx & _).
    { intros H. rewrite H in E. unfold llen in E. simpl in E. lia. }
    rewrite Hidx. cbn [mbind result_bind].
    destruct (loadResultDetails w a r) as [r'|err];
      apply returns_Done; app_frame Hok.
    destruct Hr as [H0 [Hn|Hl]]; (split; [exact H0|]).
    - rewrite Hn in E. unfold llen in E. simpl in E. lia.
    - right. unfold llen in *. rewrite length_insert. exact Hl. }
  destruct (keyIs key ["d"]).
  { destruct (_ >? 0); [apply deleteTestResult_inv | apply returns_Done];
      exact Hok. }
  destruct (keyIs key ["r"]).
  { cbv zeta. apply returns_Done.
    pose proof (loadTestResults_inv a Hok) as Hl. app_frame Hl. }
  destruct (keyIs key ["q"]); apply returns_Done; [app_frame Hok | exact Hok].
Qed.

Lemma updateTestResults_inv a msg :
  (appInv Q) a -> returns (updateTestResults w a msg) (appInv Q).
Proof.
  intros Hok. unfold updateTestResults.
  destruct msg as [key|]; [|apply returns_Done, Hok].
  destruct (String.eqb _ "list").
  { apply handleResultsListInput_inv, Hok. }
  destruct (String.eqb _ "detail"); [|apply returns_Done, Hok].
  unfold handleResultsDetailInput.
  destruct (keyIs key ["b"]); [apply returns_Done; app_frame Hok|].
  destruct (keyIs key ["d"]); [apply deleteTestResult_inv, Hok|].
  destruct (keyIs key ["q"]); apply returns_Done; [app_frame Hok | exact Hok].
Qed.

(** *** The list of files *)

Lemma refreshFileList_inv a : (appInv Q) a -> (appInv Q) (refreshFileList w a).
Proof.
  intros Hok. unfold refreshFileList.
  destruct (listPDFFiles w _) as [fs|err]; app_frame Hok;
    apply cursorOK_zero.
Qed.

Lemma updateFileSelection_inv a msg :
  (appInv Q) a -> returns (updateFileSelection w a msg) (appInv Q).
Proof.
  intros Hok. unfold updateFileSelection.
  destruct msg as [key|]; [|apply returns_Done, Hok].
  pose proof (proj1 Hok) as (_ & _ & _ & Hf & _).
  destruct (FileSelectionModel.inputMode _).
  { apply returns_pair. unfold handleFileInputMode.
    destruct (keyIs key ["enter"]).
    { cbn [fst]. destruct (statOK w _).
      - assert (H : (appInv Q) (with_fileSelection
                             (Files.with_currentDir
                                (FileSelectionModel.input (fileSelection a))
                                (fileSelection a)) a)) by app_frame Hok.
        apply refreshFileList_inv in H. app_frame H.
      - app_frame Hok. }
    destruct (keyIs key ["esc"]); [cbn [fst]; app_frame Hok|].
    destruct (keyIs key ["backspace"]).
    { cbn [fst]. destruct (_ >? 0); [app_frame Hok | exact Hok]. }
    cbn [fst]. destruct (_ =? 1); [app_frame Hok | exact Hok]. }
  destruct (keyIs key ["up"; "k"]).
  { apply returns_Done. destruct (_ >? 0) eqn:E; [|exact Hok].
    app_frame Hok. zbool. apply cursorOK_up; assumption. }
  destruct (keyIs key ["down"; "j"]).
  { apply returns_Done. destruct (_ <? _) eqn:E; [|exact Hok].
    app_frame Hok. zbool. apply cursorOK_down; assumption. }
  destruct (keyIs key ["enter"; " "]).
  { unfold handleFileSelection.
    destruct (llen _ =? 0) eqn:E; [apply returns_Done, Hok|].
    apply llen_nonzero in E.
    destruct (cursorOK_index _ _ Hf E) as (f & Hidx & _).
    rewrite Hidx. cbn [mbind result_bind].
    destruct (String.eqb _ "pdf_generation"); apply returns_Done;
      [app_frame Hok | exact Hok]. }
  destruct (keyIs key ["r"]).
  { apply returns_Done, refreshFileList_inv, Hok. }
  destruct (keyIs key ["c"]); apply returns_Done; [app_frame Hok | exact Hok].
Qed.

(** *** The PDF wizard *)

Lemma toggleFrom_returns rest i m :
  0 <= i ->
  exists m', toggleFrom questionTypeNames rest i m = Done m'.
Proof.
  revert i m. induction rest as [|qType rest IH]; intros i m Hi.
  - eexists. reflexivity.
  - cbn [toggleFrom]. destruct (enabled m qType).
    + destruct (index_in_range questionTypeNames
                  ((i + 1) `mod` llen questionTypeNames)) as (t & Ht & _).
      { change (llen questionTypeNames) with 3.
        apply Z.mod_pos_bound. lia. }
      rewrite Ht. eexists. reflexivity.
    + apply IH. lia.
Qed.

Lemma handleConfigureStep_inv a key :
  (appInv Q) a -> returns (handleConfigureStep a key) (appInv Q).
Proof.
  intros Hok. unfold handleConfigureStep.
  destruct (keyIs key ["up"; "k"]).
  { apply returns_Done. destruct (_ >? 0); [app_frame Hok | exact Hok]. }
  destruct (keyIs key ["down"; "j"]).
  { apply returns_Done. destruct (_ <? 3); [app_frame Hok | exact Hok]. }
  destruct (keyIs key ["n"]).
  { apply returns_Done. destruct (_ =? 0); [app_frame Hok | exact Hok]. }
  destruct (keyIs key ["t"]).
  { destruct (_ =? 1); [|apply returns_Done, Hok].
    unfold toggleQuestionTypes.
    destruct (toggleFrom_returns questionTypeNames 0
                (PDFProcessModel.questionTypes (pdfProcess a))) as (m' & Hm);
      [lia|].
    rewrite Hm. cbn [mbind result_bind]. apply returns_Done. app_frame Hok. }
  destruct (keyIs key ["e"]).
  { apply returns_Done. destruct (_ =? 2); [app_frame Hok | exact Hok]. }
  destruct (keyIs key ["d"]).
  { apply returns_Done. destruct (_ =? 3); [app_frame Hok | exact Hok]. }
  destruct (keyIs key ["enter"; " "]); apply returns_Done;
    [app_frame Hok | exact Hok].
Qed.

Lemma confirmPDFInput_extractedText m :
  PDFProcessModel.extractedText (confirmPDFInput m)
  = PDFProcessModel.extractedText m.
Proof.
  unfold confirmPDFInput.
  repeat match goal with
    | |- context [if ?b then _ else _] => destruct b
    | |- context [match ?x with _ => _ end] => destruct x
    end; reflexivity.
Qed.

Lemma handlePDFInputMode_inv a key :
  (appInv Q) a -> returns (Done (handlePDFInputMode a key)) (appInv Q).
Proof.
  intros Hok. apply returns_pair. unfold handlePDFInputMode.
  destruct (keyIs key ["enter"]).
  { cbn [fst]. app_frame Hok. rewrite confirmPDFInput_extractedText.
    assumption. }
  destruct (keyIs key ["esc"]); [cbn [fst]; app_frame Hok|].
  destruct (keyIs key ["backspace"]).
  { cbn [fst]. destruct (_ >? 0); [app_frame Hok | exact Hok]. }
  cbn [fst]. destruct (_ =? 1); [app_frame Hok | exact Hok].
Qed.

Lemma extractPDFText_inv a :
  (appInv Q) a -> returns (extractPDFText w a) (appInv Q).
Proof.
  intros Hok. unfold extractPDFText.
  destruct (String.eqb_spec
              (PDFProcessModel.extractedText (pdfProcess a)) "") as [E|_];
    cbn [negb]; [|apply returns_Done; app_frame Hok].
  destruct (ExtractText w _); apply returns_Done; app_frame Hok.
  apply Q_extract. rewrite <- E. assumption.
Qed.

Lemma generateQuestions_inv a :
  (appInv Q) a -> returns (generateQuestions w a) (appInv Q).
Proof.
  intros Hok. unfold generateQuestions.
  destruct (llen _ =? 0); [apply returns_Done; app_frame Hok|].
  destruct (GenerateQuestions w _ _ _) as [gqs|err];
    [|apply returns_Done; app_frame Hok].
  destruct (CreateTest _ _ _) as [d [test|err]];
    [|apply returns_Done; app_frame Hok].
  destruct (createQuestions _ _ _) as [d' [err|]];
    apply returns_Done; app_frame Hok.
Qed.

Lemma updatePDFProcess_inv a msg :
  (appInv Q) a ->
  returns (updatePDFProcess (extractPDFText w) (generateQuestions w) a msg)
    (appInv Q).
Proof.
  intros Hok. unfold updatePDFProcess.
  destruct (PDFProcessModel.loading _); [apply returns_Done, Hok|].
  destruct msg as [key|]; [|apply returns_Done, Hok].
  destruct (negb _); [apply handlePDFInputMode_inv, Hok|].
  destruct (_ =? 0).
  { destruct (keyIs _ _); [apply extractPDFText_inv | apply returns_Done];
      exact Hok. }
  destruct (_ =? 1); [apply handleConfigureStep_inv, Hok|].
  destruct (_ =? 2); [|apply returns_Done, Hok].
  destruct (keyIs _ _); [apply generateQuestions_inv, Hok|].
  destruct (keyIs _ _); apply returns_Done; [app_frame Hok | exact Hok].
Qed.

(** *** The custom-question wizard *)

Lemma inv_customQuestion a m :
  (appInv Q) a -> customOK m -> (appInv Q) (with_customQuestion m a).
Proof. intros Hok Hm. app_frame Hok. Qed.

Lemma customOK_New : customOK NewCustomQuestionModel.
Proof. unfold customOK. cbn. repeat split; try lia; discriminate. Qed.

Lemma cycleQuestionType_customOK m :
  customOK m -> CustomQuestionModel.inputMode m = "" ->
  exists m', cycleQuestionType m = Done m' /\ customOK m'.
Proof.
  intros Hc Hmode. pose proof Hc as (Hty & Hti & Hmc & Hopt).
  unfold cycleQuestionType. rewrite Hty.
  change (llen ["multiple_choice"; "true_false"; "short_answer"]) with 3.
  cbn [Z.eqb].
  assert (Hr : 0 <= Z.rem (CustomQuestionModel.typeIndex m + 1) 3 < 3).
  { apply Z.rem_bound_pos; lia. }
  destruct (index_in_range ["multiple_choice"; "true_false"; "short_answer"]
              (Z.rem (CustomQuestionModel.typeIndex m + 1) 3))
    as (ty & Hidx & Hin); [exact Hr|].
  rewrite Hidx. cbn [mbind result_bind]. eexists. split; [reflexivity|].
  refine (conj _ (conj _ (conj _ _))); cbn; try assumption.
  - destruct (String.eqb_spec ty "multiple_choice") as [->|Hne];
      [reflexivity|].
    intros E. contradiction.
  - rewrite Hmode. discriminate.
Qed.

Lemma saveCurrentQuestion_customOK a :
  customOK (customQuestion a) ->
  CustomQuestionModel.inputMode (customQuestion a) = "" ->
  customOK (customQuestion (fst (saveCurrentQuestion a))).
Proof.
  intros Hc Hmode. unfold saveCurrentQuestion.
  destruct (String.eqb _ ""); [cbn; custom_frame Hc|].
  destruct (String.eqb _ ""); [cbn; custom_frame Hc|].
  destruct (_ && _); [cbn; custom_frame Hc|].
  cbn. custom_frame Hc.
  intros E. rewrite E. reflexivity.
Qed.

Lemma store_in_range (options : list string) (i : Z) (v : string) :
  0 <= i < llen options ->
  exists opts, store options i v = Done opts
               /\ length opts = length options.
Proof.
  intros Hi. unfold store.
  destruct (Z.leb_spec 0 i); [|lia].
  destruct (Z.ltb_spec i (llen options)); [|lia]. cbn [andb].
  eexists. split; [reflexivity|]. apply length_insert.
Qed.

Lemma confirmCustomInput_customOK m :
  customOK m ->
  exists m' stay,
    confirmCustomInput m = Done (m', stay)
    /\ customOK (if stay : bool then m'
                 else CustomQuestionModel.with_input "" "" m').
Proof.
  intros Hc. unfold confirmCustomInput.
  destruct (String.eqb_spec (CustomQuestionModel.inputMode m) "test_name")
    as [E1|_].
  { eexists _, _. split; [reflexivity|]. cbv beta iota.
    destruct (validateInput _ _); custom_frame Hc. }
  destruct (String.eqb_spec (CustomQuestionModel.inputMode m) "test_desc")
    as [E2|_].
  { eexists _, _. split; [reflexivity|]. custom_frame Hc. }
  destruct (String.eqb_spec (CustomQuestionModel.inputMode m) "question")
    as [E3|_].
  { eexists _, _. split; [reflexivity|]. cbv beta iota.
    destruct (validateInput _ _); custom_frame Hc. }
  destruct (String.eqb_spec (CustomQuestionModel.inputMode m) "answer")
    as [E4|_].
  { eexists _, _. split; [reflexivity|]. cbv beta iota.
    destruct (validateInput _ _); custom_frame Hc. }
  destruct (String.eqb_spec (CustomQuestionModel.inputMode m) "explanation")
    as [E5|_].
  { eexists _, _. split; [reflexivity|]. custom_frame Hc. }
  destruct (String.eqb_spec (CustomQuestionModel.inputMode m) "option")
    as [E6|_].
  2:{ eexists _, _. split; [reflexivity|]. custom_frame Hc. }
  pose proof Hc as (Hty & Hti & Hmc & Hopt).
  destruct (Hopt E6) as [Hq Hi]. specialize (Hmc Hq).
  destruct (validateInput _ 1).
  { eexists _, _. split; [reflexivity|]. custom_frame Hc. }
  destruct (store_in_range
              (CurrentQuestion.options (CustomQuestionModel.currentQuestion m))
              (CustomQuestionModel.optionIndex m)
              (TrimSpace (CustomQuestionModel.input m)))
    as (opts & Hst & Hlen).
  { unfold llen. rewrite Hmc. lia. }
  rewrite Hst. cbn [mbind result_bind].
  destruct (_ <? 3) eqn:E.
  - zbool.
    destruct (index_in_range opts (CustomQuestionModel.optionIndex m + 1))
      as (o & Ho & _).
    { unfold llen. rewrite Hlen, Hmc. lia. }
    rewrite Ho. cbn [mbind result_bind].
    eexists _, _. split; [reflexivity|].
    refine (conj _ (conj _ (conj _ _))); cbn; try assumption.
    + intros _. rewrite Hlen. exact Hmc.
    + intros _. split; [exact Hq | lia].
  - eexists _, _. split; [reflexivity|].
    refine (conj _ (conj _ (conj _ _))); cbn; try assumption.
    + intros _. rewrite Hlen. exact Hmc.
    + discriminate.
Qed.

Lemma handleCustomQuestionInput_inv a key :
  (appInv Q) a -> returns (handleCustomQuestionInput a key) (appInv Q).
Proof.
  intros Hok. pose proof (proj1 Hok) as (_ & _ & _ & _ & Hc & _).
  unfold handleCustomQuestionInput.
  destruct (keyIs key ["enter"]).
  { destruct (confirmCustomInput_customOK _ Hc) as (m' & stay & Hm & Hc').
    rewrite Hm. cbn [mbind result_bind]. apply returns_Done.
    apply inv_customQuestion; assumption. }
  destruct (keyIs key ["esc"]).
  { apply returns_Done, inv_customQuestion; [exact Hok|]. custom_frame Hc. }
  destruct (keyIs key ["backspace"]).
  { apply returns_Done. destruct (_ >? 0); [|exact Hok].
    apply inv_customQuestion; [exact Hok|]. custom_frame Hc. }
  apply returns_Done. destruct (_ =? 1); [|exact Hok].
  apply inv_customQuestion; [exact Hok|]. custom_frame Hc.
Qed.

Lemma handleTestInfoStep_inv a key :
  (appInv Q) a -> CustomQuestionModel.inputMode (customQuestion a) = "" ->
  returns (Done (handleTestInfoStep a key)) (appInv Q).
Proof.
  intros Hok Hmode. pose proof (proj1 Hok) as (_ & _ & _ & _ & Hc & _).
  apply returns_pair. unfold handleTestInfoStep.
  repeat match goal with
    | |- (appInv Q) (fst (if ?b then _ else _)) => destruct b
    | |- (appInv Q) (fst (if ?b then _ else _, _)) => destruct b
    end; cbn [fst]; try exact Hok;
    (apply inv_customQuestion; [exact Hok|]); custom_frame Hc.
Qed.

Lemma saveCustomTest_inv a :
  (appInv Q) a -> returns (Done (saveCustomTest a)) (appInv Q).
Proof.
  intros Hok. pose proof (proj1 Hok) as (_ & _ & _ & _ & Hc & _).
  apply returns_pair. unfold saveCustomTest.
  destruct (llen _ =? 0).
  { cbn [fst]. apply inv_customQuestion; [exact Hok|]. custom_frame Hc. }
  destruct (CreateTest _ _ _) as [d [test|err]].
  2:{ cbn [fst]. app_frame Hok. }
  destruct (createQuestions _ _ _) as [d' [err|]]; cbn [fst]; app_frame Hok.
  apply customOK_New.
Qed.

Lemma handleReviewStep_inv a key :
  (appInv Q) a -> returns (Done (handleReviewStep a key)) (appInv Q).
Proof.
  intros Hok. pose proof (proj1 Hok) as (_ & _ & _ & _ & Hc & _).
  unfold handleReviewStep.
  destruct (keyIs key ["enter"; " "]); [apply saveCustomTest_inv, Hok|].
  destruct (keyIs key ["b"]); apply returns_Done; [|exact Hok].
  apply inv_customQuestion; [exact Hok|]. custom_frame Hc.
Qed.

Lemma handleQuestionCreationStep_inv a key :
  (appInv Q) a -> CustomQuestionModel.inputMode (customQuestion a) = "" ->
  returns (handleQuestionCreationStep a key) (appInv Q).
Proof.
  intros Hok Hmode. pose proof (proj1 Hok) as (_ & _ & _ & _ & Hc & _).
  pose proof Hc as (Hty & Hti & Hmc & Hopt).
  unfold handleQuestionCreationStep.
  destruct (keyIs key ["up"; "k"]).
  { apply returns_Done. destruct (_ >? 0); [|exact Hok].
    apply inv_customQuestion; [exact Hok|]. custom_frame Hc. }
  destruct (keyIs key ["down"; "j"]).
  { apply returns_Done. destruct (_ <? 4); [|exact Hok].
    apply inv_customQuestion; [exact Hok|]. custom_frame Hc. }
  destruct (keyIs key ["t"]).
  { destruct (_ =? 0); [|apply returns_Done, Hok].
    destruct (cycleQuestionType_customOK _ Hc Hmode) as (m' & Hm & Hc').
    rewrite Hm. cbn [mbind result_bind]. apply returns_Done.
    apply inv_customQuestion; assumption. }
  destruct (keyIs key ["q"]).
  { apply returns_Done. destruct (_ =? 1); [|exact Hok].
    apply inv_customQuestion; [exact Hok|]. custom_frame Hc. }
  destruct (keyIs key ["o"]).
  { destruct ((_ =? 2) && _) eqn:E; [|apply returns_Done, Hok].
    apply andb_true_iff in E as [_ E]. apply String.eqb_eq in E.
    destruct (index_in_range
                (CurrentQuestion.options
                   (CustomQuestionModel.currentQuestion (customQuestion a))) 0)
      as (o & Ho & _).
    { unfold llen. rewrite (Hmc E). lia. }
    rewrite Ho. cbn [mbind result_bind]. apply returns_Done.
    apply inv_customQuestion; [exact Hok|].
    refine (conj _ (conj _ (conj _ _))); cbn; try assumption.
    intros _. split; [exact E | lia]. }
  destruct (keyIs key ["a"]).
  { apply returns_Done. destruct (_ =? 3); [|exact Hok].
    apply inv_customQuestion; [exact Hok|]. custom_frame Hc. }
  destruct (keyIs key ["e"]).
  { apply returns_Done. destruct (_ =? 4); [|exact Hok].
    apply inv_customQuestion; [exact Hok|]. custom_frame Hc. }
  destruct (keyIs key ["s"]).
  { apply returns_pair.
    pose proof (saveCurrentQuestion_customOK a Hc Hmode) as Hs.
    rewrite (surjective_pairing (saveCurrentQuestion a)) in Hs |- *.
    cbn [fst] in *.
    assert (Hfr : forall m, customOK m ->
                            (appInv Q) (with_customQuestion m a))
      by (intros; apply inv_customQuestion; assumption).
    revert Hs. unfold saveCurrentQuestion.
    repeat match goal with
      | |- context [if ?b then _ else _] => destruct b
      end; cbn [fst customQuestion with_customQuestion]; intros Hs;
      apply Hfr, Hs. }
  destruct (keyIs key ["f"]); apply returns_Done; [|exact Hok].
  apply inv_customQuestion; [exact Hok|].
  destruct (_ >? 0); custom_frame Hc.
Qed.

Lemma updateCustomQuestion_inv a msg :
  (appInv Q) a -> returns (updateCustomQuestion a msg) (appInv Q).
Proof.
  intros Hok. unfold updateCustomQuestion.
  destruct msg as [key|]; [|apply returns_Done, Hok].
  destruct (String.eqb_spec
              (CustomQuestionModel.inputMode (customQuestion a)) "")
    as [Hmode|_]; cbn [negb].
  2:{ apply handleCustomQuestionInput_inv, Hok. }
  destruct (_ =? 0); [apply handleTestInfoStep_inv; assumption|].
  destruct (_ =? 1); [apply handleQuestionCreationStep_inv; assumption|].
  destruct (_ =? 2); [apply handleReviewStep_inv, Hok|].
  apply returns_Done, Hok.
Qed.

(** *** Test taking *)

Lemma updateTestTaking_beside a msg a' c :
  updateTestTaking a msg = Done (a', c) -> besideSession a a'.
Proof.
  unfold updateTestTaking, handleResultView, handleAnswerReview,
    saveTestResults, handleMultipleChoice, handleTrueFalse,
    handleShortAnswer, nextQuestion.
  intros H.
  repeat match type of H with
    | context [mbind _ ?x] => destruct x; cbn [mbind result_bind] in H
    | context [if ?b then _ else _] => destruct b
    | context [match ?x with _ => _ end] => destruct x
    | context [let '(_, _) := ?x in _] => destruct x
    end;
    try discriminate; injection H as <- <-;
    unfold besideSession; cbn; auto 10.
Qed.

Lemma updateTestTaking_inv a msg :
  msg <> KeyMsg "esc" ->
  (appInv Q) a -> returns (updateTestTaking a msg) (appInv Q).
Proof.
  intros Hesc [Hok HQ]. pose proof Hok as (Ht & Hs & Hr & Hf & Hc & Hv).
  assert (Hinv : sessionInv false a) by (split; [exact Ht | discriminate]).
  destruct (updateTestTaking_session false a msg Hinv) as (a' & E & [Ht' _]).
  destruct (updateTestTaking_beside a msg a' NoCmd E)
    as (Es & Er & Ef & Ec & Ep & Ev).
  pose proof (Q_taking a msg a' NoCmd _ Hesc Ht HQ E) as HQ'.
  rewrite E. apply returns_Done. rewrite <- Ep in HQ'.
  refine (conj (conj Ht' (conj _ (conj _ (conj _ (conj _ _))))) HQ').
  - rewrite Es. exact Hs.
  - rewrite Er. exact Hr.
  - rewrite Ef. exact Hf.
  - rewrite Ec. exact Hc.
  - destruct Ev as [Ev|Ev]; rewrite Ev; [exact Hv | discriminate].
Qed.

(** *** The dispatcher *)

Lemma Update_inv a msg :
  (appInv Q) a -> returns (Screens.Update w a msg) (appInv Q).
Proof.
  intros Hok. unfold Screens.Update, Tui.Update.
  assert (Hroute : msg <> KeyMsg "esc" \/ currentView a = MainMenuView ->
            returns
              (route (extractPDFText w) (generateQuestions w)
                 (updateTestSelection w) (updateTestResults w)
                 (updateFileSelection w) updateQuestionGen a msg) (appInv Q)).
  { intros Hmsg. unfold route. destruct (currentView a) eqn:Ev.
    - apply updateMainMenu_inv, Hok.
    - apply updatePDFProcess_inv, Hok.
    - apply updateCustomQuestion_inv, Hok.
    - apply updateTestSelection_inv, Hok.
    - apply updateTestTaking_inv; [|exact Hok].
      destruct Hmsg as [H|H]; [exact H | discriminate H].
    - apply updateTestResults_inv, Hok.
    - apply updateFileSelection_inv, Hok.
    - destruct Hok as [(_ & _ & _ & _ & _ & Hv) _]. contradiction. }
  destruct msg as [key|]; [|apply Hroute; left; discriminate].
  destruct (String.eqb key "ctrl+c"); [apply returns_Done, Hok|].
  destruct (String.eqb_spec key "esc") as [->|Hkey]; cbn [andb].
  - destruct (decide (currentView a = MainMenuView)) as [Hv|Hv].
    + rewrite (bool_decide_eq_true_2 _ Hv). cbn [negb].
      apply Hroute. right. exact Hv.
    + rewrite (bool_decide_eq_false_2 _ Hv). cbn [negb].
      apply returns_Done. app_frame Hok.
  - apply Hroute. left. congruence.
Qed.

End WorldProps.

(** X3. Whatever the database, the file system, the extractor and the
    generator answer, [Update] never panics on a state that is in order
    and leaves the state in order: every list cursor stays on an entry of
    its list, the question cursor on a question of the loaded test, the
    custom-question wizard keeps its option slots and indices in range,
    and the question-generation view is never entered. *)
Theorem Update_never_panics (w : World) (a : App) (msg : Msg) :
  appOK a -> returns (Screens.Update w a msg) appOK.
Proof.
  intros Hok.
  destruct (Update_inv w (fun _ _ => True) (fun _ _ _ => I)
              (fun _ _ _ _ _ _ _ _ _ => I) (fun _ _ _ => I) a msg
              (conj Hok I))
    as (a' & c & E & [Hok' _]).
  exists a', c. auto.
Qed.

Lemma Update_never_panics_witness :
  appOK (NewApp workingDB "/home/user")
  /\ returns (Screens.Update quietWorld (NewApp workingDB "/home/user")
                (KeyMsg "enter")) appOK.
Proof.
  split.
  - apply NewApp_appOK.
  - apply (Update_never_panics quietWorld (NewApp workingDB "/home/user")
             (KeyMsg "enter") (NewApp_appOK workingDB "/home/user")).
Defined.

(** ** The answer review and the start of a test *)

Lemma updateTestTaking_inReview a msg a' c :
  msg <> KeyMsg "esc" -> takingOK a -> inReview (testTaking a) ->
  updateTestTaking a msg = Done (a', c) ->
  inReview (testTaking a') /\ db a' = db a.
Proof.
  intros Hesc _ [Hs Hr]. unfold updateTestTaking.
  destruct (llen _ =? 0); [intros [= <- <-]; repeat split; assumption|].
  destruct msg as [key|]; [|intros [= <- <-]; repeat split; assumption].
  rewrite Hs. unfold handleResultView. rewrite Hr.
  unfold handleAnswerReview.
  destruct (keyIs key ["left"; "h"]).
  { destruct (_ >? 0); intros [= <- <-]; repeat split; assumption. }
  destruct (keyIs key ["right"; "l"]).
  { destruct (_ <? _); intros [= <- <-]; repeat split; assumption. }
  destruct (keyIs key ["esc"]) eqn:E.
  { apply keyIs_one in E. subst key. contradiction. }
  intros [= <- <-]; repeat split; assumption.
Qed.

(** X4. Once the answer review has been opened it is never left: every
    message that [Update] handles -- the escape key, which [Update] takes
    for itself, included -- leaves the result flag and the review flag set,
    whatever the view and whatever the world answers; while the
    test-taking view is shown the database is not written. *)
Theorem review_is_never_left (w : World) (a : App) (msg : Msg) :
  appOK a -> inReview (testTaking a) ->
  returns (Screens.Update w a msg)
    (fun a' => inReview (testTaking a')
               /\ (currentView a = TestTakingView -> db a' = db a)).
Proof.
  intros Hok Hrev.
  destruct (Update_inv w (fun tt _ => inReview tt)) with (a := a) (msg := msg)
    as (a' & c & E & [_ Hrev']).
  - intros tt _ H. exact H.
  - intros a0 msg0 a0' c0 _ Hesc Ht HQ H0.
    apply (updateTestTaking_inReview a0 msg0 a0' c0 Hesc Ht HQ H0).
  - intros tt _ H. exact H.
  - split; assumption.
  - exists a', c. split; [exact E|]. split; [exact Hrev'|].
    intros Hview. revert E. unfold Screens.Update, Tui.Update.
    destruct msg as [key|].
    + destruct (String.eqb key "ctrl+c"); [intros [= <- _]; reflexivity|].
      destruct (String.eqb_spec key "esc") as [->|Hkey]; cbn [andb].
      * rewrite bool_decide_eq_false_2 by (rewrite Hview; discriminate).
        intros [= <- _]. reflexivity.
      * unfold route. rewrite Hview. intros E.
        apply (updateTestTaking_inReview a (KeyMsg key) a' c); try assumption.
        -- congruence.
        -- apply Hok.
    + unfold route. rewrite Hview. intros E.
      apply (updateTestTaking_inReview a OtherMsg a' c); try assumption.
      * discriminate.
      * apply Hok.
Qed.

Lemma reviewing_appOK d : appOK (reviewing d).
Proof.
  unfold appOK, reviewing. cbn.
  repeat split; try (cbn; lia); try (left; reflexivity); try discriminate.
  - right. split; [vm_compute; split; congruence | eexists; reflexivity].
Qed.

Lemma review_is_never_left_witness :
  appOK (reviewing workingDB)
  /\ returns (Screens.Update quietWorld (reviewing workingDB) (KeyMsg "enter"))
       (fun a' => inReview (testTaking a')
                  /\ (currentView (reviewing workingDB) = TestTakingView ->
                      db a' = db (reviewing workingDB))).
Proof.
  split.
  - apply reviewing_appOK.
  - apply (review_is_never_left quietWorld (reviewing workingDB)
             (KeyMsg "enter") (reviewing_appOK workingDB)).
    split; reflexivity.
Defined.

(** X5. Choosing a test that has questions opens the test-taking view
    on its first question, with the questions as [GetQuestionsByTestID]
    returns them, no answers, an empty input and the clock of the database
    as the start time.  The result flag, the review flag, the review
    cursor and the option cursor are not reset: they are left as an
    earlier session left them.  When the test-taking model is a fresh one
    the new session is in order. *)
Theorem handleTestSelection_starts_test (w : World) (a : App) (t : Test.t)
    (qs : list Question.t) :
  index (TestSelectionModel.tests (testSelection a))
    (TestSelectionModel.cursor (testSelection a)) = Done t ->
  TestSelectionModel.purpose (testSelection a) = "take_test" ->
  GetQuestionsByTestID (db a) (Test.ID t) = Ok qs -> qs <> [] ->
  exists a',
    handleTestSelection w a = Done (a', NoCmd)
    /\ currentView a' = TestTakingView
    /\ currentTest a' = Some t
    /\ currentQuestions a' = qs
    /\ userAnswers a' = ∅
    /\ testStartTime a' = clock (db a)
    /\ TestTakingModel.currentQuestion (testTaking a') = 0
    /\ TestTakingModel.input (testTaking a') = ""
    /\ TestTakingModel.showResult (testTaking a')
       = TestTakingModel.showResult (testTaking a)
    /\ TestTakingModel.reviewMode (testTaking a')
       = TestTakingModel.reviewMode (testTaking a)
    /\ TestTakingModel.reviewQuestion (testTaking a')
       = TestTakingModel.reviewQuestion (testTaking a)
    /\ TestTakingModel.cursor (testTaking a')
       = TestTakingModel.cursor (testTaking a)
    /\ (testTaking a = NewTestTakingModel -> sessionOK a').
Proof.
  intros Hidx Hpurpose Hqs Hne. unfold handleTestSelection.
  destruct (llen _ =? 0) eqn:E.
  { apply llen_zero in E. rewrite E in Hidx. unfold index in Hidx.
    destruct (_ <? 0); discriminate. }
  rewrite Hidx. cbn [mbind result_bind]. rewrite Hpurpose.
  change (String.eqb "take_test" "take_test") with true. cbv iota.
  cbn [db with_currentTest]. rewrite Hqs.
  destruct (llen qs =? 0) eqn:Eq; [apply llen_zero in Eq; contradiction|].
  eexists. split; [reflexivity|]. cbn.
  repeat (split; [reflexivity|]).
  intros Hnew. rewrite Hnew. pose proof (llen_pos _ Hne).
  split; [|split].
  - split; [cbn; lia|]. right. cbn. split; [lia | eexists; reflexivity].
  - right. cbn. lia.
  - intros id [v Hv]. cbn in Hv. rewrite lookup_empty in Hv. discriminate.
Qed.

Lemma handleTestSelection_starts_test_witness :
  exists a',
    handleTestSelection quietWorld
      (choosing quizDB (tests quizDB) (NewApp quizDB "/home/user"))
    = Done (a', NoCmd)
    /\ currentView a' = TestTakingView
    /\ (Question.ID <$> currentQuestions a') = [2; 3]
    /\ sessionOK a'.
Proof.
  destruct (handleTestSelection_starts_test quietWorld
              (choosing quizDB (tests quizDB) (NewApp quizDB "/home/user"))
              sampleTest
              (match GetQuestionsByTestID quizDB 1 with
               | Ok qs => qs
               | Err _ => []
               end))
    as (a' & E & Hview & _ & Hqs & _ & _ & _ & _ & _ & _ & _ & _ & Hs).
  - reflexivity.
  - reflexivity.
  - vm_compute. reflexivity.
  - vm_compute. discriminate.
  - exists a'. split; [exact E|]. split; [exact Hview|].
    split; [rewrite Hqs; vm_compute; reflexivity | apply Hs; reflexivity].
Defined.

(** ** The PDF wizard: what it sends to the generator *)

(** X6. Once a text has been extracted it is never replaced: whatever
    message [Update] handles and whatever the world answers, the extracted
    text of the PDF wizard stays as it is, also when another file is
    selected and the extraction step is run again. *)
Theorem extracted_text_is_never_replaced (w : World) (a : App) (msg : Msg) :
  appOK a -> PDFProcessModel.extractedText (pdfProcess a) <> "" ->
  returns (Screens.Update w a msg)
    (fun a' => PDFProcessModel.extractedText (pdfProcess a')
               = PDFProcessModel.extractedText (pdfProcess a)).
Proof.
  intros Hok Hne.
  destruct (Update_inv w
              (fun _ text =>
                 text = PDFProcessModel.extractedText (pdfProcess a)))
    with (a := a) (msg := msg) as (a' & c & E & [_ Htext]).
  - intros tt text H. exact H.
  - intros a0 msg0 a0' c0 text _ _ H _. exact H.
  - intros tt text H. symmetry in H. contradiction.
  - split; [exact Hok | reflexivity].
  - exists a', c. auto.
Qed.

Lemma extracted_appOK text d : appOK (extracted text d).
Proof.
  unfold appOK, extracted. cbn.
  repeat split; try (cbn; lia); try (left; reflexivity); try discriminate.
Qed.

Lemma extracted_text_is_never_replaced_witness :
  returns (Screens.Update quietWorld (extracted "Chapter one" workingDB)
             (KeyMsg "r"))
    (fun a' => PDFProcessModel.extractedText (pdfProcess a')
               = "Chapter one").
Proof.
  apply (extracted_text_is_never_replaced quietWorld
           (extracted "Chapter one" workingDB) (KeyMsg "r")
           (extracted_appOK "Chapter one" workingDB)).
  discriminate.
Defined.

Lemma trimRight_noSpace s : hasSpace s = false -> trimRight s = s.
Proof.
  induction s as [|c s IH]; [reflexivity|]. cbn [hasSpace trimRight].
  intros H. apply orb_false_iff in H as [Hc Hs]. rewrite (IH Hs), Hc.
  destruct s; reflexivity.
Qed.

Lemma TrimSpace_noSpace s : hasSpace s = false -> TrimSpace s = s.
Proof.
  intros H. unfold TrimSpace.
  assert (Hl : trimLeft s = s).
  { destruct s as [|c s]; [reflexivity|]. cbn in *.
    apply orb_false_iff in H as [-> _]. reflexivity. }
  rewrite Hl. apply trimRight_noSpace, H.
Qed.

Lemma digits_noSpace s : forall acc n,
  digits acc s = Some n -> hasSpace s = false.
Proof.
  induction s as [|c s IH]; intros acc n; [reflexivity|].
  cbn [digits hasSpace]. destruct (isDigit c) eqn:Ed; [|discriminate].
  intros H. rewrite (IH _ _ H), orb_false_r.
  unfold isDigit, isSpace in *. zbool.
  destruct (Z.leb_spec 9 (code c)), (Z.leb_spec (code c) 13),
    (Z.eqb_spec (code c) 32); cbn; try reflexivity; lia.
Qed.

Lemma digits_nonneg s : forall acc n,
  0 <= acc -> digits acc s = Some n -> 0 <= n.
Proof.
  induction s as [|c s IH]; intros acc n Hacc; cbn [digits].
  - intros [= <-]. exact Hacc.
  - destruct (isDigit c) eqn:Ed; [|discriminate].
    apply IH. unfold isDigit in Ed. zbool. lia.
Qed.

Lemma AtoiValue_spaced s : hasSpace s = true -> AtoiValue s = 0.
Proof.
  intros H. unfold AtoiValue.
  assert (Hbody : forall body, hasSpace body = true ->
            match body with
            | "" => 0
            | String _ _ =>
                match digits 0 body with
                | Some n => n
                | None => 0
                end
            end = 0
            /\ digits 0 body = None).
  { intros body Hb. destruct (digits 0 body) as [n|] eqn:E.
    - apply digits_noSpace in E. congruence.
    - destruct body; auto. }
  destruct s as [|c s']; [discriminate|].
  destruct (Ascii.eqb_spec c "-") as [->|Hm].
  { cbn in H. destruct s'; [discriminate|].
    rewrite (proj2 (Hbody _ H)). reflexivity. }
  destruct (Ascii.eqb_spec c "+") as [->|Hp].
  { cbn in H. destruct s'; [discriminate|].
    rewrite (proj2 (Hbody _ H)). reflexivity. }
  assert (E : match c with
              | "-"%char => (true, s')
              | "+"%char => (false, s')
              | _ => (false, String c s')
              end = (false, String c s')).
  { destruct c as [[] [] [] [] [] [] [] []]; try reflexivity; congruence. }
  rewrite E. rewrite (proj2 (Hbody _ H)). reflexivity.
Qed.

Lemma AtoiValue_Atoi s n : Atoi s = Some n -> AtoiValue s = n.
Proof.
  unfold Atoi, AtoiValue.
  destruct (match s with
            | String "-" s' => (true, s')
            | String "+" s' => (false, s')
            | _ => (false, s)
            end) as [neg body].
  destruct body as [|c body]; [discriminate|].
  destruct (digits 0 (String c body)) as [v|]; [|discriminate].
  destruct neg.
  - destruct ((minInt <=? - v) && (- v <=? maxInt)) eqn:E; [|discriminate].
    intros [= <-]. zbool. lia.
  - destruct ((minInt <=? v) && (v <=? maxInt)) eqn:E; [|discriminate].
    intros [= <-]. zbool. lia.
Qed.

Lemma generateQuestions_count w a n :
  AtoiValue (PDFProcessModel.numQuestions (pdfProcess a)) = n ->
  generateQuestions w a = generateQuestions (askingFor n w) a.
Proof.
  intros H. unfold generateQuestions, enabledTypes. cbn. rewrite H.
  reflexivity.
Qed.

(** X7. The number of questions is validated after trimming but stored
    and later parsed as typed.  An accepted entry without surrounding
    white space makes [generateQuestions] ask the generator for that
    number; an accepted entry with surrounding white space is stored with
    it, fails to parse, and makes [generateQuestions] ask for 0
    questions. *)
Theorem padded_count_asks_for_no_questions (w : World) (a : App)
    (num : Z) :
  PDFProcessModel.inputMode (pdfProcess a) = "num_questions" ->
  Atoi (TrimSpace (PDFProcessModel.input (pdfProcess a))) = Some num ->
  1 <= num <= 50 ->
  let input := PDFProcessModel.input (pdfProcess a) in
  let a' := fst (handlePDFInputMode a "enter") in
  PDFProcessModel.numQuestions (pdfProcess a') = input
  /\ (TrimSpace input = input ->
      generateQuestions w a' = generateQuestions (askingFor num w) a')
  /\ (TrimSpace input <> input ->
      generateQuestions w a' = generateQuestions (askingFor 0 w) a').
Proof.
  intros Hmode Hnum Hrange input a'.
  assert (Hstored : PDFProcessModel.numQuestions (pdfProcess a') = input).
  { subst a' input. unfold handlePDFInputMode.
    change (keyIs "enter" ["enter"]) with true. cbn iota. cbn [fst].
    rewrite (confirmPDFInput_num _ Hmode).
    destruct (decide _) as [_|Hno]; [reflexivity|].
    exfalso. apply Hno. exists num. auto. }
  split; [exact Hstored|]. split.
  - intros Htrim. apply generateQuestions_count. rewrite Hstored.
    apply AtoiValue_Atoi. rewrite <- Htrim. exact Hnum.
  - intros Hpad. apply generateQuestions_count. rewrite Hstored.
    apply AtoiValue_spaced.
    destruct (hasSpace input) eqn:E; [reflexivity|].
    exfalso. apply Hpad, TrimSpace_noSpace, E.
Qed.

Lemma padded_count_asks_for_no_questions_witness :
  generateQuestions quietWorld (fst (handlePDFInputMode (editingCount " 12") "enter"))
  = generateQuestions (askingFor 0 quietWorld)
      (fst (handlePDFInputMode (editingCount " 12") "enter")).
Proof.
  apply (proj2 (proj2 (padded_count_asks_for_no_questions quietWorld
                         (editingCount " 12") 12 eq_refl eq_refl
                         ltac:(lia)))).
  discriminate.
Defined.

(** ** The PDF wizard: its settings *)

Lemma validateInput_one input :
  validateInput input 1 = None -> TrimSpace input <> "".
Proof.
  unfold validateInput. destruct (_ <? 1) eqn:E; [discriminate|].
  intros _ H. rewrite H in E. discriminate.
Qed.

Lemma confirmPDFInput_settingsOK m :
  settingsOK m -> settingsOK (confirmPDFInput m).
Proof.
  intros (Hn & Hne & Hname & Hdesc & Hty). unfold confirmPDFInput.
  destruct (String.eqb _ "num_questions").
  { destruct (Atoi _) as [num|] eqn:En;
      [|repeat split; assumption].
    destruct (_ && _) eqn:E; [|repeat split; assumption].
    zbool. refine (conj _ (conj Hne (conj Hname (conj Hdesc Hty)))).
    exists num. split; [exact En | lia]. }
  destruct (String.eqb _ "test_name").
  { destruct (validateInput _ 1) eqn:Ev; [repeat split; assumption|].
    refine (conj Hn (conj _ (conj _ (conj Hdesc Hty)))); cbn.
    - apply validateInput_one, Ev.
    - apply TrimSpace_idem. }
  destruct (String.eqb _ "test_desc"); [|repeat split; assumption].
  refine (conj Hn (conj Hne (conj Hname (conj _ Hty)))); cbn.
  apply TrimSpace_idem.
Qed.

Ltac keep_settings H :=
  apply returns_Done; try exact H; cbn; exact H.

(** X8. The PDF wizard keeps its settings valid: after any message, the
    stored number of questions is still an entry that parses, once
    trimmed, as a number between 1 and 50, the test name is not empty,
    name and description are trimmed, and exactly one question type is
    enabled.  The handler never panics. *)
Theorem wizard_settings_stay_valid (w : World) (a : App) (msg : Msg) :
  settingsOK (pdfProcess a) ->
  returns (updatePDFProcess (extractPDFText w) (generateQuestions w) a msg)
    (fun a' => settingsOK (pdfProcess a')).
Proof.
  intros H. unfold updatePDFProcess.
  destruct (PDFProcessModel.loading _); [keep_settings H|].
  destruct msg as [key|]; [|keep_settings H].
  destruct (negb _).
  { apply returns_pair. unfold handlePDFInputMode.
    destruct (keyIs key ["enter"]).
    { cbn. apply confirmPDFInput_settingsOK in H. exact H. }
    destruct (keyIs key ["esc"]); [cbn; exact H|].
    destruct (keyIs key ["backspace"]).
    { destruct (_ >? 0); cbn; exact H. }
    destruct (_ =? 1); cbn; exact H. }
  destruct (_ =? 0).
  { destruct (keyIs _ _); [|keep_settings H]. unfold extractPDFText.
    destruct (negb _); [keep_settings H|].
    destruct (ExtractText w _); keep_settings H. }
  destruct (_ =? 1).
  { unfold handleConfigureStep.
    destruct (keyIs key ["up"; "k"]).
    { destruct (_ >? 0); keep_settings H. }
    destruct (keyIs key ["down"; "j"]).
    { destruct (_ <? 3); keep_settings H. }
    destruct (keyIs key ["n"]).
    { destruct (_ =? 0); keep_settings H. }
    destruct (keyIs key ["t"]).
    { destruct (_ =? 1); [|keep_settings H].
      destruct H as (Hn & Hne & Hname & Hdesc & [n Hty]).
      destruct (toggleQuestionTypes_step a n Hty) as (m' & Hstep & Hm').
      rewrite Hstep. apply returns_Done. cbn.
      refine (conj Hn (conj Hne (conj Hname (conj Hdesc _)))).
      exists (S n). exact Hm'. }
    destruct (keyIs key ["e"]).
    { destruct (_ =? 2); keep_settings H. }
    destruct (keyIs key ["d"]).
    { destruct (_ =? 3); keep_settings H. }
    destruct (keyIs key ["enter"; " "]); keep_settings H. }
  destruct (_ =? 2); [|keep_settings H].
  destruct (keyIs _ _).
  { unfold generateQuestions.
    destruct (llen _ =? 0); [keep_settings H|].
    destruct (GenerateQuestions w _ _ _) as [gqs|err]; [|keep_settings H].
    destruct (CreateTest _ _ _) as [d [test|err]]; [|keep_settings H].
    destruct (createQuestions _ _ _) as [d' [err|]]; keep_settings H. }
  destruct (keyIs _ _); keep_settings H.
Qed.

Lemma NewPDFProcessModel_settingsOK : settingsOK NewPDFProcessModel.
Proof.
  refine (conj _ (conj _ (conj _ (conj _ _)))).
  - exists 5. split; [vm_compute; reflexivity | lia].
  - discriminate.
  - vm_compute. reflexivity.
  - vm_compute. reflexivity.
  - exists 0%nat. exact default_onlyEnabled.
Qed.

Lemma wizard_settings_stay_valid_witness :
  returns
    (updatePDFProcess (extractPDFText quietWorld)
       (generateQuestions quietWorld) (editingCount "7") (KeyMsg "enter"))
    (fun a' => settingsOK (pdfProcess a')).
Proof.
  apply (wizard_settings_stay_valid quietWorld (editingCount "7")
           (KeyMsg "enter")).
  exact NewPDFProcessModel_settingsOK.
Defined.

(** ** The database: tests and their questions *)

Lemma max_id_snoc ids seq i :
  max_id (ids ++ [i]) seq = Z.max i (max_id ids seq).
Proof.
  unfold max_id. induction ids as [|j ids IH]; simpl; [lia|].
  rewrite IH. lia.
Qed.

Lemma max_id_seq ids seq seq' :
  seq <= seq' -> max_id ids seq <= seq' -> max_id ids seq' = seq'.
Proof.
  unfold max_id. induction ids as [|j ids IH]; simpl; intros H1 H2; [lia|].
  rewrite IH by lia. pose proof (max_id_ge_seq ids seq). unfold max_id in *.
  lia.
Qed.

Lemma find_fresh {A} (key : A -> Z) (rows : list A) (row : A) :
  (forall r, r ∈ rows -> key r <> key row) ->
  List.find (fun r => key r =? key row) (rows ++ [row]) = Some row.
Proof.
  induction rows as [|r rows IH]; intros Hfresh; simpl.
  - rewrite Z.eqb_refl. reflexivity.
  - destruct (Z.eqb_spec (key r) (key row)) as [E|_].
    + exfalso. apply (Hfresh r); [apply list_elem_of_here | exact E].
    + apply IH. intros r' Hr'. apply Hfresh, list_elem_of_further, Hr'.
Qed.

Lemma find_other {A} (key : A -> Z) (rows : list A) (row : A) (id : Z) :
  id <> key row ->
  List.find (fun r => key r =? id) (rows ++ [row])
  = List.find (fun r => key r =? id) rows.
Proof.
  intros Hne. induction rows as [|r rows IH]; simpl.
  - destruct (Z.eqb_spec (key row) id); [congruence | reflexivity].
  - destruct (key r =? id); [reflexivity | exact IH].
Qed.

Lemma CreateTest_fresh (d : DB) (name description : string) :
  fault d = None -> lastTestID d < maxInt ->
  exists t,
    CreateTest d name description = (withTest t d, Ok t)
    /\ Test.Name t = name /\ Test.Description t = description
    /\ Test.ID t = lastTestID d + 1
    /\ (forall t0, t0 ∈ tests d -> Test.ID t0 < Test.ID t)
    /\ GetTest (withTest t d) (Test.ID t) = Ok t
    /\ (forall id, id <> Test.ID t ->
        GetTest (withTest t d) id = GetTest d id)
    /\ lastTestID (withTest t d) = Test.ID t.
Proof.
  intros Hfault Hmax. unfold lastTestID in *.
  set (id := max_id (Test.ID <$> tests d) (seq_tests d) + 1).
  set (t := {| Test.ID := id; Test.Name := name;
               Test.Description := description;
               Test.CreatedAt := clock d; Test.UpdatedAt := clock d |}).
  assert (Hfresh : forall t0, t0 ∈ tests d -> Test.ID t0 < id).
  { intros t0 H0.
    pose proof (max_id_ge (Test.ID <$> tests d) (seq_tests d) (Test.ID t0)
                  (list_elem_of_fmap_2 Test.ID _ _ H0)).
    subst id. lia. }
  assert (Hget : GetTest (withTest t d) id = Ok t).
  { unfold GetTest, wrap, findRow. cbn [fault withTest tests].
    rewrite Hfault.
    pose proof (find_fresh Test.ID (tests d) t) as Hf.
    change (Test.ID t) with id in Hf. rewrite Hf; [reflexivity|].
    intros t0 H0. specialize (Hfresh t0 H0). lia. }
  exists t. repeat split; try reflexivity.
  + unfold CreateTest, insertId, next_id. rewrite Hfault at 1.
    destruct (Z.ltb_spec (max_id (Test.ID <$> tests d) (seq_tests d))
                maxInt); [|lia].
    rewrite <- Hget. reflexivity.
  + exact Hfresh.
  + exact Hget.
  + intros id' Hne. unfold GetTest, findRow. cbn [fault withTest tests].
    rewrite (find_other Test.ID (tests d) t id' Hne). reflexivity.
  + cbn [withTest tests seq_tests Test.ID t]. rewrite fmap_app. cbn.
    rewrite max_id_snoc.
    pose proof (max_id_ge_seq (Test.ID <$> tests d) (seq_tests d)).
    rewrite (max_id_seq _ (seq_tests d) id); subst id; lia.
Qed.

(** X9. On a working database with a rowid to spare, [CreateTest] stores
    the test with the given name and description under an id larger than
    every id in use or used before, and returns it as [GetTest] reads it
    back; every other id is read as before, and the question rows are
    untouched.  On a database at fault it stores nothing. *)
Theorem CreateTest_gives_fresh_id (d : DB) (name description : string) :
  (fault d = None -> lastTestID d < maxInt ->
   exists t,
     CreateTest d name description = (withTest t d, Ok t)
     /\ Test.Name t = name /\ Test.Description t = description
     /\ Test.ID t = lastTestID d + 1
     /\ (forall t0, t0 ∈ tests d -> Test.ID t0 < Test.ID t)
     /\ GetTest (withTest t d) (Test.ID t) = Ok t
     /\ (forall id, id <> Test.ID t ->
         GetTest (withTest t d) id = GetTest d id)
     /\ lastTestID (withTest t d) = Test.ID t)
  /\ (forall msg, fault d = Some msg ->
      CreateTest d name description
      = (d, Err ("failed to create test: " ++ msg))).
Proof.
  split.
  - apply CreateTest_fresh.
  - intros msg Hfault. unfold CreateTest, insertId. rewrite Hfault.
    reflexivity.
Qed.

Lemma CreateTest_gives_fresh_id_witness :
  exists t,
    CreateTest workingDB "Quiz" "" = (withTest t workingDB, Ok t)
    /\ Test.ID t = 2.
Proof.
  destruct (proj1 (CreateTest_gives_fresh_id workingDB "Quiz" "") eq_refl)
    as (t & H1 & _ & _ & H2 & _).
  - vm_compute. reflexivity.
  - exists t. split; [exact H1 | exact H2].
Defined.

(** X10. On a working database [GetQuestionsByTestID] returns exactly
    the questions of the test -- a question is returned if and only if it
    is the decoding of a row of that test, and as many questions are
    returned as the test has rows -- in ascending order of id.  On a
    database at fault it returns the error. *)
Theorem GetQuestionsByTestID_exact_and_ordered (d : DB) (testID : Z) :
  (fault d = None ->
   exists qs,
     GetQuestionsByTestID d testID = Ok qs
     /\ ascending qs
     /\ (forall q, q ∈ qs <->
                   exists r, r ∈ questions d /\ row_test_id r = testID
                             /\ q = questionOfRow r)
     /\ Forall (fun q => Question.TestID q = testID) qs
     /\ length qs
        = length (List.filter (fun r => row_test_id r =? testID)
                    (questions d)))
  /\ (forall msg, fault d = Some msg ->
      GetQuestionsByTestID d testID
      = Err ("failed to get questions: " ++ msg)).
Proof.
  split.
  - intros Hfault. unfold GetQuestionsByTestID. rewrite Hfault.
    eexists. split; [reflexivity|]. split; [|split; [|split]].
    + apply (Sorted_fmap questionOfRow row_le).
      * intros r1 r2 H. exact H.
      * apply Sorted_merge_sort. exact row_le_total.
    + intros q. rewrite list_elem_of_fmap. split.
      * intros (r & -> & Hr). apply sorted_rows_elem in Hr as [Hr Ht].
        exists r. auto.
      * intros (r & Hr & Ht & ->). exists r. split; [reflexivity|].
        apply sorted_rows_elem. auto.
    + apply Forall_forall. intros q Hq.
      apply list_elem_of_fmap in Hq as (r & -> & Hr).
      apply sorted_rows_elem in Hr as [_ Ht]. exact Ht.
    + rewrite length_fmap. apply Permutation_length, merge_sort_Permutation.
  - intros msg Hfault. unfold GetQuestionsByTestID. rewrite Hfault.
    reflexivity.
Qed.

Lemma GetQuestionsByTestID_exact_and_ordered_witness :
  exists qs,
    GetQuestionsByTestID quizDB 1 = Ok qs /\ ascending qs
    /\ length qs = 2%nat.
Proof.
  destruct (proj1 (GetQuestionsByTestID_exact_and_ordered quizDB 1)
              eq_refl) as (qs & H1 & H2 & _ & _ & H3).
  exists qs. split; [exact H1|]. split; [exact H2 | exact H3].
Defined.

(** *** Storing the questions of a test *)

Lemma rowsFor_ids created testID qs : forall last r,
  r ∈ rowsFor created testID last qs ->
  last < row_id r /\ row_test_id r = testID.
Proof.
  induction qs as [|q qs IH]; intros last r Hr; cbn [rowsFor] in Hr.
  - apply elem_of_nil in Hr. contradiction.
  - apply elem_of_cons in Hr as [->|Hr]; [cbn; split; [lia|reflexivity]|].
    destruct (IH _ _ Hr). split; [lia | assumption].
Qed.

Lemma rowsFor_sorted created testID qs : forall last,
  StronglySorted row_le (rowsFor created testID last qs).
Proof.
  induction qs as [|q qs IH]; intros last; cbn [rowsFor]; constructor.
  - apply IH.
  - apply Forall_forall. intros r Hr.
    destruct (rowsFor_ids _ _ _ _ _ Hr). unfold row_le. cbn. lia.
Qed.

Lemma rowsFor_NoDup_ids created testID qs last r1 r2 :
  r1 ∈ rowsFor created testID last qs ->
  r2 ∈ rowsFor created testID last qs ->
  row_id r1 = row_id r2 -> r1 = r2.
Proof.
  revert last. induction qs as [|q qs IH]; intros last H1 H2 E;
    cbn [rowsFor] in *.
  - apply elem_of_nil in H1. contradiction.
  - apply elem_of_cons in H1 as [->|H1], H2 as [->|H2].
    + reflexivity.
    + destruct (rowsFor_ids _ _ _ _ _ H2). cbn in E. lia.
    + destruct (rowsFor_ids _ _ _ _ _ H1). cbn in E. lia.
    + apply (IH _ H1 H2 E).
Qed.

Lemma rowsFor_app created testID qs1 qs2 : forall last,
  rowsFor created testID last (qs1 ++ qs2)
  = (rowsFor created testID last qs1
     ++ rowsFor created testID (last + llen qs1) qs2)%list.
Proof.
  induction qs1 as [|q qs1 IH]; intros last; cbn [rowsFor app].
  - unfold llen. cbn. rewrite Z.add_0_r. reflexivity.
  - rewrite IH. do 3 f_equal. unfold llen. cbn [length]. lia.
Qed.

Lemma CreateQuestion_valid d testID (q : QuestionData.t) :
  fault d = None -> validType q -> lastQuestionID d < maxInt ->
  exists d' q',
    CreateQuestion d testID (QuestionData.Text q) (QuestionData.Type_ q)
      (QuestionData.CorrectAnswer q) (QuestionData.Explanation q)
      (QuestionData.Options q) = (d', Ok q')
    /\ questions d'
       = (questions d ++ rowsFor (clock d) testID (lastQuestionID d) [q])%list
    /\ lastQuestionID d' = lastQuestionID d + 1
    /\ sameTests d d'.
Proof.
  intros Hfault Hty Hmax.
  destruct (CreateQuestion_succeeds d testID (QuestionData.Text q)
              (QuestionData.Type_ q) (QuestionData.CorrectAnswer q)
              (QuestionData.Explanation q) (QuestionData.Options q)
              Hfault Hty Hmax) as (d' & q' & E).
  exists d', q'. split; [exact E|].
  revert E. unfold CreateQuestion, insertId, next_id.
  rewrite Hfault at 1. unfold lastQuestionID in *.
  destruct (Z.ltb_spec (max_id (row_id <$> questions d) (seq_questions d))
              maxInt); [|lia].
  unfold validType in Hty. rewrite Hty.
  intros [= <- _]. cbn [questions seq_questions rowsFor].
  split; [reflexivity|]. split.
  - rewrite fmap_app. cbn. rewrite max_id_snoc.
    pose proof (max_id_ge_seq (row_id <$> questions d) (seq_questions d)).
    rewrite (max_id_seq _ (seq_questions d)
               (max_id (row_id <$> questions d) (seq_questions d) + 1));
      lia.
  - repeat split.
Qed.

Lemma createQuestions_valid testID qs : forall d,
  fault d = None -> Forall validType qs ->
  lastQuestionID d + llen qs <= maxInt ->
  exists d',
    createQuestions d testID qs = (d', None)
    /\ questions d'
       = (questions d ++ rowsFor (clock d) testID (lastQuestionID d) qs)%list
    /\ lastQuestionID d' = lastQuestionID d + llen qs
    /\ sameTests d d'.
Proof.
  induction qs as [|q qs IH]; intros d Hfault Hty Hmax.
  - exists d. cbn [createQuestions rowsFor]. rewrite app_nil_r.
    unfold llen. cbn. rewrite Z.add_0_r. repeat split.
  - apply Forall_cons in Hty as [Hq Hqs].
    assert (Hlen : llen (q :: qs) = 1 + llen qs).
    { unfold llen. cbn [length]. lia. }
    pose proof (llen_nonneg qs).
    destruct (CreateQuestion_valid d testID q Hfault Hq)
      as (d1 & q1 & E1 & Hrows1 & Hlast1 & Hsame1); [lia|].
    destruct Hsame1 as (Ht & Hst & Hr & Hsr & Hc & Hf).
    destruct (IH d1) as (d' & E' & Hrows' & Hlast' & Hsame');
      [congruence | exact Hqs | lia |].
    exists d'. cbn [createQuestions]. rewrite E1, E'.
    split; [reflexivity|]. split; [|split].
    + rewrite Hrows', Hrows1, Hc, Hlast1. cbn [rowsFor].
      rewrite <- app_assoc. reflexivity.
    + rewrite Hlast', Hlast1, Hlen. lia.
    + destruct Hsame' as (Ht' & Hst' & Hr' & Hsr' & Hc' & Hf').
      repeat split; congruence.
Qed.

(** X11. [createQuestions], the loop with which [saveCustomTest] and
    [generateQuestions] store the questions of a new test, stops at the
    first question whose type the table refuses: the error is returned,
    the questions before it stay stored, in order and under consecutive
    ids, and the questions after it are not tried.  Nothing is rolled
    back. *)
Theorem createQuestions_stops_at_first_refusal (d : DB) (testID : Z)
    (before after : list QuestionData.t) (q : QuestionData.t) :
  fault d = None ->
  Forall validType before -> ~ validType q ->
  lastQuestionID d + llen before < maxInt ->
  exists d',
    createQuestions d testID (before ++ q :: after)
    = (d', Some ("failed to create question: " ++ checkFailed))
    /\ questions d'
       = (questions d
          ++ rowsFor (clock d) testID (lastQuestionID d) before)%list
    /\ sameTests d d'.
Proof.
  revert d. induction before as [|q0 before IH];
    intros d Hfault Hvalid Hq Hmax.
  - exists d. cbn [app createQuestions rowsFor]. rewrite app_nil_r.
    unfold llen in Hmax. cbn in Hmax.
    unfold CreateQuestion, insertId, next_id. rewrite Hfault.
    unfold lastQuestionID in Hmax.
    destruct (Z.ltb_spec (max_id (row_id <$> questions d) (seq_questions d))
                maxInt); [|lia].
    unfold validType in Hq.
    destruct (validQuestionType (QuestionData.Type_ q)); [congruence|].
    repeat split.
  - apply Forall_cons in Hvalid as [Hq0 Hvalid].
    assert (Hlen : llen (q0 :: before) = 1 + llen before).
    { unfold llen. cbn [length]. lia. }
    pose proof (llen_nonneg before).
    destruct (CreateQuestion_valid d testID q0 Hfault Hq0)
      as (d1 & q1 & E1 & Hrows1 & Hlast1 & Hsame1); [lia|].
    destruct Hsame1 as (Ht & Hst & Hr & Hsr & Hc & Hf).
    destruct (IH d1) as (d' & E' & Hrows' & Hsame');
      [congruence | exact Hvalid | exact Hq | lia |].
    exists d'. cbn [app createQuestions]. rewrite E1, E'.
    split; [reflexivity|]. split.
    + rewrite Hrows', Hrows1, Hc, Hlast1. cbn [rowsFor].
      rewrite <- app_assoc. reflexivity.
    + destruct Hsame' as (Ht' & Hst' & Hr' & Hsr' & Hc' & Hf').
      repeat split; congruence.
Qed.

Lemma createQuestions_stops_at_first_refusal_witness :
  exists d',
    createQuestions workingDB 1 ([yesNo] ++ essay :: [yesNo])
    = (d', Some ("failed to create question: " ++ checkFailed))
    /\ length (questions d') = 1%nat.
Proof.
  destruct (createQuestions_stops_at_first_refusal workingDB 1 [yesNo]
              [yesNo] essay eq_refl) as (d' & E & Hrows & _).
  - repeat constructor.
  - unfold validType. vm_compute. discriminate.
  - vm_compute. reflexivity.
  - exists d'. split; [exact E|]. rewrite Hrows. reflexivity.
Defined.

Lemma merge_sort_sorted (l : list QuestionRow) :
  StronglySorted row_le l ->
  (forall r1 r2, r1 ∈ l -> r2 ∈ l -> row_id r1 = row_id r2 -> r1 = r2) ->
  merge_sort row_le l = l.
Proof.
  intros Hs Huniq.
  apply (Sorted_unique_strong row_le).
  - intros r1 r2 H1 H2 H12 H21. apply Huniq; [|exact H2|].
    + rewrite merge_sort_Permutation in H1. exact H1.
    + unfold row_le in *. lia.
  - apply Sorted_merge_sort. exact row_le_total.
  - apply StronglySorted_Sorted, Hs.
  - apply merge_sort_Permutation.
Qed.

Lemma filter_none {A} (p : A -> bool) (l : list A) :
  (forall x, x ∈ l -> p x = false) -> List.filter p l = [].
Proof.
  induction l as [|x l IH]; intros H; [reflexivity|]. cbn.
  rewrite (H x) by apply list_elem_of_here.
  apply IH. intros y Hy. apply H, list_elem_of_further, Hy.
Qed.

Lemma filter_all {A} (p : A -> bool) (l : list A) :
  (forall x, x ∈ l -> p x = true) -> List.filter p l = l.
Proof.
  induction l as [|x l IH]; intros H; [reflexivity|]. cbn.
  rewrite (H x) by apply list_elem_of_here. f_equal.
  apply IH. intros y Hy. apply H, list_elem_of_further, Hy.
Qed.

Lemma rowsFor_readsBack created testID qs : forall last,
  Forall2 (readsBack testID)
    (questionOfRow <$> rowsFor created testID last qs) qs.
Proof.
  induction qs as [|q qs IH]; intros last; cbn [rowsFor fmap list_fmap].
  - constructor.
  - constructor; [repeat split | apply IH].
Qed.

(** X12. Saving a custom test on a working database with rowids to spare
    stores the test under the name and description of the wizard and its
    questions in the order in which they were entered: read back with
    [GetQuestionsByTestID], the questions of the new test are exactly the
    questions of the wizard, one for one and in order, with their text,
    type, correct answer and explanation, and with the options as the
    stored text decodes.  The wizard is reset and the view is the main
    menu. *)
Theorem saveCustomTest_round_trip (a : App) :
  let m := customQuestion a in
  CustomQuestionModel.questions m <> [] ->
  fault (db a) = None -> knownTests (db a) ->
  Forall validType (CustomQuestionModel.questions m) ->
  lastTestID (db a) < maxInt ->
  lastQuestionID (db a) + llen (CustomQuestionModel.questions m) <= maxInt ->
  exists d' test qs,
    saveCustomTest a
    = (with_currentView MainMenuView
         (with_customQuestion NewCustomQuestionModel (with_db d' a)), NoCmd)
    /\ GetTest d' (Test.ID test) = Ok test
    /\ Test.Name test = CustomQuestionModel.testName m
    /\ Test.Description test = CustomQuestionModel.testDesc m
    /\ GetQuestionsByTestID d' (Test.ID test) = Ok qs
    /\ Forall2 (readsBack (Test.ID test)) qs (CustomQuestionModel.questions m).
Proof.
  intros m Hne Hfault Hknown Hvalid Hmaxt Hmaxq.
  destruct (CreateTest_fresh (db a)
              (CustomQuestionModel.testName m)
              (CustomQuestionModel.testDesc m) Hfault Hmaxt)
    as (t & Hct & Hname & Hdesc & Hid & Hfresh & Hget & _ & _).
  set (d1 := withTest t (db a)) in *.
  destruct (createQuestions_valid (Test.ID t)
              (CustomQuestionModel.questions m) d1)
    as (d' & Hcq & Hrows & _ & Hsame); [exact Hfault | exact Hvalid | exact Hmaxq |].
  destruct Hsame as (Ht & _ & _ & _ & _ & Hf).
  change (fault d1) with (fault (db a)) in Hf. rewrite Hfault in Hf.
  exists d', t. eexists. split; [|split; [|split; [|split; [|split]]]].
  - unfold saveCustomTest. fold m.
    destruct (llen (CustomQuestionModel.questions m) =? 0) eqn:E.
    { apply llen_zero in E. contradiction. }
    rewrite Hct. fold d1. rewrite Hcq. reflexivity.
  - revert Hget. unfold GetTest. rewrite Hf, Ht.
    change (fault d1) with (fault (db a)). rewrite Hfault. auto.
  - exact Hname.
  - exact Hdesc.
  - unfold GetQuestionsByTestID. rewrite Hf, Hrows. reflexivity.
  - change (questions d1) with (questions (db a)).
    change (clock d1) with (clock (db a)).
    rewrite List.filter_app.
    rewrite (filter_none _ (questions (db a))).
    2:{ intros r Hr. apply Z.eqb_neq. specialize (Hknown r Hr). lia. }
    rewrite (filter_all _ (rowsFor _ _ _ _)).
    2:{ intros r Hr. apply Z.eqb_eq. apply (rowsFor_ids _ _ _ _ _ Hr). }
    cbn [app]. rewrite merge_sort_sorted.
    + apply rowsFor_readsBack.
    + apply rowsFor_sorted.
    + apply rowsFor_NoDup_ids.
Qed.

Lemma saveCustomTest_round_trip_witness :
  exists d' test qs,
    saveCustomTest (reviewingTest [yesNo; yesNo] workingDB)
    = (with_currentView MainMenuView
         (with_customQuestion NewCustomQuestionModel
            (with_db d' (reviewingTest [yesNo; yesNo] workingDB))), NoCmd)
    /\ GetQuestionsByTestID d' (Test.ID test) = Ok qs
    /\ Forall2 (readsBack (Test.ID test)) qs [yesNo; yesNo].
Proof.
  destruct (saveCustomTest_round_trip (reviewingTest [yesNo; yesNo] workingDB))
    as (d' & test & qs & H1 & _ & _ & _ & H2 & H3).
  - discriminate.
  - reflexivity.
  - intros r Hr. apply elem_of_nil in Hr. contradiction.
  - repeat constructor.
  - vm_compute. reflexivity.
  - vm_compute. discriminate.
  - exists d', test, qs. auto.
Defined.

Import PdfText.

(** ** Text extraction *)

Lemma len_cons c s : len (String c s) = 1 + len s.
Proof. unfold len. cbn [String.length]. lia. Qed.

Lemma len_nonneg s : 0 <= len s.
Proof. unfold len. lia. Qed.

Lemma len_app a b : len (a ++ b) = len a + len b.
Proof.
  induction a as [|c a IH].
  - change ("" ++ b) with b. change (len "") with 0. lia.
  - rewrite append_cons, !len_cons, IH. lia.
Qed.

Lemma trimLeft_step s :
  Unicode.trimLeft s
  = if startsWithSpace s
    then match s with
         | String c s1 =>
             if isSpace c then Unicode.trimLeft s1
             else match s1 with
                  | String d s2 =>
                      if Unicode.isSpace2 c d then Unicode.trimLeft s2
                      else match s2 with
                           | String e s3 => Unicode.trimLeft s3
                           | EmptyString => s
                           end
                  | EmptyString => s
                  end
         | EmptyString => s
         end
    else s.
Proof.
  destruct s as [|c [|d [|e s3]]]; cbn [Unicode.trimLeft startsWithSpace];
    try reflexivity.
  - destruct (isSpace c); reflexivity.
  - destruct (isSpace c); [reflexivity|]. cbn [orb].
    destruct (Unicode.isSpace2 c d); reflexivity.
  - destruct (isSpace c); [reflexivity|]. cbn [orb].
    destruct (Unicode.isSpace2 c d); [reflexivity|]. cbn [orb].
    destruct (Unicode.isSpace3 c d e); reflexivity.
Qed.

Lemma trimLeft_shorter_aux n : forall s,
  (String.length s <= n)%nat ->
  (String.length (Unicode.trimLeft s) <= String.length s)%nat
  /\ (startsWithSpace s = true ->
      (String.length (Unicode.trimLeft s) < String.length s)%nat)
  /\ startsWithSpace (Unicode.trimLeft s) = false
  /\ (noLineFeed s = true -> noLineFeed (Unicode.trimLeft s) = true).
Proof.
  induction n as [|n IH]; intros s Hn.
  { destruct s; [|cbn in Hn; lia]. cbn.
    split; [lia|]. split; [discriminate|]. split; reflexivity. }
  rewrite trimLeft_step. destruct (startsWithSpace s) eqn:Es.
  2:{ repeat split; auto; discriminate. }
  assert (Hdrop : forall t,
            (String.length t < String.length s)%nat ->
            (noLineFeed s = true -> noLineFeed t = true) ->
            (String.length (Unicode.trimLeft t) <= String.length s)%nat
            /\ (true = true ->
                (String.length (Unicode.trimLeft t) < String.length s)%nat)
            /\ startsWithSpace (Unicode.trimLeft t) = false
            /\ (noLineFeed s = true ->
                noLineFeed (Unicode.trimLeft t) = true)).
  { intros t Ht Hlf. destruct (IH t ltac:(lia)) as (Hl & _ & Hs & Hlf').
    repeat split; auto; lia. }
  destruct s as [|c s1]; [discriminate|].
  assert (Hlf1 : noLineFeed (String c s1) = true -> noLineFeed s1 = true).
  { cbn [noLineFeed]. intros H. apply andb_true_iff in H as [_ H]. exact H. }
  destruct (isSpace c) eqn:Ec.
  { apply Hdrop; [cbn; lia | exact Hlf1]. }
  destruct s1 as [|d s2].
  { cbn in Es. rewrite Ec in Es. discriminate. }
  assert (Hlf2 : noLineFeed (String c (String d s2)) = true ->
                 noLineFeed s2 = true).
  { intros H. apply Hlf1 in H. cbn [noLineFeed] in H.
    apply andb_true_iff in H as [_ H]. exact H. }
  destruct (Unicode.isSpace2 c d) eqn:E2.
  { apply Hdrop; [cbn; lia | exact Hlf2]. }
  destruct s2 as [|e s3].
  { cbn in Es. rewrite Ec, E2 in Es. discriminate. }
  apply Hdrop; [cbn; lia|].
  intros H. apply Hlf2 in H. cbn [noLineFeed] in H.
  apply andb_true_iff in H as [_ H]. exact H.
Qed.

Lemma trimLeft_fixed s :
  Unicode.trimLeft s = s <-> startsWithSpace s = false.
Proof.
  split.
  - intros H. rewrite <- H.
    apply (trimLeft_shorter_aux (String.length s) s (Nat.le_refl _)).
  - intros H. rewrite trimLeft_step, H. reflexivity.
Qed.

Lemma trimLeft_idem s : Unicode.trimLeft (Unicode.trimLeft s) = Unicode.trimLeft s.
Proof.
  apply trimLeft_fixed.
  apply (trimLeft_shorter_aux (String.length s) s (Nat.le_refl _)).
Qed.

Lemma trimLeft_noLineFeed s :
  noLineFeed s = true -> noLineFeed (Unicode.trimLeft s) = true.
Proof. apply (trimLeft_shorter_aux (String.length s) s (Nat.le_refl _)). Qed.

Lemma trimRight_noLineFeed s :
  noLineFeed s = true -> noLineFeed (Unicode.trimRight s) = true.
Proof.
  induction s as [|c s IH]; [reflexivity|].
  cbn [noLineFeed Unicode.trimRight]. intros H.
  apply andb_true_iff in H as [Hc Hs].
  destruct (Unicode.isSpaceRune _); [reflexivity|].
  cbn [noLineFeed]. rewrite Hc, (IH Hs). reflexivity.
Qed.

Lemma trimRight_idem s :
  Unicode.trimRight (Unicode.trimRight s) = Unicode.trimRight s.
Proof.
  induction s as [|c s IH]; [reflexivity|]. cbn [Unicode.trimRight].
  destruct (Unicode.isSpaceRune (String c (Unicode.trimRight s))) eqn:E;
    [reflexivity|].
  cbn [Unicode.trimRight]. rewrite IH, E. reflexivity.
Qed.

Lemma trimRight_prefix s : exists r, s = Unicode.trimRight s ++ r.
Proof.
  induction s as [|c s [r IH]]; [exists ""; reflexivity|].
  cbn [Unicode.trimRight]. destruct (Unicode.isSpaceRune _).
  - exists (String c s). reflexivity.
  - exists r. rewrite append_cons, <- IH. reflexivity.
Qed.

Lemma startsWithSpace_app p r :
  startsWithSpace p = true -> startsWithSpace (p ++ r) = true.
Proof.
  destruct p as [|c [|d [|e p]]]; cbn [startsWithSpace]; try discriminate.
  - rewrite orb_false_r. intros H.
    change (String c "" ++ r) with (String c r).
    cbn [startsWithSpace]. rewrite H. reflexivity.
  - rewrite orb_false_r. intros H.
    change (String c (String d "") ++ r) with (String c (String d r)).
    cbn [startsWithSpace]. apply orb_true_iff in H as [H|H]; rewrite H.
    + reflexivity.
    + rewrite orb_true_r. reflexivity.
  - intros H.
    change (String c (String d (String e p)) ++ r)
      with (String c (String d (String e (p ++ r)))).
    cbn [startsWithSpace]. exact H.
Qed.

Lemma trimLeft_trimRight s :
  Unicode.trimLeft s = s ->
  Unicode.trimLeft (Unicode.trimRight s) = Unicode.trimRight s.
Proof.
  rewrite !trimLeft_fixed. intros H.
  destruct (startsWithSpace (Unicode.trimRight s)) eqn:E; [|reflexivity].
  destruct (trimRight_prefix s) as [r Hr].
  rewrite Hr, (startsWithSpace_app _ r E) in H. discriminate.
Qed.

Lemma TrimSpace_trimmed s :
  Unicode.trimLeft (Unicode.TrimSpace s) = Unicode.TrimSpace s
  /\ Unicode.trimRight (Unicode.TrimSpace s) = Unicode.TrimSpace s.
Proof.
  unfold Unicode.TrimSpace. split.
  - apply trimLeft_trimRight, trimLeft_idem.
  - apply trimRight_idem.
Qed.

Lemma solid_TrimSpace s : solid s -> Unicode.TrimSpace s = s.
Proof. intros (Hl & Hr & _). unfold Unicode.TrimSpace. rewrite Hl. exact Hr. Qed.

Lemma trimLeft_app s r :
  Unicode.trimLeft s = s -> 3 <= len s -> Unicode.trimLeft (s ++ r) = s ++ r.
Proof.
  rewrite !trimLeft_fixed. intros H Hlen.
  destruct s as [|c [|d [|e s]]];
    try (unfold len in Hlen; cbn in Hlen; lia).
  rewrite !append_cons. exact H.
Qed.

Lemma isSpaceRune_long s : 3 < len s -> Unicode.isSpaceRune s = false.
Proof.
  intros H. destruct s as [|c [|d [|e [|f s]]]];
    try (unfold len in H; cbn in H; lia). reflexivity.
Qed.

Lemma trimRight_app p s :
  Unicode.trimRight s = s -> 3 <= len s ->
  Unicode.trimRight (p ++ s) = p ++ s.
Proof.
  intros H Hlen. induction p as [|c p IH]; [exact H|].
  rewrite append_cons. cbn [Unicode.trimRight]. rewrite IH.
  rewrite isSpaceRune_long; [reflexivity|].
  rewrite len_cons, len_app. pose proof (len_nonneg p). lia.
Qed.

Lemma solid_app a m b : solid a -> solid b -> solid (a ++ m ++ b).
Proof.
  intros (Hla & Hra & Ha) (Hlb & Hrb & Hb). split; [|split].
  - apply trimLeft_app; assumption.
  - rewrite <- append_assoc. apply trimRight_app; assumption.
  - rewrite !len_app. pose proof (len_nonneg m). lia.
Qed.

Lemma Join_cons e e' rest sep :
  Join (e :: e' :: rest) sep = e ++ sep ++ Join (e' :: rest) sep.
Proof. reflexivity. Qed.

Lemma Join_solid elems sep :
  Forall solid elems -> elems <> [] -> solid (Join elems sep).
Proof.
  induction elems as [|e [|e' rest] IH]; intros Hall Hne.
  - contradiction.
  - apply Forall_cons in Hall as [He _]. exact He.
  - apply Forall_cons in Hall as [He Hrest]. rewrite Join_cons.
    apply solid_app; [exact He|]. apply IH; [exact Hrest | discriminate].
Qed.

Lemma noLineFeed_app a b :
  noLineFeed (a ++ b) = noLineFeed a && noLineFeed b.
Proof.
  induction a as [|c a IH]; [reflexivity|].
  rewrite append_cons. cbn [noLineFeed]. rewrite IH, andb_assoc. reflexivity.
Qed.

Lemma Join_noLineFeed elems :
  Forall (fun e => noLineFeed e = true) elems ->
  noLineFeed (Join elems " ") = true.
Proof.
  induction elems as [|e [|e' rest] IH]; intros Hall.
  - reflexivity.
  - apply Forall_cons in Hall as [He _]. exact He.
  - apply Forall_cons in Hall as [He Hrest]. rewrite Join_cons.
    rewrite !noLineFeed_app, He, (IH Hrest). reflexivity.
Qed.

Lemma splitLines_noLineFeed text :
  Forall (fun e => noLineFeed e = true) (splitLines text).
Proof.
  induction text as [|c text IH]; cbn [splitLines].
  - repeat constructor.
  - destruct (Ascii.eqb c lineFeed) eqn:E.
    + constructor; [reflexivity | exact IH].
    + destruct (splitLines text) as [|line lines].
      * repeat constructor. cbn. rewrite E. reflexivity.
      * apply Forall_cons in IH as [Hl Hls]. constructor; [|exact Hls].
        cbn [noLineFeed]. rewrite E, Hl. reflexivity.
Qed.

Lemma splitLines_single text :
  noLineFeed text = true -> splitLines text = [text].
Proof.
  induction text as [|c text IH]; [reflexivity|]. cbn [noLineFeed splitLines].
  intros H. apply andb_true_iff in H as [Hc Ht].
  apply negb_true_iff in Hc. rewrite Hc, (IH Ht). reflexivity.
Qed.

Lemma cleanedLines_spec lines :
  Forall (fun e => noLineFeed e = true) lines ->
  Forall (fun e => solid e /\ noLineFeed e = true) (cleanedLines lines).
Proof.
  induction lines as [|line lines IH]; intros Hall; cbn [cleanedLines].
  - constructor.
  - apply Forall_cons in Hall as [Hl Hls]. specialize (IH Hls).
    destruct (String.eqb _ ""); [exact IH|].
    destruct (Z.ltb_spec (len (Unicode.TrimSpace line)) 3); [exact IH|].
    constructor; [|exact IH]. split.
    + destruct (TrimSpace_trimmed line) as [H1 H2]. repeat split; assumption.
    + unfold Unicode.TrimSpace.
      apply trimRight_noLineFeed, trimLeft_noLineFeed, Hl.
Qed.

Lemma cleanText_cases text :
  noLineFeed (cleanText text) = true
  /\ (cleanText text = "" \/ solid (cleanText text)).
Proof.
  unfold cleanText.
  pose proof (cleanedLines_spec _ (splitLines_noLineFeed text)) as H.
  split.
  - apply Join_noLineFeed. eapply Forall_impl; [exact H|].
    intros e [_ He]. exact He.
  - destruct (cleanedLines (splitLines text)) as [|e es] eqn:E;
      [left; reflexivity | right].
    apply Join_solid; [|discriminate].
    eapply Forall_impl; [exact H|]. intros e' [He' _]. exact He'.
Qed.

Lemma solid_nonempty s : solid s -> s <> "".
Proof. intros (_ & _ & H) ->. unfold len in H. cbn in H. lia. Qed.

(** X13. The text that [cleanText] returns is a single line: it holds no
    line feed and no white space at either end, Unicode white space
    included, and it is empty or at least three bytes long.  Cleaning it
    again changes nothing. *)
Theorem cleanText_gives_one_clean_line (text : string) :
  noLineFeed (cleanText text) = true
  /\ Unicode.TrimSpace (cleanText text) = cleanText text
  /\ (cleanText text = "" \/ 3 <= len (cleanText text))
  /\ cleanText (cleanText text) = cleanText text.
Proof.
  destruct (cleanText_cases text) as [Hlf [Hempty|Hsolid]].
  - rewrite Hempty. repeat split; auto.
  - pose proof (solid_TrimSpace _ Hsolid) as Htrim.
    split; [exact Hlf|]. split; [exact Htrim|].
    split; [right; apply Hsolid|].
    unfold cleanText at 1. rewrite (splitLines_single _ Hlf).
    cbn [cleanedLines]. rewrite Htrim.
    destruct (String.eqb_spec (cleanText text) "") as [E|_].
    { exfalso. apply (solid_nonempty _ Hsolid E). }
    destruct (Z.ltb_spec (len (cleanText text)) 3) as [Hlt|_].
    { destruct Hsolid as (_ & _ & H3). lia. }
    reflexivity.
Qed.

Lemma writePages_spec pages : forall builder,
  writePages pages builder
  = builder ++ match cleanedPages pages with
               | [] => ""
               | cs => Join cs separator ++ separator
               end.
Proof.
  induction pages as [|[pageText|] pages IH]; intros builder;
    cbn [writePages cleanedPages].
  - rewrite append_empty_r. reflexivity.
  - destruct (String.eqb (cleanText pageText) ""); cbn [negb]; [apply IH|].
    rewrite IH. rewrite !append_assoc. f_equal.
    destruct (cleanedPages pages) as [|c cs].
    + rewrite append_empty_r. reflexivity.
    + rewrite Join_cons, !append_assoc. reflexivity.
  - apply IH.
Qed.

Lemma cleanedPages_solid pages : Forall solid (cleanedPages pages).
Proof.
  induction pages as [|[pageText|] pages IH]; cbn [cleanedPages];
    [constructor | | exact IH].
  destruct (String.eqb_spec (cleanText pageText) "") as [E|Hne]; [exact IH|].
  constructor; [|exact IH].
  destruct (cleanText_cases pageText) as [_ [H|H]]; [contradiction | exact H].
Qed.

Lemma trimRight_snoc_space s c :
  isSpace c = true ->
  Unicode.trimRight (s ++ String c "") = Unicode.trimRight s.
Proof.
  intros Hc. induction s as [|x s IH].
  - change ("" ++ String c "") with (String c "").
    cbn [Unicode.trimRight Unicode.isSpaceRune]. rewrite Hc. reflexivity.
  - rewrite append_cons. cbn [Unicode.trimRight]. rewrite IH. reflexivity.
Qed.

Lemma TrimSpace_separator s :
  solid s -> Unicode.TrimSpace (s ++ separator) = s.
Proof.
  intros (Hl & Hr & Hlen). unfold Unicode.TrimSpace.
  rewrite (trimLeft_app s separator Hl Hlen).
  unfold separator.
  change (String lineFeed (String lineFeed ""))
    with (String lineFeed "" ++ String lineFeed "").
  rewrite <- append_assoc.
  rewrite !trimRight_snoc_space by reflexivity. exact Hr.
Qed.

(** X14. [ExtractText] fails when the document cannot be opened and when
    no page yields a cleaned text that is not empty.  Otherwise it returns
    the cleaned texts of the pages that have one, in page order, joined by
    blank lines, with nothing before the first and nothing after the
    last: the result is never empty and carries no white space at either
    end. *)
Theorem ExtractText_joins_cleaned_pages (doc : Document) :
  match doc with
  | Err err => ExtractText doc = Err ("failed to open PDF file: " ++ err)
  | Ok pages =>
      match cleanedPages pages with
      | [] =>
          ExtractText doc = Err "no text could be extracted from the PDF"
      | cs =>
          ExtractText doc = Ok (Join cs separator)
          /\ Join cs separator <> ""
          /\ Unicode.TrimSpace (Join cs separator) = Join cs separator
      end
  end.
Proof.
  destruct doc as [pages|err]; [|reflexivity].
  unfold ExtractText. rewrite writePages_spec.
  pose proof (cleanedPages_solid pages) as Hsolid.
  destruct (cleanedPages pages) as [|c cs] eqn:E; [reflexivity|].
  assert (Hj : solid (Join (c :: cs) separator)).
  { apply Join_solid; [exact Hsolid | discriminate]. }
  change ("" ++ (Join (c :: cs) separator ++ separator))
    with (Join (c :: cs) separator ++ separator).
  split; [|split].
  - destruct (String.eqb_spec (Join (c :: cs) separator ++ separator) "")
      as [E0|_].
    + exfalso. apply (f_equal len) in E0. rewrite len_app in E0.
      destruct Hj as (_ & _ & H3). pose proof (len_nonneg separator).
      change (len "") with 0 in E0. lia.
    + rewrite (TrimSpace_separator _ Hj). reflexivity.
  - apply solid_nonempty, Hj.
  - apply solid_TrimSpace, Hj.
Qed.

(** ** Text summaries: length *)

Lemma len_take n s :
  (n <= String.length s)%nat -> len (take n s) = Z.of_nat n.
Proof.
  revert s. induction n as [|n IH]; intros s Hn.
  - destruct s; reflexivity.
  - destruct s as [|c s]; [cbn in Hn; lia|].
    cbn [take]. rewrite len_cons, IH by (cbn in Hn; lia). lia.
Qed.

(** X15. For a limit that is not negative [GetTextSummary] never
    panics.  A text within the limit is returned as it is; a longer text
    is cut at a position less than 50 below the limit and followed by
    three periods, so the summary is never longer than the limit plus
    three bytes. *)
Theorem GetTextSummary_is_bounded (text : string) (maxLength : Z) :
  0 <= maxLength ->
  exists summary,
    Pdf.GetTextSummary text maxLength = Done summary
    /\ len summary <= maxLength + 3
    /\ (len text <= maxLength -> summary = text)
    /\ (maxLength < len text ->
        exists cut,
          summary = take (Z.to_nat cut) text ++ "..."
          /\ 0 <= cut <= maxLength /\ maxLength - 50 < cut
          /\ len summary = cut + 3).
Proof.
  intros Hm. destruct (Z.le_gt_cases (len text) maxLength) as [Hshort|Hlong].
  - exists text. split; [|split; [lia|split; [reflexivity | lia]]].
    unfold Pdf.GetTextSummary.
    destruct (Z.leb_spec (len text) maxLength); [reflexivity | lia].
  - destruct (GetTextSummary_long text maxLength ltac:(lia))
      as (bp & Hsum & Hcases).
    assert (Hbp : 0 <= bp <= maxLength /\ maxLength - 50 < bp).
    { destruct Hcases as [([Hr Hp] & _)|(-> & _)]; lia. }
    assert (Hlen : len (take (Z.to_nat bp) text ++ "...") = bp + 3).
    { rewrite len_app, len_take by (unfold len in Hlong; lia).
      change (len "...") with 3. lia. }
    eexists. split; [exact Hsum|]. split; [lia|]. split; [lia|].
    intros _. exists bp. repeat split; lia.
Qed.

Lemma GetTextSummary_is_bounded_witness :
  exists summary,
    Pdf.GetTextSummary "The quick brown fox" 9 = Done summary
    /\ len summary <= 12.
Proof.
  destruct (GetTextSummary_is_bounded "The quick brown fox" 9 ltac:(lia))
    as (summary & H1 & H2 & _).
  exists summary. split; [exact H1 | exact H2].
Defined.

(** ** The main menu *)

Ltac menu_cases :=
  unfold updateMainMenu, handleMainMenuSelection;
  repeat match goal with
    | |- context [if ?b then _ else _] => destruct b eqn:?
    end.

Lemma updateMainMenu_frame a msg :
  let a' := fst (updateMainMenu a msg) in
  db a' = db a /\ testTaking a' = testTaking a
  /\ currentQuestions a' = currentQuestions a
  /\ userAnswers a' = userAnswers a
  /\ customQuestion a' = customQuestion a /\ pdfProcess a' = pdfProcess a.
Proof.
  destruct msg as [key|]; [|cbn; repeat split].
  menu_cases; cbn; repeat split.
Qed.

Lemma updateMainMenu_cursor a msg :
  MainMenuModel.choices (mainMenu a) = MainMenuModel.choices NewMainMenuModel ->
  0 <= MainMenuModel.cursor (mainMenu a) <= 4 ->
  0 <= MainMenuModel.cursor (mainMenu (fst (updateMainMenu a msg))) <= 4.
Proof.
  intros Hch Hc. destruct msg as [key|]; [|exact Hc].
  unfold updateMainMenu. rewrite Hch.
  change (llen (MainMenuModel.choices NewMainMenuModel) - 1) with 4.
  menu_cases; cbn; zbool; lia.
Qed.

Lemma updateMainMenu_quit a msg :
  snd (updateMainMenu a msg) = Quit <->
  msg = KeyMsg "q"
  \/ (selects msg /\ MainMenuModel.cursor (mainMenu a) = 4).
Proof.
  unfold selects. destruct msg as [key|].
  2:{ cbn. split; [discriminate|]. intros [H|[[H|H] _]]; discriminate. }
  unfold updateMainMenu.
  destruct (keyIs key ["q"]) eqn:Eq.
  { apply keyIs_one in Eq. subst key. cbn. split; auto. }
  assert (Hq : key <> "q") by (intros ->; discriminate).
  destruct (keyIs key ["up"; "k"]) eqn:Eu.
  { apply keyIs_two in Eu. cbn [snd]. split; [discriminate|].
    intros [H|[[H|H] _]]; injection H as ->; destruct Eu; congruence. }
  destruct (keyIs key ["down"; "j"]) eqn:Ed.
  { apply keyIs_two in Ed. cbn [snd]. split; [discriminate|].
    intros [H|[[H|H] _]]; injection H as ->; destruct Ed; congruence. }
  destruct (keyIs key ["enter"; " "]) eqn:Ee.
  2:{ cbn [snd]. split; [discriminate|].
      intros [H|[[H|H] _]]; injection H as ->;
        [congruence | discriminate Ee | discriminate Ee]. }
  apply keyIs_two in Ee.
  assert (Hsel : KeyMsg key = KeyMsg "enter" \/ KeyMsg key = KeyMsg " ").
  { destruct Ee as [->| ->]; auto. }
  unfold handleMainMenuSelection.
  repeat match goal with
    | |- context [if ?b then _ else _] => destruct b eqn:?
    end; cbn [snd]; zbool;
    (split; [intros Hx | intros [H|[_ H]]]);
    try discriminate; try congruence; try lia; try reflexivity;
    right; split; [exact Hsel | lia].
Qed.

(** X16. The main menu asks the program to quit exactly on [q] and on
    Enter or space with the cursor on the last entry, and then leaves the
    state as it is.  Whatever the message, the handler leaves the
    database, the test in progress with its questions and answers, and
    both wizards as they are; with the cursor on one of the five entries
    it keeps it there. *)
Theorem main_menu_quits_only_on_request (a : App) (msg : Msg) :
  let a' := fst (updateMainMenu a msg) in
  let c := MainMenuModel.cursor (mainMenu a) in
  (snd (updateMainMenu a msg) = Quit <->
   msg = KeyMsg "q" \/ (selects msg /\ c = 4))
  /\ (snd (updateMainMenu a msg) = Quit -> a' = a)
  /\ db a' = db a /\ testTaking a' = testTaking a
  /\ currentQuestions a' = currentQuestions a
  /\ userAnswers a' = userAnswers a
  /\ customQuestion a' = customQuestion a /\ pdfProcess a' = pdfProcess a
  /\ (MainMenuModel.choices (mainMenu a) = MainMenuModel.choices NewMainMenuModel ->
      0 <= c <= 4 -> 0 <= MainMenuModel.cursor (mainMenu a') <= 4).
Proof.
  intros a' c. subst a' c.
  split; [apply updateMainMenu_quit|]. split.
  - destruct msg as [key|]; [|reflexivity].
    menu_cases; cbn; try discriminate; reflexivity.
  - pose proof (updateMainMenu_frame a msg) as (H1 & H2 & H3 & H4 & H5 & H6).
    repeat (split; [assumption|]).
    apply updateMainMenu_cursor.
Qed.

(** ** The custom-question wizard: the questions it collects *)

Lemma confirmCustomInput_sameQuestions m m' stay :
  confirmCustomInput m = Done (m', stay) -> sameQuestions m m'.
Proof.
  unfold confirmCustomInput, store. intros H.
  repeat match type of H with
    | context [mbind _ ?x] => destruct x; cbn [mbind result_bind] in H
    | context [if ?b then _ else _] => destruct b
    | context [match ?x with _ => _ end] => destruct x
    end;
    try discriminate; injection H as <- <-; repeat split.
Qed.

Lemma wizardOK_same m m' :
  wizardOK m -> customOK m' -> sameQuestions m m' -> wizardOK m'.
Proof.
  intros (_ & Hidx & Hall) Hc (Eq & Ety & Eti & Eqt).
  split; [exact Hc|]. rewrite Eq, Ety, Eti, Eqt. auto.
Qed.

Lemma validType_of_index m :
  customOK m ->
  index (CustomQuestionModel.questionTypes m) (CustomQuestionModel.typeIndex m)
  = Done (CurrentQuestion.qType (CustomQuestionModel.currentQuestion m)) ->
  validQuestionType
    (CurrentQuestion.qType (CustomQuestionModel.currentQuestion m)) = true.
Proof.
  intros (Hty & _) Hidx. rewrite Hty in Hidx. unfold index in Hidx.
  destruct (_ <? 0); [discriminate|].
  destruct (_ !! _) as [ty|] eqn:E; [|discriminate].
  injection Hidx as <-. apply list_elem_of_lookup_2 in E.
  rewrite !elem_of_cons, elem_of_nil in E.
  destruct E as [->|[->|[->|[]]]]; reflexivity.
Qed.

Lemma saveCurrentQuestion_wizardOK a :
  wizardOK (customQuestion a) ->
  CustomQuestionModel.inputMode (customQuestion a) = "" ->
  wizardOK (customQuestion (fst (saveCurrentQuestion a))).
Proof.
  intros Hw Hmode. pose proof Hw as (Hc & Hidx & Hall).
  pose proof (saveCurrentQuestion_customOK a Hc Hmode) as Hc'.
  pose proof (validType_of_index _ Hc Hidx) as Hvalid.
  revert Hc'. unfold saveCurrentQuestion.
  destruct (String.eqb_spec
              (TrimSpace (CurrentQuestion.text
                 (CustomQuestionModel.currentQuestion (customQuestion a)))) "")
    as [_|Htext].
  { cbn. intros Hc'. split; [exact Hc' | split; assumption]. }
  destruct (String.eqb_spec
              (TrimSpace (CurrentQuestion.correctAnswer
                 (CustomQuestionModel.currentQuestion (customQuestion a)))) "")
    as [_|Hans].
  { cbn. intros Hc'. split; [exact Hc' | split; assumption]. }
  destruct (_ && _) eqn:Eopt.
  { cbn. intros Hc'. split; [exact Hc' | split; assumption]. }
  cbn. intros Hc'. split; [exact Hc'|]. split; [exact Hidx|].
  apply Forall_app. split; [exact Hall|]. constructor; [|constructor].
  unfold wellFormed, validType. cbn.
  repeat split; try assumption; try apply TrimSpace_idem.
  intros Emc. rewrite Emc, String.eqb_refl in Eopt. cbn [andb] in Eopt.
  apply Z.ltb_ge in Eopt. exact Eopt.
Qed.

Lemma cycleQuestionType_wizardOK m :
  wizardOK m -> CustomQuestionModel.inputMode m = "" ->
  exists m', cycleQuestionType m = Done m' /\ wizardOK m'.
Proof.
  intros (Hc & Hidx & Hall) Hmode.
  destruct (cycleQuestionType_customOK m Hc Hmode) as (m' & Hm & Hc').
  exists m'. split; [exact Hm|]. split; [exact Hc'|].
  clear Hidx. revert Hm. unfold cycleQuestionType.
  destruct (llen _ =? 0); [discriminate|].
  destruct (index _ (Z.rem _ _)) as [ty|] eqn:E; [|discriminate].
  cbn [mbind result_bind]. intros Heq. injection Heq as Heq. subst m'.
  cbn. split; [exact E | exact Hall].
Qed.

Lemma wizardOK_New : wizardOK NewCustomQuestionModel.
Proof.
  split; [apply customOK_New|]. split; [reflexivity | constructor].
Qed.

(** A wizard model built from one in order by changing neither the
    questions nor the type of the question in progress. *)
Ltac wizard_frame Hw :=
  let Hc := fresh "Hc" in let Hi := fresh "Hi" in let Ha := fresh "Ha" in
  pose proof Hw as (Hc & Hi & Ha);
  refine (conj _ (conj _ _)); [custom_frame Hc | exact Hi | exact Ha].

(** X17. The custom-question wizard never panics and collects
    well-formed questions only: after any message the wizard is in order
    and each collected question has a type that the questions table
    accepts, a text and a correct answer that are not empty, no
    surrounding white space in text, answer and explanation, and, for
    multiple choice, at least two options that are not blank. *)
Theorem wizard_collects_well_formed_questions (a : App) (msg : Msg) :
  wizardOK (customQuestion a) ->
  returns (updateCustomQuestion a msg)
    (fun a' => wizardOK (customQuestion a')).
Proof.
  intros Hw. pose proof Hw as (Hc & Hidx & Hall).
  assert (Hkeep : returns (Done (a, NoCmd))
                    (fun a' => wizardOK (customQuestion a'))).
  { apply returns_Done, Hw. }
  unfold updateCustomQuestion.
  destruct msg as [key|]; [|exact Hkeep].
  destruct (String.eqb_spec
              (CustomQuestionModel.inputMode (customQuestion a)) "")
    as [Hmode|_]; cbn [negb].
  2:{ unfold handleCustomQuestionInput.
      destruct (keyIs key ["enter"]).
      { destruct (confirmCustomInput_customOK _ Hc) as (m' & stay & Hm & Hc').
        pose proof (confirmCustomInput_sameQuestions _ _ _ Hm) as Hsame.
        rewrite Hm. cbn [mbind result_bind]. apply returns_Done. cbn.
        apply (wizardOK_same (customQuestion a)); [exact Hw | exact Hc' |].
        destruct stay; [exact Hsame|].
        destruct Hsame as (E1 & E2 & E3 & E4). repeat split; assumption. }
      destruct (keyIs key ["esc"]); [apply returns_Done; cbn; wizard_frame Hw|].
      destruct (keyIs key ["backspace"]).
      { destruct (_ >? 0); [|exact Hkeep].
        apply returns_Done; cbn; wizard_frame Hw. }
      destruct (_ =? 1); [|exact Hkeep].
      apply returns_Done; cbn; wizard_frame Hw. }
  destruct (_ =? 0).
  { apply returns_pair. unfold handleTestInfoStep.
    repeat match goal with
      | |- context [if ?b then _ else _] => destruct b
      end; cbn [fst customQuestion with_customQuestion]; try exact Hw;
      wizard_frame Hw. }
  destruct (_ =? 1).
  { unfold handleQuestionCreationStep.
    destruct (keyIs key ["up"; "k"]).
    { destruct (_ >? 0); [|exact Hkeep].
      apply returns_Done; cbn; wizard_frame Hw. }
    destruct (keyIs key ["down"; "j"]).
    { destruct (_ <? 4); [|exact Hkeep].
      apply returns_Done; cbn; wizard_frame Hw. }
    destruct (keyIs key ["t"]).
    { destruct (_ =? 0); [|exact Hkeep].
      destruct (cycleQuestionType_wizardOK _ Hw Hmode) as (m' & Hm & Hw').
      rewrite Hm. cbn [mbind result_bind]. apply returns_Done. exact Hw'. }
    destruct (keyIs key ["q"]).
    { destruct (_ =? 1); [|exact Hkeep].
      apply returns_Done; cbn; wizard_frame Hw. }
    destruct (keyIs key ["o"]).
    { destruct ((_ =? 2) && _) eqn:E; [|exact Hkeep].
      apply andb_true_iff in E as [_ E]. apply String.eqb_eq in E.
      pose proof Hc as (_ & _ & Hmc & _).
      destruct (index_in_range
                  (CurrentQuestion.options
                     (CustomQuestionModel.currentQuestion (customQuestion a)))
                  0) as (o & Ho & _).
      { unfold llen. rewrite (Hmc E). lia. }
      rewrite Ho. cbn [mbind result_bind]. apply returns_Done. cbn.
      refine (conj _ (conj Hidx Hall)).
      pose proof Hc as (H1 & H2 & H3 & H4).
      refine (conj _ (conj _ (conj _ _))); cbn; try assumption.
      intros _. split; [exact E | lia]. }
    destruct (keyIs key ["a"]).
    { destruct (_ =? 3); [|exact Hkeep].
      apply returns_Done; cbn; wizard_frame Hw. }
    destruct (keyIs key ["e"]).
    { destruct (_ =? 4); [|exact Hkeep].
      apply returns_Done; cbn; wizard_frame Hw. }
    destruct (keyIs key ["s"]).
    { apply returns_pair. apply saveCurrentQuestion_wizardOK; assumption. }
    destruct (keyIs key ["f"]); [|exact Hkeep].
    apply returns_Done. cbn. destruct (_ >? 0); wizard_frame Hw. }
  destruct (_ =? 2); [|exact Hkeep].
  apply returns_pair. unfold handleReviewStep.
  destruct (keyIs key ["enter"; " "]).
  { unfold saveCustomTest.
    destruct (llen _ =? 0); [cbn; wizard_frame Hw|].
    destruct (CreateTest _ _ _) as [d [test|err]]; [|cbn; wizard_frame Hw].
    destruct (createQuestions _ _ _) as [d' [err|]]; cbn;
      [wizard_frame Hw | apply wizardOK_New]. }
  destruct (keyIs key ["b"]); cbn; [wizard_frame Hw | exact Hw].
Qed.

Lemma wizard_collects_well_formed_questions_witness :
  returns (updateCustomQuestion (creating (capitalQuestion ["Paris"; "Rome"; ""; ""]))
             (KeyMsg "s"))
    (fun a' => wizardOK (customQuestion a')).
Proof.
  apply (wizard_collects_well_formed_questions
           (creating (capitalQuestion ["Paris"; "Rome"; ""; ""]))
           (KeyMsg "s")).
  split; [|split; [reflexivity | constructor]].
  unfold customOK. cbn. repeat split; try lia; discriminate.
Defined.

(** ** Deleting a test from the list *)

Lemma index_middle {A} (before after : list A) (x : A) :
  index (before ++ x :: after)%list (llen before) = Done x.
Proof.
  unfold index, llen. destruct (Z.ltb_spec (Z.of_nat (List.length before)) 0); [lia|].
  rewrite Nat2Z.id, list_lookup_middle by reflexivity. reflexivity.
Qed.

Lemma remove_middle {A} (before after : list A) (x : A) :
  remove (before ++ x :: after)%list (llen before)
  = Done (before ++ after)%list.
Proof.
  unfold remove, llen. rewrite List.length_app. cbn [List.length].
  destruct (Z.leb_spec 0 (Z.of_nat (List.length before))); [|lia].
  destruct (Z.leb_spec (Z.of_nat (List.length before) + 1)
              (Z.of_nat (List.length before + S (List.length after)))); [|lia].
  cbn [andb]. f_equal.
  replace (Z.to_nat (Z.of_nat (List.length before) + 1)) with (S (List.length before))
    by lia.
  rewrite Nat2Z.id.
  rewrite firstn_app, Nat.sub_diag, firstn_all. cbn [firstn].
  rewrite app_nil_r. f_equal.
  rewrite skipn_app, skipn_all2 by lia.
  replace (S (List.length before) - List.length before)%nat with 1%nat by lia.
  reflexivity.
Qed.

(** X18. Pressing [d] on the list of tests deletes the test under the
    cursor from the database and, when the database accepts, removes
    that entry alone from the list on screen, which is not read again:
    the entries before and after keep their order, the cursor stays where
    it is, on the entry that followed, and moves up by one when the last
    entry was the one removed.  When the database refuses, the list and
    the cursor are as they were and the error is shown. *)
Theorem deleting_a_test_removes_its_entry (w : World) (a : App)
    (before after : list Test.t) (t : Test.t) :
  TestSelectionModel.loading (testSelection a) = false ->
  TestSelectionModel.tests (testSelection a) = (before ++ t :: after)%list ->
  TestSelectionModel.cursor (testSelection a) = llen before ->
  exists a',
    updateTestSelection w a (KeyMsg "d") = Done (a', NoCmd)
    /\ db a' = fst (DeleteTest w (db a) (Test.ID t))
    /\ currentView a' = currentView a
    /\ match snd (DeleteTest w (db a) (Test.ID t)) with
       | None =>
           TestSelectionModel.tests (testSelection a') = (before ++ after)%list
           /\ TestSelectionModel.cursor (testSelection a')
              = (if bool_decide (after = [])
                 then Z.max 0 (llen before - 1) else llen before)
           /\ (forall next rest, after = next :: rest ->
               index (TestSelectionModel.tests (testSelection a'))
                 (TestSelectionModel.cursor (testSelection a')) = Done next)
           /\ TestSelectionModel.errorMsg (testSelection a')
              = TestSelectionModel.errorMsg (testSelection a)
       | Some err =>
           TestSelectionModel.tests (testSelection a') = (before ++ t :: after)%list
           /\ TestSelectionModel.cursor (testSelection a') = llen before
           /\ TestSelectionModel.errorMsg (testSelection a')
              = "Failed to delete test: " ++ err
       end.
Proof.
  intros Hload Htests Hcursor. unfold updateTestSelection. rewrite Hload.
  assert (Hlen : (llen (before ++ t :: after)%list =? 0) = false).
  { unfold llen. rewrite List.length_app. cbn [List.length]. apply Z.eqb_neq. lia. }
  rewrite Htests, Hlen.
  change (keyIs "d" ["up"; "k"]) with false.
  change (keyIs "d" ["down"; "j"]) with false.
  change (keyIs "d" ["enter"; " "]) with false.
  change (keyIs "d" ["d"]) with true. cbv iota.
  rewrite Htests.
  destruct (llen (before ++ t :: after)%list >? 0) eqn:Epos.
  2:{ unfold llen in Epos. rewrite List.length_app in Epos. cbn [List.length] in Epos.
      zbool. lia. }
  unfold deleteSelectedTest. rewrite Htests, Hlen, Hcursor.
  rewrite index_middle. cbn [mbind result_bind].
  destruct (DeleteTest w (db a) (Test.ID t)) as [d [err|]]; cbn [fst snd].
  { eexists. split; [reflexivity|]. cbn. rewrite Htests, Hcursor.
    repeat split; reflexivity. }
  rewrite remove_middle. cbn [mbind result_bind].
  eexists. split; [reflexivity|]. split; [reflexivity|].
  split; [reflexivity|].
  destruct after as [|next rest].
  - rewrite app_nil_r. rewrite bool_decide_eq_true_2 by reflexivity.
    destruct (Z.geb_spec (llen before) (llen before)); [|lia].
    destruct (llen before >? 0) eqn:E; cbn [andb]; cbn; zbool.
    + refine (conj eq_refl (conj _ (conj _ eq_refl))); [lia | discriminate].
    + rewrite Hcursor. pose proof (llen_nonneg before).
      refine (conj eq_refl (conj _ (conj _ eq_refl))); [lia | discriminate].
  - rewrite bool_decide_eq_false_2 by discriminate.
    destruct (Z.geb_spec (llen before) (llen (before ++ next :: rest)%list))
      as [Hge|_]; cbn [andb].
    { unfold llen in Hge. rewrite List.length_app in Hge. cbn [List.length] in Hge.
      lia. }
    cbn. rewrite Hcursor.
    refine (conj eq_refl (conj eq_refl (conj _ eq_refl))).
    intros next' rest' [= <- <-]. apply index_middle.
Qed.

Lemma deleting_a_test_removes_its_entry_witness :
  exists a',
    updateTestSelection
      (deletingWorld quietWorld)
      (choosing quizDB (tests quizDB) (NewApp quizDB "/home/user"))
      (KeyMsg "d") = Done (a', NoCmd)
    /\ (Test.ID <$> TestSelectionModel.tests (testSelection a')) = [2]
    /\ TestSelectionModel.cursor (testSelection a') = 0.
Proof.
  destruct (deleting_a_test_removes_its_entry (deletingWorld quietWorld)
              (choosing quizDB (tests quizDB) (NewApp quizDB "/home/user"))
              [] (tl (tests quizDB)) sampleTest eq_refl eq_refl eq_refl)
    as (a' & E & _ & _ & Ht & Hc & _).
  exists a'. split; [exact E|]. split; [rewrite Ht; reflexivity | exact Hc].
Defined.

(** ** The screen of test results *)

Lemma nonempty_of_llen {A} (l : list A) : 0 < llen l -> l <> [].
Proof. intros H ->. unfold llen in H. cbn in H. lia. Qed.

Lemma failed_is_not_no_result (rest err : string) :
  ("F" ++ rest) ++ err <> "No result selected for deletion".
Proof. rewrite append_cons. discriminate. Qed.

Lemma loadTestResults_resultsOK w a :
  resultsOK (testResults a) -> resultsOK (testResults (loadTestResults w a)).
Proof.
  intros (Hc & Hm & He). unfold loadTestResults.
  destruct (GetAllTestResults w (db a)) as [rs|err].
  - destruct (_ >=? _) eqn:E; cbn.
    + refine (conj _ (conj Hm He)). apply cursorOK_zero.
    + refine (conj _ (conj Hm He)). cbn in E. zbool.
      destruct Hc as [H0 _]. split; [exact H0 | right; exact E].
  - cbn. refine (conj Hc (conj Hm _)).
    apply (failed_is_not_no_result "ailed to load results: ").
Qed.

Lemma insert_cursorOK {A} c (l : list A) (x : A) :
  cursorOK c l -> cursorOK c (<[Z.to_nat c := x]> l).
Proof.
  intros [H0 [Hn|Hl]]; (split; [exact H0|]).
  - left. rewrite Hn. reflexivity.
  - right. unfold llen in *. rewrite length_insert. exact Hl.
Qed.

Lemma deleteTestResult_resultsOK w a :
  resultsOK (testResults a) ->
  (TestResultsModel.viewMode (testResults a) = "list" ->
   TestResultsModel.results (testResults a) <> []) ->
  returns (deleteTestResult w a) (fun a' => resultsOK (testResults a')).
Proof.
  intros Hok Hlist. pose proof Hok as (Hc & Hm & He).
  assert (Hdel : forall r,
    returns
      match DeleteTestResult w (db a) (TestResultData.ID r) with
      | (d, Some err) =>
          Done (with_testResults
                  (Results.with_errorMsg
                     ("Failed to delete result: " ++ err) (testResults a))
                  (with_db d a), NoCmd)
      | (d, None) =>
          let a' := loadTestResults w (with_db d a) in
          Done (with_testResults
                  (Results.with_successMsg
                     ("Deleted result for '" ++ TestResultData.TestName r
                      ++ "'")
                     (Results.with_selected "list" None (testResults a')))
                  a', NoCmd)
      end (fun a' => resultsOK (testResults a'))).
  { intros r. destruct (DeleteTestResult w (db a) _) as [d [err|]].
    - apply returns_Done. cbn. refine (conj Hc (conj Hm _)).
      apply (failed_is_not_no_result "ailed to delete result: ").
    - apply returns_Done.
      destruct (loadTestResults_resultsOK w (with_db d a) Hok)
        as (Hc' & _ & He').
      cbn. refine (conj Hc' (conj _ He')). left. split; reflexivity. }
  unfold deleteTestResult.
  destruct Hm as [[Hmode Hsel]|[Hmode [r Hsel]]]; rewrite Hmode, Hsel.
  - change (String.eqb "list" "detail") with false.
    change (String.eqb "list" "list") with true. cbv iota.
    specialize (Hlist Hmode). rewrite (proj2 (Z.gtb_lt _ _) (llen_pos _ Hlist)).
    cbn [andb].
    destruct (cursorOK_index _ _ Hc Hlist) as (r & Hr & _).
    rewrite Hr. cbn [mbind result_bind]. apply Hdel.
  - change (String.eqb "detail" "detail") with true. cbv iota.
    cbn [mbind result_bind]. apply Hdel.
Qed.

(** X19. The results screen never panics and is always in one of its two
    modes with the matching selection: the list mode has no selected
    result, the detail mode has one, and the cursor is on an entry of the
    list.  A deletion therefore always has its target -- the selected
    result in the detail mode, the entry under the cursor in the list
    mode -- and the report of a deletion without a target is never
    shown.  Loading the results keeps the screen in order as well. *)
Theorem results_screen_keeps_its_selection (w : World) (a : App) (msg : Msg) :
  resultsOK (testResults a) ->
  resultsOK (testResults (loadTestResults w a))
  /\ returns (updateTestResults w a msg)
       (fun a' => resultsOK (testResults a')).
Proof.
  intros Hok. split; [apply loadTestResults_resultsOK, Hok|].
  pose proof Hok as (Hc & Hm & He).
  assert (Hkeep : returns (Done (a, NoCmd))
                    (fun a' => resultsOK (testResults a'))).
  { apply returns_Done, Hok. }
  unfold updateTestResults. destruct msg as [key|]; [|exact Hkeep].
  destruct Hm as [[Hmode Hsel]|[Hmode Hsel]]; rewrite Hmode.
  - change (String.eqb "list" "list") with true. cbv iota.
    unfold handleResultsListInput.
    destruct (keyIs key ["up"; "k"]).
    { apply returns_Done. destruct (_ >? 0) eqn:E; [|exact Hok]. zbool.
      cbn. refine (conj _ (conj (or_introl (conj Hmode Hsel)) He)).
      apply cursorOK_up; assumption. }
    destruct (keyIs key ["down"; "j"]).
    { apply returns_Done. destruct (_ <? _) eqn:E; [|exact Hok]. zbool.
      cbn. refine (conj _ (conj (or_introl (conj Hmode Hsel)) He)).
      apply cursorOK_down; assumption. }
    destruct (keyIs key ["enter"; " "]).
    { destruct (_ >? 0) eqn:E; [|exact Hkeep]. zbool.
      destruct (cursorOK_index _ _ Hc (nonempty_of_llen _ E)) as (r & Hr & _).
      rewrite Hr. cbn [mbind result_bind]. unfold loadResultDetails.
      destruct (GetTestResultAnswers w (db a) _) as [answers|err];
        apply returns_Done; cbn.
      - refine (conj _ (conj _ He)); [apply insert_cursorOK, Hc|].
        right. split; [reflexivity | eexists; reflexivity].
      - refine (conj Hc (conj _ _)).
        + right. split; [reflexivity | eexists; reflexivity].
        + apply (failed_is_not_no_result "ailed to load result details: "). }
    destruct (keyIs key ["d"]).
    { destruct (_ >? 0) eqn:E; [|exact Hkeep]. zbool.
      apply deleteTestResult_resultsOK; [exact Hok|].
      intros _. apply nonempty_of_llen, E. }
    destruct (keyIs key ["r"]).
    { apply returns_Done.
      destruct (loadTestResults_resultsOK w a Hok) as (Hc' & Hm' & He').
      cbn. refine (conj Hc' (conj Hm' He')). }
    destruct (keyIs key ["q"]); apply returns_Done; exact Hok.
  - change (String.eqb "detail" "list") with false.
    change (String.eqb "detail" "detail") with true. cbv iota.
    unfold handleResultsDetailInput.
    destruct (keyIs key ["b"]).
    { apply returns_Done. cbn. refine (conj Hc (conj _ He)).
      left. split; reflexivity. }
    destruct (keyIs key ["d"]).
    { apply deleteTestResult_resultsOK; [exact Hok|].
      rewrite Hmode. discriminate. }
    destruct (keyIs key ["q"]); apply returns_Done; exact Hok.
Qed.

Lemma results_screen_keeps_its_selection_witness :
  returns (updateTestResults quietWorld (NewApp workingDB "/home/user")
             (KeyMsg "r"))
    (fun a' => resultsOK (testResults a')).
Proof.
  apply (results_screen_keeps_its_selection quietWorld
           (NewApp workingDB "/home/user") (KeyMsg "r")).
  split; [apply cursorOK_zero|].
  split; [left; split; reflexivity | discriminate].
Defined.
